(** * Email masking pipeline: a shallow embedding of
      [scripts/email_masking_pipeline.py]

    The development follows the script top to bottom:
    - [PyStr]: the handful of [str] operations the script uses;
    - [mask_email]: the host-language masking function (lines 19-41);
    - [Sql]: the engine's [SPLIT_PART] and [CONCAT], and the masking
      expression of the published table (line 154);
    - [Py]: values produced by [json.load], subscripting, and the
      flattening loop of Step 1 (lines 69-86);
    - [Engine]: tables and the statements of Steps 2 to 4;
    - [Fs]: the file system the script reads and writes, its files
      known by their canonical paths, with the exports of Step 5;
    - [flatten_and_transform_customer_data] and [main];
    - [Analytics]: the domain expression of [scripts/analytics_queries.py];
    - [Sample]: the documents and file systems the examples run on.

    Python strings are modelled as [string]; a character is an [ascii]. *)

From Stdlib Require Import Ascii String ZArith Lia.
From stdpp Require Import gmap strings list fin_maps.

#[local] Set Warnings "-register-all".

(** ** Python [str] operations *)

Module PyStr.

(** [c in s] for a one-character needle. *)
Fixpoint contains (c : ascii) (s : string) : bool :=
  match s with
  | EmptyString => false
  | String x s' => if Ascii.eqb x c then true else contains c s'
  end.

(** [s.count(c)] for a one-character needle. *)
Fixpoint count (c : ascii) (s : string) : nat :=
  match s with
  | EmptyString => 0
  | String x s' => (if Ascii.eqb x c then 1 else 0) + count c s'
  end.

(** [s.split(sep, 1)]: cut at the first separator only. The list has
    one element when [sep] does not occur, two otherwise. *)
Fixpoint split1 (sep : ascii) (s : string) : list string :=
  match s with
  | EmptyString => [EmptyString]
  | String x s' =>
      if Ascii.eqb x sep then [EmptyString; s']
      else match split1 sep s' with
           | p :: ps => String x p :: ps
           | [] => [String x EmptyString]
           end
  end.

(** [s * n]. *)
Fixpoint mul (s : string) (n : nat) : string :=
  match n with
  | O => EmptyString
  | S n' => s +:+ mul s n'
  end.

(** Truthiness of a [str]: [not s] holds for the empty string. *)
Definition not_ (s : string) : bool :=
  match s with EmptyString => true | _ => false end.

End PyStr.

(** ** [mask_email] (lines 19-41) *)

(** The tuple unpacking of line 36 needs exactly two parts; the guard of
    line 32 guarantees them ([split1_contains] below), so the last branch
    is never taken. *)
Definition mask_email (email : string) : string :=
  if PyStr.not_ email || negb (PyStr.contains "@" email) then email
  else
    match PyStr.split1 "@" email with
    | [local_part; domain] =>
        let masked_local := PyStr.mul "*" 7 in
        masked_local +:+ "@" +:+ domain
    | _ => email
    end.

(** ** The engine's string functions *)

Module Sql.

(** All the parts of [s] between occurrences of [sep]. *)
Fixpoint split (sep : ascii) (s : string) : list string :=
  match s with
  | EmptyString => [EmptyString]
  | String x s' =>
      if Ascii.eqb x sep then EmptyString :: split sep s'
      else match split sep s' with
           | p :: ps => String x p :: ps
           | [] => [String x EmptyString]
           end
  end.

(** [SPLIT_PART(s, sep, index)]: the part at the 1-based [index], the
    empty string when there is no such part. *)
Definition split_part (s : string) (sep : ascii) (index : nat) : string :=
  nth (index - 1) (split sep s) EmptyString.

(** [CONCAT(a, b)] on two non-NULL strings. *)
Definition concat (a b : string) : string := a +:+ b.

(** Line 154: [CONCAT('*******@', SPLIT_PART(Email, '@', 2))]. *)
Definition email_masked (Email : string) : string :=
  concat "*******@" (split_part Email "@" 2).

End Sql.

(** ** Python values, exceptions and the loop of Step 1 *)

Module Py.

(** What [json.load] returns: [None], [bool], [int], [str], [list] and
    [dict] (keys are strings, in file order; a repeated key has already
    been resolved by the parser). JSON numbers are taken to be integers. *)
Inductive value : Type :=
| VNone
| VBool (b : bool)
| VInt (n : Z)
| VStr (s : string)
| VList (l : list value)
| VDict (kv : list (string * value)).

(** The exceptions that can leave the script. [DuckDBError] stands for
    every exception of the engine's own hierarchy (binder, conversion
    and IO errors); none of them is a [FileNotFoundError]. *)
Inductive exn : Type :=
| FileNotFoundError
| FileExistsError
| NotADirectoryError
| IsADirectoryError
| ValueError
| KeyError (key : value)
| IndexError
| TypeError
| DuckDBError.

Inductive result (A : Type) : Type :=
| Ok (a : A)
| Raise (e : exn).
Arguments Ok {A} a.
Arguments Raise {A} e.

#[global] Instance result_ret : MRet result := @Ok.
#[global] Instance result_bind : MBind result := fun A B f r =>
  match r with
  | Ok a => f a
  | Raise e => Raise e
  end.

(** [d.get(key)] on the entries of a [dict]. *)
Fixpoint dict_get (key : string) (kv : list (string * value)) : option value :=
  match kv with
  | [] => None
  | (k, v) :: kv' => if String.eqb k key then Some v else dict_get key kv'
  end.

(** [obj[key]] for a string key: only a [dict] accepts it. *)
Definition getitem (obj : value) (key : string) : result value :=
  match obj with
  | VDict kv =>
      match dict_get key kv with
      | Some v => Ok v
      | None => Raise (KeyError (VStr key))
      end
  | _ => Raise TypeError
  end.

(** [obj[0]]: the first element of a [list], the first character of a
    [str]; a [dict] read from JSON has no integer key. *)
Definition getitem_0 (obj : value) : result value :=
  match obj with
  | VList (x :: _) => Ok x
  | VList [] => Raise IndexError
  | VStr (String c _) => Ok (VStr (String c EmptyString))
  | VStr EmptyString => Raise IndexError
  | VDict _ => Raise (KeyError (VInt 0))
  | _ => Raise TypeError
  end.

Fixpoint chars (s : string) : list value :=
  match s with
  | EmptyString => []
  | String c s' => VStr (String c EmptyString) :: chars s'
  end.

(** What [for x in obj] ranges over. *)
Definition iter (obj : value) : result (list value) :=
  match obj with
  | VList l => Ok l
  | VStr s => Ok (chars s)
  | VDict kv => Ok (map (fun e => VStr (fst e)) kv)
  | _ => Raise TypeError
  end.

(** The dictionary appended at lines 77-86. *)
Record flat_customer : Type := {
  CompanyID : value;
  CompanyName : value;
  CustomerName : value;
  Email : value;
  Phone : value;
  DateOfBirth : value;
  PlaceOfBirth : value;
  Role : value
}.

(** The dictionary display of lines 77-86; the values are evaluated in
    the order written. *)
Definition flat_of (company_id company_name customer : value)
  : result flat_customer :=
  name ← getitem customer "Name";
  email ← getitem customer "Email";
  phone ← getitem customer "Phone";
  birth ← getitem customer "Birth";
  place ← getitem customer "Place of Birth";
  role ← getitem customer "Role";
  mret {| CompanyID := company_id;
          CompanyName := company_name;
          CustomerName := name;
          Email := email;
          Phone := phone;
          DateOfBirth := birth;
          PlaceOfBirth := place;
          Role := role |}.

(** The loop of lines 76-86, [flattened_customers] being the list built
    so far. *)
Fixpoint for_customer_in (company_id company_name : value)
    (customers : list value) (flattened_customers : list flat_customer)
  : result (list flat_customer) :=
  match customers with
  | [] => Ok flattened_customers
  | customer :: customers' =>
      r ← flat_of company_id company_name customer;
      for_customer_in company_id company_name customers'
        (flattened_customers ++ [r])
  end.

(** Lines 69-86: [flattened_customers] from the loaded document. *)
Definition flatten (data : value) : result (list flat_customer) :=
  company_id ← getitem data "CompanyID";
  company_infos ← getitem data "CompanyInfo";
  company_info ← getitem_0 company_infos;
  company_name ← getitem company_info "Name";
  customers ← getitem company_info "Customers";
  customers ← iter customers;
  for_customer_in company_id company_name customers [].

(** A customer entry of the input: an object with the six fields the
    loop reads. *)
Definition customer_fields : list string :=
  ["Name"; "Email"; "Phone"; "Birth"; "Place of Birth"; "Role"].

Definition is_customer (customer : value) : bool :=
  forallb (fun k => match getitem customer k with
                    | Ok _ => true
                    | Raise _ => false
                    end)
          customer_fields.

(** [obj.get(key)]: the value under [key], [None] without it. *)
Definition get (obj : value) (key : string) : value :=
  match getitem obj key with
  | Ok v => v
  | Raise _ => VNone
  end.

(** The exceptions a subscript or an iteration can raise. *)
Definition lookup_error (e : exn) : bool :=
  match e with
  | TypeError | IndexError | KeyError _ => true
  | _ => false
  end.

End Py.

Export Py (value(..), exn(..), result(..)).

(** ** The engine: tables and the statements of Steps 2 to 4 *)

Module Engine.

(** A table: its column names and its rows, one cell per column. A cell
    is NULL ([VNone]), a scalar, a LIST ([VList]) or a STRUCT ([VDict]).
    Column names are compared exactly. *)
Record table : Type := { columns : list string; rows : list (list value) }.

Fixpoint index_of (c : string) (cols : list string) : option nat :=
  match cols with
  | [] => None
  | x :: cols' => if String.eqb x c then Some 0 else S <$> index_of c cols'
  end.

Definition has_column (t : table) (c : string) : bool :=
  bool_decide (is_Some (index_of c (columns t))).

Definition cell (t : table) (row : list value) (c : string) : value :=
  match index_of c (columns t) with
  | Some i => nth i row VNone
  | None => VNone
  end.

(** [read_json_auto] on a file holding one object: one row, one column
    per key. (Line 69 has already rejected every other document.) *)
Definition read_json_auto (data : value) : result table :=
  match data with
  | VDict kv => Ok {| columns := map fst kv; rows := [map snd kv] |}
  | _ => Raise DuckDBError
  end.

(** The type that [read_json_auto] gives to the values of a column, as
    far as unnesting looks at it: a STRUCT with its fields, or not a
    STRUCT. The fields of the objects met are put together in order of
    first appearance, field by field and level by level; [null] fits
    every type; an object beside a value of another kind, and an object
    without fields, give no STRUCT type. *)
Inductive shape : Type :=
| Null
| Plain
| Struct (fields : list (string * shape)).

Fixpoint shape_of (v : value) : shape :=
  match v with
  | VNone => Null
  | VDict ((_ :: _) as kv) =>
      Struct (map (fun e => (fst e, shape_of (snd e))) kv)
  | _ => Plain
  end.

Fixpoint field (k : string) (fs : list (string * shape)) : option shape :=
  match fs with
  | [] => None
  | (k', t) :: fs' => if String.eqb k' k then Some t else field k fs'
  end.

Fixpoint merge (a b : shape) : shape :=
  match a, b with
  | Null, _ => b
  | _, Null => a
  | Struct fa, Struct fb =>
      Struct (map (fun e => (fst e, match field (fst e) fb with
                                    | Some y => merge (snd e) y
                                    | None => snd e
                                    end)) fa
              ++ filter (fun e => bool_decide (field (fst e) fa = None)) fb)
  | _, _ => Plain
  end.

Definition elements (cell : value) : list value :=
  match cell with VList l => l | _ => [] end.

(** The type of the elements of a list column. *)
Definition element_shape (cells : list value) : shape :=
  fold_left merge (map shape_of (concat (map elements cells))) Null.

(** [recursive := true] opens a STRUCT into its fields and every STRUCT
    among them again, all the way down: the columns are the leaves, each
    reached by a path of field names and named after the last of them.
    A LIST inside a STRUCT stays a cell. *)
Fixpoint leaves (t : shape) : list (list string) :=
  match t with
  | Struct fs =>
      flat_map (fun e => match snd e with
                         | Struct _ => map (cons (fst e)) (leaves (snd e))
                         | _ => [[fst e]]
                         end) fs
  | _ => []
  end.

Definition leaf_name (p : list string) : string := default EmptyString (last p).

(** The field names of a STRUCT type, and the STRUCT types without a
    STRUCT among their fields: their leaves are their fields. *)
Definition fields_of (t : shape) : list string :=
  match t with Struct fs => map fst fs | _ => [] end.

Definition is_struct (t : shape) : bool :=
  match t with Struct _ => true | _ => false end.

Definition flat_struct (t : shape) : bool :=
  match t with
  | Struct fs => forallb (fun e => negb (is_struct (snd e))) fs
  | _ => false
  end.

(** The value at the end of a path; a field that the value lacks is
    NULL. *)
Fixpoint extract (p : list string) (v : value) : value :=
  match p with
  | [] => v
  | k :: p' =>
      match v with
      | VDict kv => match Py.dict_get k kv with
                    | Some x => extract p' x
                    | None => VNone
                    end
      | _ => VNone
      end
  end.

(** One element of the list becomes one row of the leaves. An element
    that is neither a STRUCT nor NULL leaves the fragment modelled
    here. *)
Definition struct_row (paths : list (list string)) (e : value)
  : result (list value) :=
  match e with
  | VDict _ | VNone => Ok (map (fun p => extract p e) paths)
  | _ => Raise DuckDBError
  end.

(** A NULL or empty list yields no row. *)
Definition unnest_cell (paths : list (list string)) (cell : value)
  : result (list (list value)) :=
  match cell with
  | VList l => mapM (struct_row paths) l
  | VNone => Ok []
  | _ => Raise DuckDBError
  end.

(** [SELECT kept..., UNNEST(list_col, recursive := true) FROM t], where
    [kept] pairs each plain column with its output name. The list is
    unnested into rows and its STRUCT into columns. When the elements
    have no STRUCT type (the lists are empty or hold only NULL), the
    engine gives the unnested values one column, named after the
    expression; the script never asks for that column and it is left
    out here. *)
Definition select_unnest (kept : list (string * string)) (list_col : string)
    (t : table) : result table :=
  if forallb (has_column t) (list_col :: map fst kept) then
    let paths :=
      leaves (element_shape (map (fun row => cell t row list_col) (rows t))) in
    rows' ← mapM (fun row =>
               sub ← unnest_cell paths (cell t row list_col);
               mret (map (fun r => map (fun k => cell t row (fst k)) kept ++ r) sub))
             (rows t);
    mret {| columns := map snd kept ++ map leaf_name paths;
            rows := concat rows' |}
  else Raise DuckDBError.

(** An entry of a select list. *)
Inductive item : Type :=
| Col (name alias : string)
| Fn (f : value -> result value) (arg alias : string)
| Param (v : value) (alias : string).

Definition alias_of (i : item) : string :=
  match i with Col _ a | Fn _ _ a | Param _ a => a end.

Definition bound (t : table) (i : item) : bool :=
  match i with
  | Col c _ | Fn _ c _ => has_column t c
  | Param _ _ => true
  end.

Definition eval (t : table) (row : list value) (i : item) : result value :=
  match i with
  | Col c _ => Ok (cell t row c)
  | Fn f c _ => f (cell t row c)
  | Param v _ => Ok v
  end.

(** [SELECT items FROM t]. *)
Definition select (items : list item) (t : table) : result table :=
  if forallb (bound t) items then
    rows' ← mapM (fun row => mapM (eval t row) items) (rows t);
    mret {| columns := map alias_of items; rows := rows' |}
  else Raise DuckDBError.

(** Lines 101-107. *)
Definition customers_flattened (customers_raw : table) : result table :=
  select_unnest [("CompanyID", "CompanyID")] "CompanyInfo" customers_raw.

(** Lines 110-117. *)
Definition customers_tabular (customers_flattened : table) : result table :=
  select_unnest [("CompanyID", "CompanyID"); ("Name", "CompanyName")]
    "Customers" customers_flattened.

(** Line 128, [df['Email'].apply(mask_email)]: a missing column is a
    [KeyError]; a NULL reaches [mask_email] as [None] and passes the
    guard of line 32; a cell of another type leaves the fragment
    modelled here. *)
Definition apply_mask_email (customers_tabular : table) : result (list value) :=
  if has_column customers_tabular "Email" then
    mapM (fun row =>
            match cell customers_tabular row "Email" with
            | VStr email => Ok (VStr (mask_email email))
            | VNone => Ok VNone
            | _ => Raise TypeError
            end)
         (rows customers_tabular)
  else Raise (KeyError (VStr "Email")).

(** Lines 131-144. The parameter is the whole Python list: every row
    receives the list itself in [Email_Masked]. The table stays in
    memory and is not read again. *)
Definition customers_secure (customers_tabular : table)
    (Email_Masked : list value) : result table :=
  select [Col "CompanyID" "CompanyID";
          Col "CompanyName" "CompanyName";
          Col "Name" "CustomerName";
          Col "Email" "Email_Original";
          Param (VList Email_Masked) "Email_Masked";
          Col "Phone" "Phone";
          Col "Birth" "DateOfBirth";
          Col "Place of Birth" "PlaceOfBirth";
          Col "Role" "Role"]
         customers_tabular.

(** Line 154 on a cell: [SPLIT_PART] of NULL is NULL and [CONCAT] skips
    NULL arguments; a cell that is neither a string nor NULL leaves the
    fragment modelled here. *)
Definition email_masked (Email : value) : result value :=
  match Email with
  | VStr email => Ok (VStr (Sql.email_masked email))
  | VNone => Ok (VStr "*******@")
  | _ => Raise DuckDBError
  end.

(** Lines 147-160. *)
Definition customers_secure_sql (customers_tabular : table) : result table :=
  select [Col "CompanyID" "CompanyID";
          Col "CompanyName" "CompanyName";
          Col "Name" "CustomerName";
          Col "Email" "Email_Original";
          Fn email_masked "Email" "Email_Masked";
          Col "Phone" "Phone";
          Col "Birth" "DateOfBirth";
          Col "Place of Birth" "PlaceOfBirth";
          Col "Role" "Role"]
         customers_tabular.

(** Lines 170-181: the table printed by Step 4. *)
Definition displayed (customers_secure_sql : table) : result table :=
  select [Col "CompanyID" "CompanyID";
          Col "CompanyName" "CompanyName";
          Col "CustomerName" "CustomerName";
          Col "Email_Masked" "Email_Masked";
          Col "Phone" "Phone";
          Col "DateOfBirth" "DateOfBirth";
          Col "PlaceOfBirth" "PlaceOfBirth";
          Col "Role" "Role"]
         customers_secure_sql.

(** Steps 2 to 4 in one piece: the tables built in memory from the
    document, up to the one that Step 5 exports. *)
Definition in_memory (data : value) : result table :=
  customers_raw ← read_json_auto data;
  customers_flattened ← customers_flattened customers_raw;
  customers_tabular ← customers_tabular customers_flattened;
  Email_Masked ← apply_mask_email customers_tabular;
  _ ← customers_secure customers_tabular Email_Masked;
  customers_secure_sql ← customers_secure_sql customers_tabular;
  _ ← displayed customers_secure_sql;
  mret customers_secure_sql.

(** An [Email] cell that Step 3 takes: a string or NULL. *)
Definition email_cell (v : value) : bool :=
  match v with VStr _ | VNone => true | _ => false end.

(** The [Email_Masked] cell made from an [Email] cell. *)
Definition masked_cell (Email : value) : value :=
  match email_masked Email with
  | Ok m => m
  | Raise _ => VNone
  end.

(** The exported row of one customer of one company, and the same row
    written from a record of Step 1. *)
Definition exported_row (company_id company_name customer : value)
  : list value :=
  [company_id; company_name;
   Py.get customer "Name"; Py.get customer "Email";
   masked_cell (Py.get customer "Email");
   Py.get customer "Phone"; Py.get customer "Birth";
   Py.get customer "Place of Birth"; Py.get customer "Role"].

Definition record_row (r : Py.flat_customer) : list value :=
  [Py.CompanyID r; Py.CompanyName r; Py.CustomerName r; Py.Email r;
   masked_cell (Py.Email r); Py.Phone r; Py.DateOfBirth r;
   Py.PlaceOfBirth r; Py.Role r].

(** The customers of a company entry. *)
Definition customers_of (company : value) : list value :=
  elements (Py.get company "Customers").

(** A value that is no STRUCT, and an object whose fields hold none. *)
Definition scalar (v : value) : bool :=
  match v with VDict _ => false | _ => true end.

Definition flat (obj : value) : bool :=
  match obj with
  | VDict kv => forallb (fun e => scalar (snd e)) kv
  | _ => false
  end.

(** The documents of the shape the script is written for, on which
    Steps 2 to 4 are followed here to the end: an object with
    [CompanyID] and a list [CompanyInfo] of companies, each with a
    [Name] and a list [Customers] of customer entries with the six
    fields, whose [Email] is a string or null; no field of a company or
    of a customer holds an object; and there is at least one customer
    in all. *)
Definition accepted_customer (customer : value) : bool :=
  Py.is_customer customer && email_cell (Py.get customer "Email") &&
  flat customer.

Definition accepted_company (company : value) : bool :=
  match Py.getitem company "Name", Py.getitem company "Customers" with
  | Ok _, Ok (VList customers) =>
      forallb accepted_customer customers && flat company
  | _, _ => false
  end.

Definition accepted (data : value) : bool :=
  match Py.getitem data "CompanyID", Py.getitem data "CompanyInfo" with
  | Ok _, Ok (VList companies) =>
      forallb accepted_company companies &&
      existsb (fun company =>
                 match customers_of company with [] => false | _ => true end)
              companies
  | _, _ => false
  end.

(** Lines 242-245, [CASE WHEN Email_Masked LIKE '*******@%' ...]: the
    pattern has no wildcard before its final [%], so it asks for a
    prefix; on NULL the comparison is NULL and the [ELSE] branch is
    taken. *)
Definition masking_status (Email_Masked : value) : result value :=
  match Email_Masked with
  | VStr s =>
      Ok (VStr (if String.prefix "*******@" s
                then "[OK] Masked Correctly"
                else "[FAIL] Masking Failed"))
  | VNone => Ok (VStr "[FAIL] Masking Failed")
  | _ => Raise DuckDBError
  end.

(** Lines 237-247: the table printed by Step 7. *)
Definition verification (customers_secure_sql : table) : result table :=
  select [Col "CustomerName" "CustomerName";
          Col "Email_Original" "Email_Original";
          Col "Email_Masked" "Email_Masked";
          Fn masking_status "Email_Masked" "MaskingStatus"]
         customers_secure_sql.

End Engine.

Export Engine (table(..)).

(** ** The file system *)

Module Fs.

(** A file is known by its canonical path: the names that lead to it
    from the root, without [.] and [..]; the root is [[]]. Links are not
    modelled, so a file has one path only. *)
Abbreviation path := (list string).

Definition kept (c : string) : bool :=
  negb (String.eqb c EmptyString) && negb (String.eqb c ".").

(** The components of a path string; empty ones and [.] do not count. *)
Definition components (file : string) : list string :=
  filter kept (Sql.split "/" file).

Definition absolute (file : string) : bool := String.prefix "/" file.

(** Where a path string starts: at the root, or at the working
    directory [cwd]. *)
Definition start (cwd : path) (file : string) : path :=
  if absolute file then [] else cwd.

(** One component further: down by a name, up by [..]; the root is its
    own parent. *)
Definition step (cur : path) (c : string) : path :=
  if String.eqb c ".." then removelast cur else cur ++ [c].

(** The canonical path that a path string leads to. *)
Definition parse (cwd : path) (file : string) : path :=
  fold_left step (components file) (start cwd file).

(** What a regular file holds: text (with the value [json.load] reads
    from it, if it is valid JSON), a CSV or Parquet image of a table,
    or a database with its tables. *)
Inductive content : Type :=
| Text (parsed : option value)
| Csv (t : table)
| Parquet (t : table)
| Database (tables : gmap string table).

Inductive node : Type :=
| Dir
| File (c : content).

Abbreviation fs := (gmap path node).

(** The regular files of a file system. *)
Definition files (s : fs) : gmap path content :=
  omap (fun n => match n with File c => Some c | Dir => None end) s.

(** What is found at a path. The root, the working directory and the
    directories between them are there for as long as the script
    runs. *)
Definition node_at (cwd p : path) (s : fs) : option node :=
  if bool_decide (p `prefix_of` cwd) then Some Dir else s !! p.

(** Effects: the file system is threaded, and stays as it is when an
    exception is raised. *)
Definition io (A : Type) : Type := fs -> result A * fs.

#[global] Instance io_ret : MRet io := fun A a s => (Ok a, s).
#[global] Instance io_bind : MBind io := fun A B f m s =>
  match m s with
  | (Ok a, s') => f a s'
  | (Raise e, s') => (Raise e, s')
  end.

Definition raise {A : Type} (e : exn) : io A := fun s => (Raise e, s).

Definition lift {A : Type} (r : result A) : io A := fun s => (r, s).

(** Path resolution by the operating system, from the directory [cur]:
    every component but the last must lead to a directory. *)
Fixpoint resolve_from (cwd cur : path) (todo : list string) (s : fs)
  : result path :=
  match todo with
  | [] => Ok cur
  | c :: todo' =>
      match todo' with
      | [] => Ok (step cur c)
      | _ =>
          match node_at cwd (step cur c) s with
          | Some Dir => resolve_from cwd (step cur c) todo' s
          | Some (File _) => Raise NotADirectoryError
          | None => Raise FileNotFoundError
          end
      end
  end.

Definition resolve (cwd : path) (file : string) (s : fs) : result path :=
  resolve_from cwd (start cwd file) (components file) s.

(** [Path(p).mkdir(parents=True, exist_ok=True)], component by
    component from the directory [cur]: an existing directory is
    passed, a missing one is created, a regular file stops the walk. *)
Fixpoint mkdir_from (cwd cur : path) (todo : list string) (s : fs)
  : result unit * fs :=
  match todo with
  | [] => (Ok (), s)
  | c :: todo' =>
      let p := step cur c in
      match node_at cwd p s with
      | Some Dir => mkdir_from cwd p todo' s
      | Some (File _) =>
          (Raise (match todo' with
                  | [] => FileExistsError
                  | _ => NotADirectoryError
                  end), s)
      | None => mkdir_from cwd p todo' (<[p := Dir]> s)
      end
  end.

Definition mkdir (cwd : path) (dir : string) : io unit :=
  mkdir_from cwd (start cwd dir) (components dir).

(** The paths that [mkdir] walks through, the directory itself last. *)
Fixpoint passed_from (cur : path) (todo : list string) : list path :=
  match todo with
  | [] => []
  | c :: todo' => step cur c :: passed_from (step cur c) todo'
  end.

Definition passed (cwd : path) (dir : string) : list path :=
  passed_from (start cwd dir) (components dir).

Definition is_file (o : option node) : bool :=
  match o with Some (File _) => true | _ => false end.

Definition is_dir (o : option node) : bool :=
  match o with Some Dir => true | _ => false end.

(** [open(file, 'r')] followed by reading the whole file. *)
Definition open_read (cwd : path) (file : string) : io content := fun s =>
  match file with
  | EmptyString => (Raise FileNotFoundError, s)
  | _ =>
      match resolve cwd file s with
      | Raise e => (Raise e, s)
      | Ok p =>
          match node_at cwd p s with
          | Some (File c) => (Ok c, s)
          | Some Dir => (Raise IsADirectoryError, s)
          | None => (Raise FileNotFoundError, s)
          end
      end
  end.

(** Lines 65-66. *)
Definition json_load (cwd : path) (file : string) : io value :=
  c ← open_read cwd file;
  match c with
  | Text (Some data) => mret data
  | _ => raise ValueError
  end.

(** The engine opens a file for writing: the directory above must
    exist and the path must not be a directory. *)
Definition writable (cwd p : path) (s : fs) : bool :=
  is_dir (node_at cwd (removelast p) s) && negb (is_dir (node_at cwd p s)).

Definition write (cwd : path) (file : string) (c : content) : io unit :=
  fun s =>
  match resolve cwd file s with
  | Ok p =>
      if writable cwd p s then (Ok (), <[p := File c]> s)
      else (Raise DuckDBError, s)
  | Raise _ => (Raise DuckDBError, s)
  end.

(** [COPY t TO file (HEADER, DELIMITER ',')]. *)
Definition copy_to_csv (cwd : path) (t : table) (file : string) : io unit :=
  write cwd file (Csv t).

(** [COPY t TO file (FORMAT PARQUET)]. *)
Definition copy_to_parquet (cwd : path) (t : table) (file : string)
  : io unit :=
  write cwd file (Parquet t).

(** What the engine finds when it opens [file] for reading. *)
Definition found (cwd : path) (file : string) (s : fs) : option node :=
  match resolve cwd file s with
  | Ok p => node_at cwd p s
  | Raise _ => None
  end.

(** [read_json_auto(file)]: the engine reads the document itself. *)
Definition read_json_auto (cwd : path) (file : string) : io table := fun s =>
  match found cwd file s with
  | Some (File (Text (Some data))) => (Engine.read_json_auto data, s)
  | _ => (Raise DuckDBError, s)
  end.

(** [read_parquet(file)]. *)
Definition read_parquet (cwd : path) (file : string) : io table := fun s =>
  match found cwd file s with
  | Some (File (Parquet t)) => (Ok t, s)
  | _ => (Raise DuckDBError, s)
  end.

(** [duckdb.connect(database=file)]: the tables of the database file,
    which is created empty when the path is free. *)
Definition connect (cwd : path) (file : string)
  : io (gmap string table) := fun s =>
  match resolve cwd file s with
  | Ok p =>
      match node_at cwd p s with
      | Some (File (Database tables)) => (Ok tables, s)
      | Some _ => (Raise DuckDBError, s)
      | None =>
          if writable cwd p s then (Ok ∅, <[p := File (Database ∅)]> s)
          else (Raise DuckDBError, s)
      end
  | Raise _ => (Raise DuckDBError, s)
  end.

(** Lines 208-213: [CREATE TABLE IF NOT EXISTS name AS SELECT * FROM
    read_parquet(parquet_path)] on the database file, then [close]. *)
Definition create_table_if_not_exists (cwd : path)
    (db_path name parquet_path : string) : io unit :=
  tables ← connect cwd db_path;
  match tables !! name with
  | Some _ => mret ()
  | None =>
      t ← read_parquet cwd parquet_path;
      write cwd db_path (Database (<[name := t]> tables))
  end.

(** [s'] keeps what [s] has, outside the paths [outs]: regular files
    elsewhere are the same, a directory stays a directory and a regular
    file stays a regular file. *)
Definition preserves (outs : list path) (s s' : fs) : Prop :=
  (forall p, p ∉ outs -> files s' !! p = files s !! p) /\
  (forall p, s !! p = Some Dir -> s' !! p = Some Dir) /\
  (forall p, is_file (s !! p) = true -> is_file (s' !! p) = true).

End Fs.

Export Fs (content(..), node(..)).

(** ** The pipeline (lines 44-260) and the entry point (lines 263-276)

    Console output is not modelled. Steps 6 and 7 only read
    [customers_secure_sql], whose columns they name exist, and print. *)

Definition flatten_and_transform_customer_data (cwd : Fs.path)
    (json_file_path : string) (output_dir : string) : Fs.io unit :=
  Fs.mkdir cwd output_dir;;
  (* Step 1 *)
  data ← Fs.json_load cwd json_file_path;
  flattened_customers ← Fs.lift (Py.flatten data);
  (* Step 2 *)
  customers_raw ← Fs.read_json_auto cwd json_file_path;
  customers_flattened ← Fs.lift (Engine.customers_flattened customers_raw);
  customers_tabular ← Fs.lift (Engine.customers_tabular customers_flattened);
  (* Step 3 *)
  Email_Masked ← Fs.lift (Engine.apply_mask_email customers_tabular);
  customers_secure ← Fs.lift (Engine.customers_secure customers_tabular Email_Masked);
  customers_secure_sql ← Fs.lift (Engine.customers_secure_sql customers_tabular);
  (* Step 4 *)
  result ← Fs.lift (Engine.displayed customers_secure_sql);
  (* Step 5 *)
  let csv_path := output_dir +:+ "/customers_secure.csv" in
  Fs.copy_to_csv cwd customers_secure_sql csv_path;;
  let parquet_path := output_dir +:+ "/customers_secure.parquet" in
  Fs.copy_to_parquet cwd customers_secure_sql parquet_path;;
  let db_path := output_dir +:+ "/customers.duckdb" in
  Fs.create_table_if_not_exists cwd db_path "customers_secure" parquet_path.

Definition JSON_FILE : string := "../data/Customers.json".
Definition OUTPUT_DIR : string := "../data".

(** The configured paths, seen from the working directory. *)
Definition data_dir (cwd : Fs.path) : Fs.path := Fs.parse cwd OUTPUT_DIR.
Definition input_file (cwd : Fs.path) : Fs.path := Fs.parse cwd JSON_FILE.
Definition csv_file (cwd : Fs.path) : Fs.path :=
  Fs.parse cwd (OUTPUT_DIR +:+ "/customers_secure.csv").
Definition parquet_file (cwd : Fs.path) : Fs.path :=
  Fs.parse cwd (OUTPUT_DIR +:+ "/customers_secure.parquet").
Definition db_file (cwd : Fs.path) : Fs.path :=
  Fs.parse cwd (OUTPUT_DIR +:+ "/customers.duckdb").

(** How the script ends: normally; normally after reporting the missing
    input (lines 271-273); or with the exception printed and raised
    again (lines 274-276). *)
Inductive outcome : Type :=
| Completed
| MissingInputReported
| Propagated (e : exn).

Definition main (cwd : Fs.path) (s : Fs.fs) : outcome * Fs.fs :=
  match flatten_and_transform_customer_data cwd JSON_FILE OUTPUT_DIR s with
  | (Ok _, s') => (Completed, s')
  | (Raise FileNotFoundError, s') => (MissingInputReported, s')
  | (Raise e, s') => (Propagated e, s')
  end.

(** ** The analytics script ([scripts/analytics_queries.py]) *)

Module Analytics.

(** Line 49, [SPLIT_PART(Email_Masked, '@', 2) as EmailDomain]. *)
Definition EmailDomain (Email_Masked : string) : string :=
  Sql.split_part Email_Masked "@" 2.

End Analytics.

(** ** Sample inputs *)

Module Sample.

Definition carlos : value :=
  VDict [("Name", VStr "Carlos"); ("Email", VStr "carlos91@gmail.com");
         ("Phone", VStr "555-0100"); ("Birth", VStr "1991-04-02");
         ("Place of Birth", VStr "Lima"); ("Role", VStr "Owner")].

Definition zoe : value :=
  VDict [("Name", VStr "Zoe"); ("Email", VStr "zoe@example.org");
         ("Phone", VStr "555-0101"); ("Birth", VStr "1988-11-23");
         ("Place of Birth", VStr "Quito"); ("Role", VStr "Buyer")].

Definition acme : value :=
  VDict [("Name", VStr "Acme"); ("Customers", VList [carlos])].

Definition globex : value :=
  VDict [("Name", VStr "Globex"); ("Customers", VList [zoe])].

(** One company, one customer. *)
Definition document : value :=
  VDict [("CompanyID", VInt 1); ("CompanyInfo", VList [acme])].

(** Two companies. *)
Definition two_companies : value :=
  VDict [("CompanyID", VInt 1); ("CompanyInfo", VList [acme; globex])].

(** The working directory: the directory of the script. *)
Definition cwd : Fs.path := ["email-masking-poc"; "scripts"].

(** The data directory holding the input document. *)
Definition fs_with (data : value) : Fs.fs :=
  <[input_file cwd := File (Text (Some data))]> {[data_dir cwd := Dir]}.

(** The files a first run leaves next to the input when it exports the
    table [t]. *)
Definition fs_published (data : value) (t : table) : Fs.fs :=
  <[db_file cwd := File (Database {["customers_secure" := t]})]>
    (<[parquet_file cwd := File (Parquet t)]>
       (<[csv_file cwd := File (Csv t)]> (fs_with data))).

(** The table exported for [document]. *)
Definition published : table :=
  {| Engine.columns :=
       ["CompanyID"; "CompanyName"; "CustomerName"; "Email_Original";
        "Email_Masked"; "Phone"; "DateOfBirth"; "PlaceOfBirth"; "Role"];
     Engine.rows :=
       [[VInt 1; VStr "Acme"; VStr "Carlos"; VStr "carlos91@gmail.com";
         VStr "*******@gmail.com"; VStr "555-0100"; VStr "1991-04-02";
         VStr "Lima"; VStr "Owner"]] |}.

(** The table exported for [two_companies]. *)
Definition published_two : table :=
  {| Engine.columns := Engine.columns published;
     Engine.rows :=
       Engine.rows published ++
       [[VInt 1; VStr "Globex"; VStr "Zoe"; VStr "zoe@example.org";
         VStr "*******@example.org"; VStr "555-0101"; VStr "1988-11-23";
         VStr "Quito"; VStr "Buyer"]] |}.

(** The data directory without the input document. *)
Definition fs_without_input : Fs.fs := {[data_dir cwd := Dir]}.

(** A regular file where the data directory should be. *)
Definition fs_data_is_a_file : Fs.fs := {[data_dir cwd := File (Text None)]}.

(** [customers_tabular] for [two_companies], the list of Step 3 and the
    table of lines 131-144 made with it. *)
Definition tabular_two : table :=
  {| Engine.columns :=
       ["CompanyID"; "CompanyName"; "Name"; "Email"; "Phone"; "Birth";
        "Place of Birth"; "Role"];
     Engine.rows :=
       [[VInt 1; VStr "Acme"; VStr "Carlos"; VStr "carlos91@gmail.com";
         VStr "555-0100"; VStr "1991-04-02"; VStr "Lima"; VStr "Owner"];
        [VInt 1; VStr "Globex"; VStr "Zoe"; VStr "zoe@example.org";
         VStr "555-0101"; VStr "1988-11-23"; VStr "Quito"; VStr "Buyer"]] |}.

Definition masked_two : list value :=
  [VStr "*******@gmail.com"; VStr "*******@example.org"].

Definition secure_two : table :=
  {| Engine.columns := Engine.columns published;
     Engine.rows :=
       [[VInt 1; VStr "Acme"; VStr "Carlos"; VStr "carlos91@gmail.com";
         VList masked_two; VStr "555-0100"; VStr "1991-04-02"; VStr "Lima";
         VStr "Owner"];
        [VInt 1; VStr "Globex"; VStr "Zoe"; VStr "zoe@example.org";
         VList masked_two; VStr "555-0101"; VStr "1988-11-23"; VStr "Quito";
         VStr "Buyer"]] |}.

(** The input replaced by another document after a first run on
    [document]. *)
Definition fs_second_run : Fs.fs := fs_published two_companies published.

(** A directory in the place of the Parquet file. *)
Definition fs_parquet_is_a_directory : Fs.fs :=
  <[parquet_file cwd := Dir]> (fs_with document).

(** An input file that is not JSON. *)
Definition fs_not_json : Fs.fs :=
  <[input_file cwd := File (Text None)]> {[data_dir cwd := Dir]}.

(** A document without a company. *)
Definition no_company : value :=
  VDict [("CompanyID", VInt 1); ("CompanyInfo", VList [])].

(** One company without customers. *)
Definition no_customers : value :=
  VDict [("CompanyID", VInt 1);
         ("CompanyInfo",
          VList [VDict [("Name", VStr "Acme"); ("Customers", VList [])]])].

End Sample.

(** ** Facts about strings *)

Section StringFacts.

Lemma str_app_nil_l (s : string) : EmptyString +:+ s = s.
Proof. reflexivity. Qed.

Lemma str_app_cons (c : ascii) (s t : string) :
  String c s +:+ t = String c (s +:+ t).
Proof. reflexivity. Qed.

Lemma str_length_app (s t : string) :
  String.length (s +:+ t) = String.length s + String.length t.
Proof.
  induction s as [|c s IH]; [reflexivity|].
  rewrite str_app_cons. simpl. by rewrite IH.
Qed.

Lemma contains_count (c : ascii) (s : string) :
  PyStr.contains c s = false <-> PyStr.count c s = 0.
Proof.
  induction s as [|x s IH]; simpl; [done|].
  destruct (Ascii.eqb x c); simpl; [split; discriminate | exact IH].
Qed.

Lemma count_app (c : ascii) (s t : string) :
  PyStr.count c (s +:+ t) = PyStr.count c s + PyStr.count c t.
Proof.
  induction s as [|x s IH]; [reflexivity|].
  rewrite str_app_cons. simpl. rewrite IH. lia.
Qed.

Lemma contains_app_sep (c : ascii) (l r : string) :
  PyStr.contains c (l +:+ String c r) = true.
Proof.
  induction l as [|x l IH].
  - rewrite str_app_nil_l. simpl. by rewrite Ascii.eqb_refl.
  - rewrite str_app_cons. simpl. by destruct (Ascii.eqb x c).
Qed.

(** Every string that contains the separator is cut at its first one. *)
Lemma contains_decompose (c : ascii) (s : string) :
  PyStr.contains c s = true ->
  exists l r, s = l +:+ String c r /\ PyStr.contains c l = false.
Proof.
  induction s as [|x s IH]; simpl; [discriminate|].
  destruct (Ascii.eqb x c) eqn:E.
  - intros _. apply Ascii.eqb_eq in E as ->. by exists EmptyString, s.
  - intros H. destruct (IH H) as (l & r & -> & Hl).
    exists (String x l), r. split; [done|]. simpl. by rewrite E.
Qed.

Lemma split1_app_sep (c : ascii) (l r : string) :
  PyStr.contains c l = false ->
  PyStr.split1 c (l +:+ String c r) = [l; r].
Proof.
  induction l as [|x l IH]; simpl.
  - intros _. rewrite ?str_app_nil_l. simpl. by rewrite Ascii.eqb_refl.
  - destruct (Ascii.eqb x c) eqn:E; [discriminate|].
    intros H. rewrite ?str_app_cons. simpl. rewrite ?E. by rewrite (IH H).
Qed.

(** The guard of line 32 makes the unpacking of line 36 succeed. *)
Lemma split1_contains (c : ascii) (s : string) :
  PyStr.contains c s = true ->
  exists l r, PyStr.split1 c s = [l; r].
Proof.
  intros H. destruct (contains_decompose c s H) as (l & r & -> & Hl).
  exists l, r. by apply split1_app_sep.
Qed.

Lemma split1_no_sep (c : ascii) (s : string) :
  PyStr.contains c s = false -> PyStr.split1 c s = [s].
Proof.
  induction s as [|x s IH]; simpl; [done|].
  destruct (Ascii.eqb x c); [discriminate|].
  intros H. by rewrite (IH H).
Qed.

Lemma split_no_sep (c : ascii) (s : string) :
  PyStr.contains c s = false -> Sql.split c s = [s].
Proof.
  induction s as [|x s IH]; simpl; [done|].
  destruct (Ascii.eqb x c); [discriminate|].
  intros H. by rewrite (IH H).
Qed.

Lemma split_app_sep (c : ascii) (l r : string) :
  PyStr.contains c l = false ->
  Sql.split c (l +:+ String c r) = l :: Sql.split c r.
Proof.
  induction l as [|x l IH]; simpl.
  - intros _. rewrite ?str_app_nil_l. simpl. by rewrite Ascii.eqb_refl.
  - destruct (Ascii.eqb x c) eqn:E; [discriminate|].
    intros H. rewrite ?str_app_cons. simpl. rewrite ?E. by rewrite (IH H).
Qed.

Lemma not_app_sep (c : ascii) (l r : string) :
  PyStr.not_ (l +:+ String c r) = false.
Proof. by destruct l. Qed.

End StringFacts.

(** ** What [mask_email] computes *)

Section MaskEmail.

(** No separator: the guard of line 32 returns the argument. *)
Lemma mask_email_no_at (s : string) :
  PyStr.contains "@" s = false -> mask_email s = s.
Proof.
  intros H. unfold mask_email. rewrite H.
  by rewrite orb_true_r.
Qed.

(** A separator: everything after the first one is kept. *)
Lemma mask_email_at (l r : string) :
  PyStr.contains "@" l = false ->
  mask_email (l +:+ String "@" r) = "*******@" +:+ r.
Proof.
  intros H. unfold mask_email.
  rewrite not_app_sep, contains_app_sep, (split1_app_sep _ _ _ H).
  reflexivity.
Qed.

Lemma mask_email_idem (e : string) :
  mask_email (mask_email e) = mask_email e.
Proof.
  destruct (PyStr.contains "@" e) eqn:H.
  - destruct (contains_decompose _ _ H) as (l & r & -> & Hl).
    rewrite (mask_email_at _ _ Hl).
    by apply (mask_email_at "*******" r).
  - by rewrite !(mask_email_no_at _ H).
Qed.

End MaskEmail.

(** ** The two masking implementations side by side *)

Section TwoMaskings.

Lemma split_part_2_one_at (l d : string) :
  PyStr.contains "@" l = false ->
  PyStr.contains "@" d = false ->
  Sql.split_part (l +:+ String "@" d) "@" 2 = d.
Proof.
  intros Hl Hd. unfold Sql.split_part.
  by rewrite (split_app_sep _ _ _ Hl), (split_no_sep _ _ Hd).
Qed.

(** On an address with exactly one separator the expression of line 154
    and [mask_email] agree. *)
Lemma email_masked_one_at (e : string) :
  PyStr.count "@" e = 1 -> Sql.email_masked e = mask_email e.
Proof.
  intros H.
  destruct (PyStr.contains "@" e) eqn:Hc.
  - destruct (contains_decompose _ _ Hc) as (l & d & -> & Hl).
    rewrite count_app in H. simpl in H.
    assert (Hd : PyStr.contains "@" d = false).
    { apply contains_count. lia. }
    rewrite (mask_email_at _ _ Hl). unfold Sql.email_masked, Sql.concat.
    by rewrite (split_part_2_one_at _ _ Hl Hd).
  - apply contains_count in Hc. lia.
Qed.

(** Without a separator the expression of line 154 has no second part
    to keep. *)
Lemma email_masked_no_at (s : string) :
  PyStr.contains "@" s = false -> Sql.email_masked s = "*******@".
Proof.
  intros H. unfold Sql.email_masked, Sql.split_part.
  by rewrite (split_no_sep _ _ H).
Qed.

End TwoMaskings.

(** ** Properties of [mask_email] *)

(** C2. A string with exactly one ['@'] is masked to seven ['*'], one
    ['@'] and the domain (everything after the ['@']) unchanged, so the
    result is 8 characters longer than the domain. *)
Theorem mask_email_exactly_one_at (e local_part domain : string) :
  e = local_part +:+ "@" +:+ domain ->
  PyStr.count "@" e = 1 ->
  mask_email e = "*******" +:+ "@" +:+ domain /\
  String.length (mask_email e) = 8 + String.length domain.
Proof.
  intros -> H. rewrite count_app in H.
  change ("@" +:+ domain) with (String "@" domain) in *. simpl in H.
  assert (Hl : PyStr.contains "@" local_part = false).
  { apply contains_count. lia. }
  rewrite (mask_email_at _ _ Hl). split; [reflexivity|].
  by rewrite str_length_app.
Qed.

Lemma mask_email_exactly_one_at_witness :
  mask_email "carlos91@gmail.com" = "*******" +:+ "@" +:+ "gmail.com" /\
  String.length (mask_email "carlos91@gmail.com") = 8 + String.length "gmail.com".
Proof.
  apply (mask_email_exactly_one_at "carlos91@gmail.com" "carlos91" "gmail.com");
    reflexivity.
Defined.

(** C4. A string that is empty or has no ['@'] is returned unchanged. *)
Theorem mask_email_identity_without_at (s : string) :
  s = EmptyString \/ PyStr.contains "@" s = false ->
  mask_email s = s.
Proof.
  intros [-> | H]; [reflexivity|]. by apply mask_email_no_at.
Qed.

Lemma mask_email_identity_without_at_witness :
  mask_email "not-an-address" = "not-an-address".
Proof.
  apply (mask_email_identity_without_at "not-an-address").
  right. reflexivity.
Defined.

(** C5. A string with two ['@'] is cut at the first one only: what
    follows it, the second ['@'] included, is kept after the mask; and
    [mask_email("a@b@c")] is ["*******@b@c"]. *)
Theorem mask_email_two_ats :
  (forall e : string, PyStr.count "@" e = 2 ->
     exists local_part rest,
       e = local_part +:+ "@" +:+ rest /\
       PyStr.count "@" local_part = 0 /\
       PyStr.count "@" rest = 1 /\
       mask_email e = "*******@" +:+ rest) /\
  mask_email "a@b@c" = "*******@b@c".
Proof.
  split; [|reflexivity].
  intros e H.
  destruct (PyStr.contains "@" e) eqn:Hc.
  - destruct (contains_decompose _ _ Hc) as (l & r & -> & Hl).
    exists l, r. rewrite count_app in H. simpl in H.
    pose proof (proj1 (contains_count _ _) Hl).
    repeat split; [done | lia | by apply mask_email_at].
  - apply contains_count in Hc. lia.
Qed.

Lemma mask_email_two_ats_witness :
  exists local_part rest,
    "a@b@c" = local_part +:+ "@" +:+ rest /\
    PyStr.count "@" local_part = 0 /\
    PyStr.count "@" rest = 1 /\
    mask_email "a@b@c" = "*******@" +:+ rest.
Proof.
  apply (proj1 mask_email_two_ats "a@b@c"). reflexivity.
Defined.

(** C6. Masking twice is masking once, for every string whose part after
    the first ['@'] has no further ['@'] (at most one ['@'] in all). *)
Theorem mask_email_idempotent (e : string) :
  PyStr.count "@" e <= 1 ->
  mask_email (mask_email e) = mask_email e.
Proof. intros _. apply mask_email_idem. Qed.

Lemma mask_email_idempotent_witness :
  mask_email (mask_email "carlos91@gmail.com") = mask_email "carlos91@gmail.com".
Proof.
  apply (mask_email_idempotent "carlos91@gmail.com"). simpl. lia.
Defined.

(** C9. Two strings that both contain ['@'] and agree after their first
    ['@'] are masked to the same string, whatever precedes the ['@']. *)
Theorem mask_email_hides_local_part (e1 e2 local1 local2 domain : string) :
  e1 = local1 +:+ "@" +:+ domain ->
  e2 = local2 +:+ "@" +:+ domain ->
  PyStr.contains "@" local1 = false ->
  PyStr.contains "@" local2 = false ->
  mask_email e1 = mask_email e2.
Proof.
  intros -> -> H1 H2.
  change ("@" +:+ domain) with (String "@" domain).
  by rewrite (mask_email_at _ _ H1), (mask_email_at _ _ H2).
Qed.

Lemma mask_email_hides_local_part_witness :
  mask_email "carlos91@gmail.com" = mask_email "zoe@gmail.com".
Proof.
  apply (mask_email_hides_local_part _ _ "carlos91" "zoe" "gmail.com");
    reflexivity.
Defined.

(** C3. The expression of line 154 and [mask_email] part ways outside
    the addresses with exactly one ['@']: with two, the expression keeps
    only what lies between the first and the second; with none, it
    returns the bare mask where [mask_email] returns its argument. *)
Theorem email_masked_differs_from_mask_email :
  Sql.email_masked "a@b@c" = "*******@b" /\
  mask_email "a@b@c" = "*******@b@c" /\
  Sql.email_masked "abc" = "*******@" /\
  mask_email "abc" = "abc" /\
  Sql.email_masked EmptyString = "*******@" /\
  mask_email EmptyString = EmptyString.
Proof. repeat split. Qed.

(** ** Step 1: the flattening loop *)

Section Step1.

Lemma flat_of_customer (company_id company_name customer : value) :
  Py.is_customer customer = true ->
  exists r, Py.flat_of company_id company_name customer = Ok r /\
            Py.CompanyID r = company_id /\
            Py.CompanyName r = company_name.
Proof.
  unfold Py.is_customer, Py.flat_of. simpl. intros H.
  repeat match type of H with
         | context [Py.getitem customer ?k] =>
             destruct (Py.getitem customer k); simpl in H; [|discriminate]
         end.
  simpl. eauto.
Qed.

(** The loop appends one record per customer, in order. *)
Lemma for_customer_in_customers (company_id company_name : value)
    (customers : list value) (flattened_customers : list Py.flat_customer) :
  Forall (fun c => Py.is_customer c = true) customers ->
  exists rs,
    Py.for_customer_in company_id company_name customers flattened_customers
      = Ok (flattened_customers ++ rs) /\
    Forall2 (fun c r => Py.flat_of company_id company_name c = Ok r)
            customers rs.
Proof.
  intros H. revert flattened_customers.
  induction H as [|c cs Hc _ IH]; intros acc; simpl.
  - exists []. by rewrite app_nil_r.
  - destruct (flat_of_customer company_id company_name c Hc) as (r & Hr & _).
    rewrite Hr. simpl. destruct (IH (acc ++ [r])) as (rs & -> & Hrs).
    exists (r :: rs). rewrite <- app_assoc. by split; [|constructor].
Qed.

(** Only the head of [CompanyInfo] is read. *)
Lemma flatten_head (data company_id company0 company_name : value)
    (rest customers : list value) :
  Py.getitem data "CompanyID" = Ok company_id ->
  Py.getitem data "CompanyInfo" = Ok (VList (company0 :: rest)) ->
  Py.getitem company0 "Name" = Ok company_name ->
  Py.getitem company0 "Customers" = Ok (VList customers) ->
  Py.flatten data
    = Py.for_customer_in company_id company_name customers [].
Proof.
  intros H1 H2 H3 H4. unfold Py.flatten.
  rewrite H1. simpl. rewrite H2. simpl. rewrite H3. simpl.
  by rewrite H4.
Qed.

Lemma flat_of_tagged (company_id company_name : value)
    (customers : list value) (rs : list Py.flat_customer) :
  Forall2 (fun c r => Py.flat_of company_id company_name c = Ok r)
          customers rs ->
  Forall (fun r => Py.CompanyID r = company_id /\
                   Py.CompanyName r = company_name) rs.
Proof.
  induction 1 as [|c r cs rs Hr _ IH]; constructor; [|done].
  unfold Py.flat_of in Hr.
  repeat match type of Hr with
         | context [Py.getitem c ?k] =>
             destruct (Py.getitem c k); simpl in Hr; [|discriminate]
         end.
  by inversion Hr.
Qed.

End Step1.

(** ** The run on a missing input *)

Section MissingInput.

Lemma files_lookup (s : Fs.fs) (p : Fs.path) (c : content) :
  Fs.files s !! p = Some c <-> s !! p = Some (File c).
Proof.
  unfold Fs.files. rewrite lookup_omap.
  destruct (s !! p) as [[|c']|]; simpl; split; congruence.
Qed.

Lemma files_insert_dir (s : Fs.fs) (p : Fs.path) :
  s !! p = None -> Fs.files (<[p := Dir]> s) = Fs.files s.
Proof.
  intros H. apply map_eq. intros q. unfold Fs.files.
  rewrite !lookup_omap. destruct (decide (p = q)) as [->|Hne].
  - by rewrite lookup_insert_eq, H.
  - by rewrite lookup_insert_ne.
Qed.

Lemma node_at_None (cwd p : Fs.path) (s : Fs.fs) :
  Fs.node_at cwd p s = None -> s !! p = None.
Proof. unfold Fs.node_at. by destruct (bool_decide _). Qed.

Lemma node_at_File (cwd p : Fs.path) (s : Fs.fs) (c : content) :
  Fs.node_at cwd p s = Some (File c) -> s !! p = Some (File c).
Proof. unfold Fs.node_at. by destruct (bool_decide _). Qed.

(** Below the working directory, and beside it, the file system
    decides. *)
Lemma node_at_lookup (cwd p : Fs.path) (s : Fs.fs) :
  ~ p `prefix_of` cwd -> Fs.node_at cwd p s = s !! p.
Proof. intros H. unfold Fs.node_at. by rewrite bool_decide_eq_false_2. Qed.

Lemma node_at_longer (cwd p : Fs.path) (s : Fs.fs) :
  length cwd < length p -> Fs.node_at cwd p s = s !! p.
Proof.
  intros H. apply node_at_lookup. intros Hp%prefix_length. lia.
Qed.

Lemma node_at_Dir (cwd p : Fs.path) (s : Fs.fs) :
  s !! p = Some Dir -> Fs.node_at cwd p s = Some Dir.
Proof. intros H. unfold Fs.node_at. by destruct (bool_decide _). Qed.

(** Creating directories writes no regular file. *)
Lemma mkdir_from_files (todo : list string) (cwd cur : Fs.path)
    (s s' : Fs.fs) (r : result unit) :
  Fs.mkdir_from cwd cur todo s = (r, s') -> Fs.files s' = Fs.files s.
Proof.
  revert cur s. induction todo as [|c todo IH]; intros cur s; simpl.
  - congruence.
  - destruct (Fs.node_at cwd (Fs.step cur c) s) as [[|f]|] eqn:E.
    + apply IH.
    + congruence.
    + intros H. apply IH in H. rewrite H.
      apply files_insert_dir. by eapply node_at_None.
Qed.

(** Resolution ends where the path string leads. *)
Lemma resolve_from_Ok (todo : list string) (cwd cur p : Fs.path) (s : Fs.fs) :
  Fs.resolve_from cwd cur todo s = Ok p -> p = fold_left Fs.step todo cur.
Proof.
  revert cur. induction todo as [|c todo IH]; intros cur; simpl.
  - congruence.
  - destruct todo as [|c' todo]; [simpl; congruence|].
    destruct (Fs.node_at cwd (Fs.step cur c) s) as [[|f]|]; try discriminate.
    apply IH.
Qed.

Lemma resolve_Ok (cwd : Fs.path) (file : string) (s : Fs.fs) (p : Fs.path) :
  Fs.resolve cwd file s = Ok p -> p = Fs.parse cwd file.
Proof. apply resolve_from_Ok. Qed.

(** Reading leaves the file system as it is. *)
Lemma open_read_state (cwd : Fs.path) (file : string) (s s' : Fs.fs)
    (r : result content) :
  Fs.open_read cwd file s = (r, s') -> s' = s.
Proof.
  unfold Fs.open_read. destruct file; [congruence|].
  destruct (Fs.resolve _ _ _); [|congruence].
  destruct (Fs.node_at _ _ s) as [[|c]|]; congruence.
Qed.

Lemma open_read_ok (cwd : Fs.path) (file : string) (s s' : Fs.fs)
    (c : content) :
  Fs.open_read cwd file s = (Ok c, s') ->
  s !! Fs.parse cwd file = Some (File c).
Proof.
  unfold Fs.open_read. destruct file; [congruence|].
  destruct (Fs.resolve _ _ _) as [p|] eqn:Er; [|congruence].
  apply resolve_Ok in Er as ->.
  destruct (Fs.node_at _ _ s) as [[|c']|] eqn:E; try congruence.
  intros [= -> _]. by eapply node_at_File.
Qed.

(** Without a regular file at the input path the run raises, whatever
    the two paths are, and the regular files are those it started
    with. *)
Lemma no_input_no_output (cwd : Fs.path) (json_file_path output_dir : string)
    (s : Fs.fs) :
  Fs.files s !! Fs.parse cwd json_file_path = None ->
  exists e s',
    flatten_and_transform_customer_data cwd json_file_path output_dir s
      = (Raise e, s') /\
    Fs.files s' = Fs.files s.
Proof.
  intros Hin. unfold flatten_and_transform_customer_data.
  unfold mbind at 1, Fs.io_bind at 1. unfold Fs.mkdir.
  destruct (Fs.mkdir_from cwd _ _ s) as [[[]|e] s1] eqn:Em;
    pose proof (mkdir_from_files _ _ _ _ _ _ Em) as Hf; [|by eauto].
  unfold mbind at 1, Fs.io_bind at 1. unfold Fs.json_load.
  unfold mbind at 1, Fs.io_bind at 1.
  destruct (Fs.open_read cwd json_file_path s1) as [[c|e] s2] eqn:Eo;
    pose proof (open_read_state _ _ _ _ _ Eo) as ->; [|by eauto].
  apply open_read_ok, files_lookup in Eo. congruence.
Qed.

End MissingInput.

Section Configured.

Lemma io_bind_eq {A B : Type} (m : Fs.io A) (f : A -> Fs.io B) (s : Fs.fs) :
  (m ≫= f) s = match m s with
               | (Ok a, s') => f a s'
               | (Raise e, s') => (Raise e, s')
               end.
Proof. reflexivity. Qed.

(** The configured paths lead one directory up and into [data]. *)
Lemma data_dir_eq (cwd : Fs.path) : data_dir cwd = removelast cwd ++ ["data"].
Proof. reflexivity. Qed.

Lemma input_file_eq (cwd : Fs.path) :
  input_file cwd = data_dir cwd ++ ["Customers.json"].
Proof. reflexivity. Qed.

Lemma csv_file_eq (cwd : Fs.path) :
  csv_file cwd = data_dir cwd ++ ["customers_secure.csv"].
Proof. reflexivity. Qed.

Lemma parquet_file_eq (cwd : Fs.path) :
  parquet_file cwd = data_dir cwd ++ ["customers_secure.parquet"].
Proof. reflexivity. Qed.

Lemma db_file_eq (cwd : Fs.path) :
  db_file cwd = data_dir cwd ++ ["customers.duckdb"].
Proof. reflexivity. Qed.

Lemma removelast_prefix (l : list string) : removelast l `prefix_of` l.
Proof.
  induction l as [|x l IH]; [done|]. simpl.
  destruct l as [|y l]; [apply prefix_nil|]. by apply prefix_cons.
Qed.

Lemma length_removelast (l : list string) :
  length (removelast l) = length l - 1.
Proof.
  induction l as [|x l IH]; [done|]. simpl.
  destruct l as [|y l]; [done|]. simpl in *. lia.
Qed.

Lemma node_at_parent (cwd : Fs.path) (s : Fs.fs) :
  Fs.node_at cwd (removelast cwd) s = Some Dir.
Proof.
  unfold Fs.node_at. rewrite bool_decide_eq_true_2; [done|].
  apply removelast_prefix.
Qed.

(** A file in the data directory lies outside the chain of directories
    that leads to the working directory. *)
Lemma node_at_in_data_dir (cwd : Fs.path) (name : string) (s : Fs.fs) :
  Fs.node_at cwd (data_dir cwd ++ [name]) s = s !! (data_dir cwd ++ [name]).
Proof.
  apply node_at_longer. rewrite data_dir_eq, !length_app, length_removelast.
  simpl. lia.
Qed.

(** Line 53 with the configured directory. *)
Lemma mkdir_OUTPUT_DIR (cwd : Fs.path) (s : Fs.fs) :
  Fs.mkdir cwd OUTPUT_DIR s =
    match Fs.node_at cwd (data_dir cwd) s with
    | Some Dir => (Ok (), s)
    | Some (File _) => (Raise FileExistsError, s)
    | None => (Ok (), <[data_dir cwd := Dir]> s)
    end.
Proof.
  unfold Fs.mkdir.
  change (Fs.components OUTPUT_DIR) with [".."; "data"].
  change (Fs.start cwd OUTPUT_DIR) with cwd.
  cbn [Fs.mkdir_from].
  change (Fs.step cwd "..") with (removelast cwd).
  rewrite node_at_parent.
  change (Fs.step (removelast cwd) "data") with (data_dir cwd).
  by destruct (Fs.node_at cwd (data_dir cwd) s) as [[|c]|].
Qed.

(** Resolution of a file of the data directory, once the directory is
    there. *)
Lemma resolve_in_data_dir (cwd : Fs.path) (name : string) (s : Fs.fs) :
  Fs.kept name = true -> PyStr.contains "/" name = false ->
  name <> ".." ->
  Fs.node_at cwd (data_dir cwd) s = Some Dir ->
  Fs.resolve cwd (OUTPUT_DIR +:+ "/" +:+ name) s
    = Ok (data_dir cwd ++ [name]).
Proof.
  intros Hk Hc Hn Hd. unfold Fs.resolve.
  change (Fs.start cwd (OUTPUT_DIR +:+ "/" +:+ name)) with cwd.
  assert (Hcomp : Fs.components (OUTPUT_DIR +:+ "/" +:+ name)
                  = [".."; "data"; name]).
  { unfold Fs.components, OUTPUT_DIR.
    change ("../data" +:+ "/" +:+ name)
      with (String "." (String "." (String "/"
             (String "d" (String "a" (String "t" (String "a"
               (String "/" name)))))))).
    cbn [Sql.split Ascii.eqb Bool.eqb]. rewrite (split_no_sep _ _ Hc).
    by rewrite !filter_cons_True, filter_nil by (by rewrite ?Hk). }
  rewrite Hcomp. cbn [Fs.resolve_from].
  change (Fs.step cwd "..") with (removelast cwd).
  rewrite node_at_parent.
  change (Fs.step (removelast cwd) "data") with (data_dir cwd).
  rewrite Hd. unfold Fs.step. apply String.eqb_neq in Hn. by rewrite Hn.
Qed.

Lemma resolve_JSON_FILE (cwd : Fs.path) (s : Fs.fs) :
  Fs.node_at cwd (data_dir cwd) s = Some Dir ->
  Fs.resolve cwd JSON_FILE s = Ok (input_file cwd).
Proof.
  intros Hd. rewrite input_file_eq.
  by apply (resolve_in_data_dir cwd "Customers.json").
Qed.

(** Lines 65-66 with the configured input, once the data directory is
    there. *)
Lemma json_load_missing (cwd : Fs.path) (s : Fs.fs) :
  Fs.node_at cwd (data_dir cwd) s = Some Dir ->
  s !! input_file cwd = None ->
  Fs.json_load cwd JSON_FILE s = (Raise FileNotFoundError, s).
Proof.
  intros Hd Hin. unfold Fs.json_load.
  unfold mbind, Fs.io_bind, Fs.open_read.
  rewrite (resolve_JSON_FILE _ _ Hd). unfold JSON_FILE.
  by rewrite input_file_eq, node_at_in_data_dir, <- input_file_eq, Hin.
Qed.

End Configured.

(** C8. When nothing exists at the configured input path, the run stops
    with an exception and the regular files are those it started with
    (no CSV, Parquet or database file is written). Unless a regular file
    sits where the output directory should be, the exception is
    [FileNotFoundError], which the entry point reports. *)
Theorem missing_input_aborts (cwd : Fs.path) (s : Fs.fs) :
  s !! Fs.parse cwd JSON_FILE = None ->
  exists e s',
    flatten_and_transform_customer_data cwd JSON_FILE OUTPUT_DIR s
      = (Raise e, s') /\
    Fs.files s' = Fs.files s /\
    (Fs.is_file (s !! Fs.parse cwd OUTPUT_DIR) = false ->
     e = FileNotFoundError /\ main cwd s = (MissingInputReported, s')).
Proof.
  intros Hin.
  assert (Hf : Fs.files s !! Fs.parse cwd JSON_FILE = None).
  { destruct (Fs.files s !! Fs.parse cwd JSON_FILE) eqn:E; [|done].
    apply files_lookup in E. congruence. }
  destruct (no_input_no_output cwd JSON_FILE OUTPUT_DIR s Hf)
    as (e & s' & Hrun & Hfiles).
  exists e, s'. split; [done|]. split; [done|].
  intros Hdir. unfold main. rewrite Hrun.
  revert Hrun. unfold flatten_and_transform_customer_data.
  unfold mbind at 1, Fs.io_bind at 1. rewrite mkdir_OUTPUT_DIR.
  fold (data_dir cwd) in Hdir. fold (input_file cwd) in Hin.
  destruct (Fs.node_at cwd (data_dir cwd) s) as [[|c]|] eqn:E.
  - rewrite io_bind_eq, (json_load_missing cwd s E Hin). by intros [= <- <-].
  - apply node_at_File in E. by rewrite E in Hdir.
  - rewrite io_bind_eq, json_load_missing.
    + by intros [= <- <-].
    + apply node_at_Dir. by rewrite lookup_insert_eq.
    + rewrite lookup_insert_ne; [done|]. rewrite input_file_eq.
      intros Heq. apply (f_equal length) in Heq.
      rewrite length_app in Heq. simpl in Heq. lia.
Qed.

Lemma missing_input_aborts_witness :
  exists e s',
    flatten_and_transform_customer_data Sample.cwd JSON_FILE OUTPUT_DIR
      Sample.fs_without_input = (Raise e, s') /\
    Fs.files s' = Fs.files Sample.fs_without_input /\
    (Fs.is_file (Sample.fs_without_input !! Fs.parse Sample.cwd OUTPUT_DIR)
       = false ->
     e = FileNotFoundError /\
     main Sample.cwd Sample.fs_without_input = (MissingInputReported, s')).
Proof.
  apply (missing_input_aborts Sample.cwd Sample.fs_without_input).
  reflexivity.
Defined.

(** Counterexample to C8 as stated: the input path does not exist, and
    the exception is not [FileNotFoundError], because line 53 finds a
    regular file where the output directory should be. *)
Lemma missing_input_other_exception :
  Sample.fs_data_is_a_file !! Fs.parse Sample.cwd JSON_FILE = None /\
  flatten_and_transform_customer_data Sample.cwd JSON_FILE OUTPUT_DIR
    Sample.fs_data_is_a_file
    = (Raise FileExistsError, Sample.fs_data_is_a_file) /\
  main Sample.cwd Sample.fs_data_is_a_file
    = (Propagated FileExistsError, Sample.fs_data_is_a_file).
Proof. repeat split; vm_compute; reflexivity. Qed.

(** ** The published tables *)

Section Paths.

Lemma split_nonempty (c : ascii) (s : string) : Sql.split c s <> [].
Proof.
  destruct s as [|x s]; simpl; [done|].
  destruct (Ascii.eqb x c); [done|]. by destruct (Sql.split c s).
Qed.

Lemma split_app (c : ascii) (l r : string) :
  Sql.split c (l +:+ String c r) = Sql.split c l ++ Sql.split c r.
Proof.
  induction l as [|x l IH].
  - rewrite str_app_nil_l. simpl. by rewrite Ascii.eqb_refl.
  - rewrite str_app_cons. simpl. rewrite IH.
    destruct (Ascii.eqb x c); [done|].
    pose proof (split_nonempty c l). by destruct (Sql.split c l).
Qed.

Lemma components_app (output_dir name : string) :
  PyStr.contains "/" name = false ->
  Fs.kept name = true ->
  Fs.components (output_dir +:+ "/" +:+ name)
    = Fs.components output_dir ++ [name].
Proof.
  intros Hn Hk. unfold Fs.components.
  change ("/" +:+ name) with (String "/" name).
  rewrite split_app, (split_no_sep _ _ Hn), filter_app.
  by rewrite filter_cons_True, filter_nil by by rewrite Hk.
Qed.

(** The last name of [output_dir + "/" + name]. *)
Lemma parse_last (cwd : Fs.path) (output_dir name : string) :
  PyStr.contains "/" name = false ->
  Fs.kept name = true ->
  name <> ".." ->
  last (Fs.parse cwd (output_dir +:+ "/" +:+ name)) = Some name.
Proof.
  intros Hn Hk Hne. unfold Fs.parse.
  rewrite (components_app _ _ Hn Hk), fold_left_app. simpl.
  unfold Fs.step at 1. apply String.eqb_neq in Hne. rewrite Hne.
  apply last_snoc.
Qed.

Lemma parse_ne (cwd : Fs.path) (output_dir name1 name2 : string) :
  PyStr.contains "/" name1 = false -> Fs.kept name1 = true -> name1 <> ".." ->
  PyStr.contains "/" name2 = false -> Fs.kept name2 = true -> name2 <> ".." ->
  name1 <> name2 ->
  Fs.parse cwd (output_dir +:+ "/" +:+ name1)
    <> Fs.parse cwd (output_dir +:+ "/" +:+ name2).
Proof.
  intros H1 K1 N1 H2 K2 N2 Hne Heq.
  pose proof (parse_last cwd output_dir name1 H1 K1 N1) as L1.
  pose proof (parse_last cwd output_dir name2 H2 K2 N2) as L2.
  rewrite Heq in L1. congruence.
Qed.

End Paths.

Section Selects.

Lemma mapM_Ok {A B : Type} (f : A -> result B) (l : list A) (k : list B) :
  mapM f l = Ok k -> Forall2 (fun x y => f x = Ok y) l k.
Proof.
  revert k. induction l as [|x l IH]; intros k; simpl.
  - intros [= <-]. constructor.
  - destruct (f x) as [y|e] eqn:E; simpl; [|discriminate].
    destruct (mapM f l) as [k'|e]; simpl; [|discriminate].
    intros [= <-]. constructor; auto.
Qed.

Lemma select_Ok (items : list Engine.item) (t t' : table) :
  Engine.select items t = Ok t' ->
  Engine.columns t' = map Engine.alias_of items /\
  Forall2 (fun row row' => mapM (Engine.eval t row) items = Ok row')
          (Engine.rows t) (Engine.rows t').
Proof.
  unfold Engine.select. destruct (forallb _ _); [|discriminate].
  destruct (mapM _ (Engine.rows t)) as [rows'|e] eqn:E; simpl; [|discriminate].
  intros [= <-]. simpl. split; [done|]. by apply mapM_Ok.
Qed.

(** The columns of the table of lines 147-160, and what its two email
    columns hold. *)
Lemma customers_secure_sql_Ok (customers_tabular t : table) :
  Engine.customers_secure_sql customers_tabular = Ok t ->
  Engine.columns t = ["CompanyID"; "CompanyName"; "CustomerName"; "Email_Original";
               "Email_Masked"; "Phone"; "DateOfBirth"; "PlaceOfBirth"; "Role"] /\
  Forall2 (fun row row' =>
             Engine.cell t row' "Email_Original"
               = Engine.cell customers_tabular row "Email" /\
             Engine.email_masked (Engine.cell customers_tabular row "Email")
               = Ok (Engine.cell t row' "Email_Masked"))
          (Engine.rows customers_tabular) (Engine.rows t).
Proof.
  intros H. apply select_Ok in H as [Hc Hr]. split; [done|].
  eapply Forall2_impl; [exact Hr|]. intros row row'. simpl.
  destruct (Engine.email_masked _) as [m|e] eqn:Em; simpl; [|discriminate].
  intros [= <-]. unfold Engine.cell. rewrite Hc. by simpl.
Qed.

End Selects.

Section Published.

Lemma lift_eq {A : Type} (r r' : result A) (s s' : Fs.fs) :
  Fs.lift r s = (r', s') -> r = r' /\ s = s'.
Proof. unfold Fs.lift. by intros [= -> ->]. Qed.

Lemma write_Ok (cwd : Fs.path) (file : string) (c : content) (s s' : Fs.fs) :
  Fs.write cwd file c s = (Ok (), s') ->
  s' = <[Fs.parse cwd file := File c]> s.
Proof.
  unfold Fs.write. destruct (Fs.resolve _ _ _) as [p|] eqn:Er; [|discriminate].
  apply resolve_Ok in Er as ->.
  destruct (Fs.writable _ _ _); by intros [= <-].
Qed.

Lemma found_File (cwd : Fs.path) (file : string) (s : Fs.fs) (c : content) :
  Fs.found cwd file s = Some (File c) ->
  s !! Fs.parse cwd file = Some (File c).
Proof.
  unfold Fs.found. destruct (Fs.resolve _ _ _) as [p|] eqn:Er; [|discriminate].
  apply resolve_Ok in Er as ->. apply node_at_File.
Qed.

Lemma read_json_auto_state (cwd : Fs.path) (file : string) (s s' : Fs.fs)
    (r : result table) :
  Fs.read_json_auto cwd file s = (r, s') -> s' = s.
Proof.
  unfold Fs.read_json_auto.
  destruct (Fs.found _ _ s) as [[|[[d|]| | |]]|]; congruence.
Qed.

Lemma read_json_auto_Ok (cwd : Fs.path) (file : string) (s s' : Fs.fs)
    (customers_raw : table) :
  Fs.read_json_auto cwd file s = (Ok customers_raw, s') ->
  exists data,
    s !! Fs.parse cwd file = Some (File (Text (Some data))) /\
    Engine.read_json_auto data = Ok customers_raw.
Proof.
  unfold Fs.read_json_auto.
  destruct (Fs.found _ _ s) as [[|[[d|]| | |]]|] eqn:E; try discriminate.
  intros [= H _]. exists d. split; [|done]. by apply found_File.
Qed.

Lemma json_load_state (cwd : Fs.path) (file : string) (s s' : Fs.fs)
    (r : result value) :
  Fs.json_load cwd file s = (r, s') -> s' = s.
Proof.
  unfold Fs.json_load. rewrite io_bind_eq.
  destruct (Fs.open_read cwd file s) as [[c|e] s1] eqn:E;
    apply open_read_state in E as ->; [|congruence].
  destruct c as [[d|]| | |]; unfold mret, Fs.io_ret, Fs.raise; congruence.
Qed.

Lemma json_load_Ok (cwd : Fs.path) (file : string) (s s' : Fs.fs)
    (data : value) :
  Fs.json_load cwd file s = (Ok data, s') ->
  s !! Fs.parse cwd file = Some (File (Text (Some data))).
Proof.
  unfold Fs.json_load. rewrite io_bind_eq.
  destruct (Fs.open_read cwd file s) as [[c|e] s1] eqn:E; [|discriminate].
  apply open_read_ok in E.
  destruct c as [[d|]| | |]; unfold mret, Fs.io_ret, Fs.raise;
    try discriminate.
  by intros [= <- _].
Qed.

Lemma read_parquet_Ok (cwd : Fs.path) (file : string) (s s' : Fs.fs)
    (t : table) :
  Fs.read_parquet cwd file s = (Ok t, s') ->
  s !! Fs.parse cwd file = Some (File (Parquet t)) /\ s' = s.
Proof.
  unfold Fs.read_parquet.
  destruct (Fs.found _ _ s) as [[|[| | t' |]]|] eqn:E; try discriminate.
  intros [= -> ->]. split; [|done]. by apply found_File.
Qed.

Tactic Notation "step" hyp(H) ident(x) ident(s) ident(E) :=
  rewrite io_bind_eq in H;
  match type of H with
  | match ?m with _ => _ end = _ =>
      destruct m as [[x|?] s] eqn:E; [|discriminate]
  end.

(** A run that completes has read a document from the input file, has
    taken it through Step 1 and through Steps 2 to 4, and has exported
    the table of lines 147-160. *)
Lemma run_Ok (cwd : Fs.path) (json_file_path output_dir : string)
    (s s' : Fs.fs) :
  flatten_and_transform_customer_data cwd json_file_path output_dir s
    = (Ok (), s') ->
  exists data flattened_customers t s1,
    s !! Fs.parse cwd json_file_path = Some (File (Text (Some data))) /\
    Py.flatten data = Ok flattened_customers /\
    Engine.in_memory data = Ok t /\
    Fs.files s1 = Fs.files s /\
    Fs.create_table_if_not_exists cwd (output_dir +:+ "/customers.duckdb")
      "customers_secure" (output_dir +:+ "/customers_secure.parquet")
      (<[Fs.parse cwd (output_dir +:+ "/customers_secure.parquet")
           := File (Parquet t)]>
         (<[Fs.parse cwd (output_dir +:+ "/customers_secure.csv")
              := File (Csv t)]> s1))
      = (Ok (), s').
Proof.
  unfold flatten_and_transform_customer_data. intros H.
  step H u s1 Emk. apply mkdir_from_files in Emk.
  step H data s2 E2. pose proof (json_load_Ok _ _ _ _ _ E2) as Hdata.
  apply json_load_state in E2 as ->.
  step H flattened_customers s2 E2. apply lift_eq in E2 as [Hfl <-].
  step H customers_raw s2 E2.
  pose proof (read_json_auto_Ok _ _ _ _ _ E2) as (data' & Hdata' & E1).
  assert (data' = data) as -> by congruence.
  apply read_json_auto_state in E2 as ->.
  step H customers_flattened s2 E2. apply lift_eq in E2 as [E3 <-].
  step H customers_tabular s2 E2. apply lift_eq in E2 as [E4 <-].
  step H Email_Masked s2 E2. apply lift_eq in E2 as [E5 <-].
  step H customers_secure s2 E2. apply lift_eq in E2 as [E6 <-].
  step H customers_secure_sql s2 E2. apply lift_eq in E2 as [E7 <-].
  step H displayed s2 E2. apply lift_eq in E2 as [E8 <-].
  step H u1 s2 E2. destruct u1. apply write_Ok in E2 as ->.
  step H u2 s3 E3'. destruct u2. apply write_Ok in E3' as ->.
  exists data, flattened_customers, customers_secure_sql, s1.
  split; [|split; [done|split; [|by split]]].
  - apply files_lookup. rewrite <- Emk. by apply files_lookup.
  - unfold Engine.in_memory. rewrite E1. simpl. rewrite E3. simpl.
    rewrite E4. simpl. rewrite E5. simpl. rewrite E6. simpl.
    rewrite E7. simpl. by rewrite E8.
Qed.

Lemma output_paths_ne (cwd : Fs.path) (output_dir : string) :
  let csv := Fs.parse cwd (output_dir +:+ "/customers_secure.csv") in
  let parquet := Fs.parse cwd (output_dir +:+ "/customers_secure.parquet") in
  let db := Fs.parse cwd (output_dir +:+ "/customers.duckdb") in
  csv <> parquet /\ csv <> db /\ parquet <> db.
Proof.
  repeat split;
    by apply (parse_ne cwd output_dir
                (String _ (String _ (String _ _)))
                (String _ (String _ (String _ _)))).
Qed.

(** Step 5 on the state that the two [COPY] statements leave: the
    database file ends up with a [customers_secure] table, the exported
    one if the run made the file. *)
Lemma export_database (cwd : Fs.path) (output_dir : string) (t : table)
    (s1 s' : Fs.fs) :
  let csv := Fs.parse cwd (output_dir +:+ "/customers_secure.csv") in
  let parquet := Fs.parse cwd (output_dir +:+ "/customers_secure.parquet") in
  let db := Fs.parse cwd (output_dir +:+ "/customers.duckdb") in
  Fs.create_table_if_not_exists cwd (output_dir +:+ "/customers.duckdb")
    "customers_secure" (output_dir +:+ "/customers_secure.parquet")
    (<[parquet := File (Parquet t)]> (<[csv := File (Csv t)]> s1))
    = (Ok (), s') ->
  exists tables,
    s' !! csv = Some (File (Csv t)) /\
    s' !! parquet = Some (File (Parquet t)) /\
    s' !! db = Some (File (Database tables)) /\
    is_Some (tables !! "customers_secure") /\
    (Fs.files s1 !! db = None -> tables !! "customers_secure" = Some t).
Proof.
  intros csv parquet db.
  destruct (output_paths_ne cwd output_dir) as (Hcp & Hcd & Hpd).
  fold csv parquet db in Hcp, Hcd, Hpd.
  set (s3 := <[parquet := File (Parquet t)]> (<[csv := File (Csv t)]> s1)).
  assert (H3c : s3 !! csv = Some (File (Csv t))).
  { unfold s3. by rewrite lookup_insert_ne, lookup_insert_eq. }
  assert (H3p : s3 !! parquet = Some (File (Parquet t))).
  { unfold s3. by rewrite lookup_insert_eq. }
  assert (H3d : s3 !! db = s1 !! db).
  { unfold s3. by rewrite !lookup_insert_ne. }
  unfold Fs.create_table_if_not_exists. rewrite io_bind_eq.
  unfold Fs.connect.
  destruct (Fs.resolve cwd _ s3) as [p|] eqn:Er; [|discriminate].
  apply resolve_Ok in Er as ->. fold db.
  destruct (Fs.node_at cwd db s3) as [[|[| | |tables]]|] eqn:En;
    try discriminate.
  - apply node_at_File in En.
    destruct (tables !! "customers_secure") as [t0|] eqn:Et.
    + intros [= <-]. exists tables.
      repeat split; try done. intros Hs.
      rewrite H3d in En. apply files_lookup in En. congruence.
    + rewrite io_bind_eq.
      destruct (Fs.read_parquet _ _ s3) as [[t'|e] s4] eqn:Erp; [|discriminate].
      apply read_parquet_Ok in Erp as [Erp ->]. fold parquet in Erp.
      assert (t' = t) as -> by congruence.
      intros Hw. apply write_Ok in Hw as ->. fold db.
      exists (<[ "customers_secure" := t ]> tables).
      rewrite !lookup_insert_eq, !lookup_insert_ne by done.
      by repeat split.
  - destruct (Fs.writable cwd db s3); [|discriminate].
    rewrite lookup_empty, io_bind_eq.
    destruct (Fs.read_parquet _ _ _) as [[t'|e] s4] eqn:Erp; [|discriminate].
    apply read_parquet_Ok in Erp as [Erp ->]. fold parquet in Erp.
    rewrite lookup_insert_ne in Erp by done.
    assert (t' = t) as -> by congruence.
    intros Hw. apply write_Ok in Hw as ->. fold db.
    exists (<[ "customers_secure" := t ]> ∅).
    rewrite !lookup_insert_eq, !lookup_insert_ne by done.
    by repeat split.
Qed.

End Published.

(** ** A run with the configured paths *)

Section CompleteRun.

Lemma data_dir_ne (cwd : Fs.path) (name : string) :
  data_dir cwd ++ [name] <> data_dir cwd.
Proof.
  intros H. apply (f_equal length) in H. rewrite length_app in H.
  simpl in H. lia.
Qed.

Lemma in_data_dir_ne (cwd : Fs.path) (name1 name2 : string) :
  name1 <> name2 -> data_dir cwd ++ [name1] <> data_dir cwd ++ [name2].
Proof. intros H [= ?]%app_inv_head. done. Qed.

Lemma json_load_present (cwd : Fs.path) (s : Fs.fs) (data : value) :
  s !! data_dir cwd = Some Dir ->
  s !! input_file cwd = Some (File (Text (Some data))) ->
  Fs.json_load cwd JSON_FILE s = (Ok data, s).
Proof.
  intros Hd%(node_at_Dir cwd) Hin. unfold Fs.json_load. rewrite io_bind_eq.
  unfold Fs.open_read. rewrite (resolve_JSON_FILE _ _ Hd). unfold JSON_FILE.
  by rewrite input_file_eq, node_at_in_data_dir, <- input_file_eq, Hin.
Qed.

Lemma read_json_auto_present (cwd : Fs.path) (s : Fs.fs) (data : value) :
  s !! data_dir cwd = Some Dir ->
  s !! input_file cwd = Some (File (Text (Some data))) ->
  Fs.read_json_auto cwd JSON_FILE s = (Engine.read_json_auto data, s).
Proof.
  intros Hd%(node_at_Dir cwd) Hin. unfold Fs.read_json_auto, Fs.found.
  rewrite (resolve_JSON_FILE _ _ Hd).
  by rewrite input_file_eq, node_at_in_data_dir, <- input_file_eq, Hin.
Qed.

Lemma removelast_snoc (l : list string) (x : string) :
  removelast (l ++ [x]) = l.
Proof. induction l as [|y l IH]; [done|]. simpl. rewrite IH. by destruct l. Qed.

Lemma resolve_output (cwd : Fs.path) (file name : string) (s : Fs.fs) :
  file = OUTPUT_DIR +:+ "/" +:+ name ->
  Fs.kept name = true -> PyStr.contains "/" name = false -> name <> ".." ->
  s !! data_dir cwd = Some Dir ->
  Fs.resolve cwd file s = Ok (data_dir cwd ++ [name]).
Proof.
  intros -> Hk Hc Hn Hd. apply resolve_in_data_dir; try done.
  by apply node_at_Dir.
Qed.

Lemma writable_in_data_dir (cwd : Fs.path) (name : string) (s : Fs.fs) :
  s !! data_dir cwd = Some Dir ->
  Fs.writable cwd (data_dir cwd ++ [name]) s
    = negb (Fs.is_dir (s !! (data_dir cwd ++ [name]))).
Proof.
  intros Hd%(node_at_Dir cwd). unfold Fs.writable.
  by rewrite removelast_snoc, Hd, node_at_in_data_dir.
Qed.

Lemma write_output (cwd : Fs.path) (file name : string) (c : content)
    (s : Fs.fs) :
  file = OUTPUT_DIR +:+ "/" +:+ name ->
  Fs.kept name = true -> PyStr.contains "/" name = false -> name <> ".." ->
  s !! data_dir cwd = Some Dir ->
  Fs.write cwd file c s
  = if Fs.is_dir (s !! (data_dir cwd ++ [name])) then (Raise DuckDBError, s)
    else (Ok (), <[data_dir cwd ++ [name] := File c]> s).
Proof.
  intros -> Hk Hc Hn Hd. unfold Fs.write.
  rewrite (resolve_in_data_dir cwd name s Hk Hc Hn (node_at_Dir _ _ _ Hd)).
  rewrite (writable_in_data_dir _ _ _ Hd).
  by destruct (Fs.is_dir _).
Qed.

(** What [Engine.in_memory] strings together. *)
Lemma in_memory_Ok (data : value) (t : table) :
  Engine.in_memory data = Ok t ->
  exists customers_raw customers_flattened customers_tabular Email_Masked
         customers_secure displayed,
    Engine.read_json_auto data = Ok customers_raw /\
    Engine.customers_flattened customers_raw = Ok customers_flattened /\
    Engine.customers_tabular customers_flattened = Ok customers_tabular /\
    Engine.apply_mask_email customers_tabular = Ok Email_Masked /\
    Engine.customers_secure customers_tabular Email_Masked
      = Ok customers_secure /\
    Engine.customers_secure_sql customers_tabular = Ok t /\
    Engine.displayed t = Ok displayed.
Proof.
  unfold Engine.in_memory. intros H.
  destruct (Engine.read_json_auto data) as [raw|] eqn:E1;
    simpl in H; [|discriminate].
  destruct (Engine.customers_flattened raw) as [cf|] eqn:E2;
    simpl in H; [|discriminate].
  destruct (Engine.customers_tabular cf) as [ct|] eqn:E3;
    simpl in H; [|discriminate].
  destruct (Engine.apply_mask_email ct) as [em|] eqn:E4;
    simpl in H; [|discriminate].
  destruct (Engine.customers_secure ct em) as [cs|] eqn:E5;
    simpl in H; [|discriminate].
  destruct (Engine.customers_secure_sql ct) as [sql|] eqn:E6;
    simpl in H; [|discriminate].
  destruct (Engine.displayed sql) as [d|] eqn:E7;
    simpl in H; [|discriminate].
  injection H as <-. by exists raw, cf, ct, em, cs, d.
Qed.

(** The part of a run before Step 5, on a readable input. *)
Lemma run_before_export (cwd : Fs.path) (s : Fs.fs) (data : value)
    (k : table -> Fs.io unit) :
  s !! data_dir cwd = Some Dir ->
  s !! input_file cwd = Some (File (Text (Some data))) ->
  (Fs.mkdir cwd OUTPUT_DIR;;
   data ← Fs.json_load cwd JSON_FILE;
   flattened_customers ← Fs.lift (Py.flatten data);
   customers_raw ← Fs.read_json_auto cwd JSON_FILE;
   customers_flattened ← Fs.lift (Engine.customers_flattened customers_raw);
   customers_tabular ← Fs.lift (Engine.customers_tabular customers_flattened);
   Email_Masked ← Fs.lift (Engine.apply_mask_email customers_tabular);
   customers_secure ← Fs.lift (Engine.customers_secure customers_tabular Email_Masked);
   customers_secure_sql ← Fs.lift (Engine.customers_secure_sql customers_tabular);
   displayed ← Fs.lift (Engine.displayed customers_secure_sql);
   k customers_secure_sql) s
  = match Py.flatten data with
    | Raise e => (Raise e, s)
    | Ok _ => match Engine.in_memory data with
              | Raise e => (Raise e, s)
              | Ok t => k t s
              end
    end.
Proof.
  intros Hd Hin.
  rewrite io_bind_eq, mkdir_OUTPUT_DIR, (node_at_Dir _ _ _ Hd).
  rewrite io_bind_eq, (json_load_present _ _ _ Hd Hin).
  rewrite io_bind_eq. unfold Fs.lift at 1.
  destruct (Py.flatten data) as [fc|e]; [|done].
  rewrite io_bind_eq, (read_json_auto_present _ _ _ Hd Hin).
  unfold Engine.in_memory.
  destruct (Engine.read_json_auto data) as [raw|e]; simpl; [|done].
  rewrite io_bind_eq. unfold Fs.lift at 1.
  destruct (Engine.customers_flattened raw) as [cf|e]; simpl; [|done].
  rewrite io_bind_eq. unfold Fs.lift at 1.
  destruct (Engine.customers_tabular cf) as [ct|e]; simpl; [|done].
  rewrite io_bind_eq. unfold Fs.lift at 1.
  destruct (Engine.apply_mask_email ct) as [em|e]; simpl; [|done].
  rewrite io_bind_eq. unfold Fs.lift at 1.
  destruct (Engine.customers_secure ct em) as [cs|e]; simpl; [|done].
  rewrite io_bind_eq. unfold Fs.lift at 1.
  destruct (Engine.customers_secure_sql ct) as [sql|e]; simpl; [|done].
  rewrite io_bind_eq. unfold Fs.lift at 1.
  by destruct (Engine.displayed sql) as [d|e]; simpl.
Qed.

(** The two [COPY] statements of Step 5 when neither path is a
    directory. *)
Lemma export_files (cwd : Fs.path) (s : Fs.fs) (t : table) (k : Fs.io unit) :
  s !! data_dir cwd = Some Dir ->
  Fs.is_dir (s !! csv_file cwd) = false ->
  Fs.is_dir (s !! parquet_file cwd) = false ->
  (Fs.copy_to_csv cwd t (OUTPUT_DIR +:+ "/customers_secure.csv");;
   Fs.copy_to_parquet cwd t (OUTPUT_DIR +:+ "/customers_secure.parquet");;
   k) s
  = k (<[parquet_file cwd := File (Parquet t)]>
         (<[csv_file cwd := File (Csv t)]> s)).
Proof.
  rewrite csv_file_eq, parquet_file_eq. intros Hd Hcsv Hpq.
  unfold Fs.copy_to_csv, Fs.copy_to_parquet.
  rewrite io_bind_eq, (write_output cwd _ "customers_secure.csv"), Hcsv;
    [|done..].
  rewrite io_bind_eq, (write_output cwd _ "customers_secure.parquet");
    [|done|done|done|done|].
  2:{ rewrite lookup_insert_ne; [done|]. apply data_dir_ne. }
  rewrite lookup_insert_ne by by apply in_data_dir_ne.
  by rewrite Hpq.
Qed.

(** Lines 208-213 when there is no database file yet. *)
Lemma create_table_fresh (cwd : Fs.path) (s : Fs.fs) (t : table) :
  s !! data_dir cwd = Some Dir ->
  s !! parquet_file cwd = Some (File (Parquet t)) ->
  s !! db_file cwd = None ->
  Fs.create_table_if_not_exists cwd (OUTPUT_DIR +:+ "/customers.duckdb")
    "customers_secure" (OUTPUT_DIR +:+ "/customers_secure.parquet") s
  = (Ok (), <[db_file cwd := File (Database {["customers_secure" := t]})]> s).
Proof.
  rewrite parquet_file_eq, db_file_eq. intros Hd Hpq Hdb.
  pose proof (node_at_Dir cwd _ _ Hd) as Hn.
  unfold Fs.create_table_if_not_exists, Fs.connect.
  rewrite io_bind_eq.
  rewrite (resolve_output cwd _ "customers.duckdb" s); [|done..].
  rewrite node_at_in_data_dir, Hdb, (writable_in_data_dir _ _ _ Hd), Hdb.
  cbn [Fs.is_dir negb]. rewrite lookup_empty, io_bind_eq.
  unfold Fs.read_parquet, Fs.found.
  rewrite (resolve_output cwd _ "customers_secure.parquet"); [|done..|].
  2:{ rewrite lookup_insert_ne; [done|]. apply data_dir_ne. }
  rewrite node_at_in_data_dir, lookup_insert_ne, Hpq by by apply in_data_dir_ne.
  rewrite (write_output cwd _ "customers.duckdb"); [|done..|].
  2:{ rewrite lookup_insert_ne; [done|]. apply data_dir_ne. }
  rewrite lookup_insert_eq. cbn [Fs.is_dir].
  by rewrite insert_insert_eq, insert_empty.
Qed.

(** Lines 208-213 when the database file already has the table. *)
Lemma create_table_present (cwd : Fs.path) (s : Fs.fs) (t0 : table)
    (tables : gmap string table) :
  s !! data_dir cwd = Some Dir ->
  s !! db_file cwd = Some (File (Database tables)) ->
  tables !! "customers_secure" = Some t0 ->
  Fs.create_table_if_not_exists cwd (OUTPUT_DIR +:+ "/customers.duckdb")
    "customers_secure" (OUTPUT_DIR +:+ "/customers_secure.parquet") s
  = (Ok (), s).
Proof.
  rewrite db_file_eq. intros Hd Hdb Ht.
  unfold Fs.create_table_if_not_exists, Fs.connect. rewrite io_bind_eq.
  rewrite (resolve_output cwd _ "customers.duckdb" s); [|done..].
  by rewrite node_at_in_data_dir, Hdb, Ht.
Qed.

(** A first run in a data directory that holds the input: the three
    files are written and the run completes. *)
Lemma run_configured (cwd : Fs.path) (s : Fs.fs) (data : value)
    (flattened_customers : list Py.flat_customer) (t : table) :
  s !! data_dir cwd = Some Dir ->
  s !! input_file cwd = Some (File (Text (Some data))) ->
  Py.flatten data = Ok flattened_customers ->
  Engine.in_memory data = Ok t ->
  Fs.is_dir (s !! csv_file cwd) = false ->
  Fs.is_dir (s !! parquet_file cwd) = false ->
  s !! db_file cwd = None ->
  flatten_and_transform_customer_data cwd JSON_FILE OUTPUT_DIR s
    = (Ok (),
       <[db_file cwd := File (Database {["customers_secure" := t]})]>
         (<[parquet_file cwd := File (Parquet t)]>
            (<[csv_file cwd := File (Csv t)]> s))).
Proof.
  intros Hd Hin Hfl Hmem Hcsv Hpq Hdb.
  unfold flatten_and_transform_customer_data.
  rewrite (run_before_export cwd s data _ Hd Hin), Hfl, Hmem.
  rewrite (export_files cwd s t _ Hd Hcsv Hpq).
  apply create_table_fresh.
  - rewrite csv_file_eq, parquet_file_eq, !lookup_insert_ne; [done|..];
      apply data_dir_ne.
  - by rewrite lookup_insert_eq.
  - rewrite csv_file_eq, parquet_file_eq, db_file_eq in *.
    by rewrite !lookup_insert_ne by by apply in_data_dir_ne.
Qed.

Lemma main_Raise (cwd : Fs.path) (s s' : Fs.fs) (e : exn) :
  flatten_and_transform_customer_data cwd JSON_FILE OUTPUT_DIR s
    = (Raise e, s') ->
  e <> FileNotFoundError ->
  main cwd s = (Propagated e, s').
Proof. intros H He. unfold main. rewrite H. by destruct e. Qed.

End CompleteRun.

(** ** The runs on the sample documents *)

Section SampleRuns.

Lemma run_sample (data : value) (flattened_customers : list Py.flat_customer)
    (t : table) :
  Py.flatten data = Ok flattened_customers ->
  Engine.in_memory data = Ok t ->
  flatten_and_transform_customer_data Sample.cwd JSON_FILE OUTPUT_DIR
    (Sample.fs_with data)
    = (Ok (), Sample.fs_published data t).
Proof.
  intros Hfl Hmem.
  by apply (run_configured _ _ data flattened_customers t).
Qed.

Lemma run_document :
  flatten_and_transform_customer_data Sample.cwd JSON_FILE OUTPUT_DIR
    (Sample.fs_with Sample.document)
    = (Ok (), Sample.fs_published Sample.document Sample.published).
Proof. by eapply run_sample. Qed.

Lemma run_two_companies :
  flatten_and_transform_customer_data Sample.cwd JSON_FILE OUTPUT_DIR
    (Sample.fs_with Sample.two_companies)
    = (Ok (), Sample.fs_published Sample.two_companies Sample.published_two).
Proof. by eapply run_sample. Qed.

Lemma fs_published_files (data : value) (t : table) :
  Sample.fs_published data t !! csv_file Sample.cwd = Some (File (Csv t)) /\
  Sample.fs_published data t !! parquet_file Sample.cwd
    = Some (File (Parquet t)) /\
  Sample.fs_published data t !! db_file Sample.cwd
    = Some (File (Database {["customers_secure" := t]})).
Proof.
  unfold Sample.fs_published.
  split; [|split].
  - rewrite !lookup_insert_ne by done. by rewrite lookup_insert_eq.
  - rewrite lookup_insert_ne by done. by rewrite lookup_insert_eq.
  - by rewrite lookup_insert_eq.
Qed.

End SampleRuns.

(** * Further properties *)

(** ** The shape of a masked address *)

Section MaskedShape.

Lemma prefix_contains (c : ascii) (p s : string) :
  String.prefix p s = true ->
  PyStr.contains c p = true -> PyStr.contains c s = true.
Proof.
  revert p. induction s as [|b s IH]; intros [|a p]; simpl.
  - intros _ [=].
  - intros [=].
  - intros _ [=].
  - destruct (ascii_dec a b) as [<-|]; [|intros [=]].
    destruct (Ascii.eqb a c); [done|]. apply IH.
Qed.

Lemma prefix_app (p r : string) : String.prefix p (p +:+ r) = true.
Proof.
  induction p as [|a p IH].
  - by destruct r.
  - rewrite str_app_cons. simpl. by destruct (ascii_dec a a).
Qed.

(** No part of a split holds the separator. *)
Lemma split_parts (c : ascii) (s : string) :
  Forall (fun p => PyStr.contains c p = false) (Sql.split c s).
Proof.
  induction s as [|x s IH]; simpl; [by repeat constructor|].
  destruct (Ascii.eqb x c) eqn:E; [by constructor|].
  destruct (Sql.split c s) as [|p ps].
  - constructor; [|constructor]. simpl. by rewrite E.
  - inversion IH; subst. constructor; [|done]. simpl. by rewrite E.
Qed.

Lemma split_part_no_sep (c : ascii) (s : string) (index : nat) :
  PyStr.contains c (Sql.split_part s c index) = false.
Proof.
  unfold Sql.split_part.
  pose proof (split_parts c s) as H.
  revert H. generalize (Sql.split c s) (index - 1). clear.
  intros l n H. revert n. induction H as [|p l Hp _ IH]; intros [|n]; simpl; auto.
Qed.

Lemma mask_email_count_at (email : string) :
  PyStr.count "@" (mask_email email) = PyStr.count "@" email.
Proof.
  destruct (PyStr.contains "@" email) eqn:H.
  - destruct (contains_decompose _ _ H) as (l & r & -> & Hl).
    rewrite (mask_email_at _ _ Hl), !count_app.
    apply contains_count in Hl. rewrite Hl. reflexivity.
  - by rewrite (mask_email_no_at _ H).
Qed.

Lemma email_masked_count_at (Email : string) :
  PyStr.count "@" (Sql.email_masked Email) = 1.
Proof.
  unfold Sql.email_masked, Sql.concat. rewrite count_app.
  pose proof (split_part_no_sep "@" Email 2) as H.
  apply contains_count in H. by rewrite H.
Qed.

End MaskedShape.

(** X1. The result of [mask_email] begins with the mask ["*******@"]
    exactly when the argument contains ['@']. *)
Theorem mask_email_masked_iff_at (email : string) :
  String.prefix "*******@" (mask_email email) = PyStr.contains "@" email.
Proof.
  destruct (PyStr.contains "@" email) eqn:H.
  - destruct (contains_decompose _ _ H) as (l & r & -> & Hl).
    rewrite (mask_email_at _ _ Hl). apply prefix_app.
  - rewrite (mask_email_no_at _ H).
    destruct (String.prefix "*******@" email) eqn:Hp; [|done].
    apply (prefix_contains "@") in Hp; [congruence|reflexivity].
Qed.

(** X2. [mask_email] neither adds nor removes an ['@']: the result has
    as many as the argument. *)
Theorem mask_email_keeps_at_count (email : string) :
  PyStr.count "@" (mask_email email) = PyStr.count "@" email.
Proof. apply mask_email_count_at. Qed.

(** X3. Whatever the address, the expression of line 154 returns the
    mask followed by a part without ['@']: the result begins with
    ["*******@"], holds exactly one ['@'], and is 8 characters longer
    than the second part of the address. *)
Theorem email_masked_shape (Email : string) :
  String.prefix "*******@" (Sql.email_masked Email) = true /\
  PyStr.count "@" (Sql.email_masked Email) = 1 /\
  String.length (Sql.email_masked Email)
    = 8 + String.length (Sql.split_part Email "@" 2).
Proof.
  split; [apply prefix_app|]. split; [apply email_masked_count_at|].
  unfold Sql.email_masked, Sql.concat. by rewrite str_length_app.
Qed.

(** X4. The expression of line 154 and [mask_email] return the same
    string exactly for the addresses with one ['@']. *)
Theorem email_masked_agrees_iff (e : string) :
  Sql.email_masked e = mask_email e <-> PyStr.count "@" e = 1.
Proof.
  split; [|apply email_masked_one_at].
  intros H.
  pose proof (email_masked_count_at e) as Hc.
  rewrite H, mask_email_count_at in Hc. exact Hc.
Qed.

(** X5. The domain that the analytics script reads off a published
    [Email_Masked] (Query 3) is the second ['@']-part of the original
    address, for every address; for an address with one ['@'] it is
    the domain. *)
Theorem EmailDomain_of_email_masked (Email : string) :
  Analytics.EmailDomain (Sql.email_masked Email) = Sql.split_part Email "@" 2 /\
  (forall local_part domain,
     Email = local_part +:+ "@" +:+ domain ->
     PyStr.count "@" Email = 1 ->
     Analytics.EmailDomain (Sql.email_masked Email) = domain).
Proof.
  assert (H : Analytics.EmailDomain (Sql.email_masked Email)
              = Sql.split_part Email "@" 2).
  { unfold Analytics.EmailDomain, Sql.email_masked, Sql.concat.
    apply (split_part_2_one_at "*******"); [reflexivity|].
    apply split_part_no_sep. }
  split; [exact H|].
  intros l d -> Hc. rewrite H.
  change ("@" +:+ d) with (String "@" d) in *.
  rewrite count_app in Hc. simpl in Hc.
  apply split_part_2_one_at; apply contains_count; lia.
Qed.

Lemma EmailDomain_of_email_masked_witness :
  Analytics.EmailDomain (Sql.email_masked "carlos91@gmail.com")
    = Sql.split_part "carlos91@gmail.com" "@" 2 /\
  Analytics.EmailDomain (Sql.email_masked "carlos91@gmail.com") = "gmail.com".
Proof.
  split.
  - apply (proj1 (EmailDomain_of_email_masked "carlos91@gmail.com")).
  - apply (proj2 (EmailDomain_of_email_masked "carlos91@gmail.com")
             "carlos91" "gmail.com"); reflexivity.
Defined.

(** ** Step 1 on documents of other shapes *)

Section Step1Errors.

Lemma flat_of_Ok (company_id company_name customer : value)
    (r : Py.flat_customer) :
  Py.flat_of company_id company_name customer = Ok r ->
  Py.getitem customer "Name" = Ok (Py.CustomerName r) /\
  Py.getitem customer "Email" = Ok (Py.Email r) /\
  Py.getitem customer "Phone" = Ok (Py.Phone r) /\
  Py.getitem customer "Birth" = Ok (Py.DateOfBirth r) /\
  Py.getitem customer "Place of Birth" = Ok (Py.PlaceOfBirth r) /\
  Py.getitem customer "Role" = Ok (Py.Role r).
Proof.
  unfold Py.flat_of. intros H.
  repeat match type of H with
         | context [Py.getitem customer ?k] =>
             destruct (Py.getitem customer k); simpl in H; [|discriminate]
         end.
  by injection H as <-.
Qed.

Lemma flat_of_is_customer (company_id company_name customer : value)
    (r : Py.flat_customer) :
  Py.flat_of company_id company_name customer = Ok r ->
  Py.is_customer customer = true.
Proof.
  intros H. apply flat_of_Ok in H as (H1 & H2 & H3 & H4 & H5 & H6).
  unfold Py.is_customer. simpl. by rewrite H1, H2, H3, H4, H5, H6.
Qed.

(** What the loop returns when it returns: the list it started with,
    then one record per customer. *)
Lemma for_customer_in_Ok (company_id company_name : value)
    (customers : list value) (acc rs : list Py.flat_customer) :
  Py.for_customer_in company_id company_name customers acc = Ok rs ->
  exists rs', rs = acc ++ rs' /\
    Forall2 (fun c r => Py.flat_of company_id company_name c = Ok r)
            customers rs'.
Proof.
  revert acc. induction customers as [|c cs IH]; intros acc; simpl.
  - intros [= <-]. exists []. by rewrite app_nil_r.
  - destruct (Py.flat_of company_id company_name c) as [r|e] eqn:E;
      simpl; [|discriminate].
    intros H. apply IH in H as (rs' & -> & Hrs).
    exists (r :: rs'). rewrite <- app_assoc. by split; [|constructor].
Qed.

(** The exceptions of one subscript. *)
Lemma getitem_Raise (obj : value) (key : string) (e : exn) :
  Py.getitem obj key = Raise e -> Py.lookup_error e = true.
Proof.
  unfold Py.getitem. destruct obj as [| | | | |kv]; try by intros [= <-].
  destruct (Py.dict_get key kv); [discriminate|]. by intros [= <-].
Qed.

Lemma flat_of_Raise (company_id company_name customer : value) (e : exn) :
  Py.flat_of company_id company_name customer = Raise e -> Py.lookup_error e = true.
Proof.
  unfold Py.flat_of. intros H.
  repeat match type of H with
         | context [Py.getitem customer ?k] =>
             let E := fresh "E" in
             destruct (Py.getitem customer k) eqn:E; simpl in H;
             [|injection H as <-; by apply getitem_Raise in E]
         end.
  discriminate.
Qed.

Lemma for_customer_in_Raise (company_id company_name : value)
    (customers : list value) (acc : list Py.flat_customer) (e : exn) :
  Py.for_customer_in company_id company_name customers acc = Raise e ->
  Py.lookup_error e = true.
Proof.
  revert acc. induction customers as [|c cs IH]; intros acc; simpl;
    [discriminate|].
  destruct (Py.flat_of company_id company_name c) as [r|e'] eqn:E; simpl.
  - apply IH.
  - intros [= <-]. by eapply flat_of_Raise.
Qed.

Lemma flatten_Raise (data : value) (e : exn) :
  Py.flatten data = Raise e -> Py.lookup_error e = true.
Proof.
  unfold Py.flatten. intros H.
  destruct (Py.getitem data "CompanyID") as [cid|e1] eqn:E1; simpl in H;
    [|injection H as <-; by apply getitem_Raise in E1].
  destruct (Py.getitem data "CompanyInfo") as [ci|e2] eqn:E2; simpl in H;
    [|injection H as <-; by apply getitem_Raise in E2].
  destruct (Py.getitem_0 ci) as [c0|e3] eqn:E3; simpl in H.
  2:{ injection H as <-. unfold Py.getitem_0 in E3.
      destruct ci as [| | |[|]|[|]|]; try discriminate;
        by injection E3 as <-. }
  destruct (Py.getitem c0 "Name") as [name|e4] eqn:E4; simpl in H;
    [|injection H as <-; by apply getitem_Raise in E4].
  destruct (Py.getitem c0 "Customers") as [cs|e5] eqn:E5; simpl in H;
    [|injection H as <-; by apply getitem_Raise in E5].
  destruct (Py.iter cs) as [l|e6] eqn:E6; simpl in H.
  - by eapply for_customer_in_Raise.
  - injection H as <-. unfold Py.iter in E6.
    destruct cs; try discriminate; by injection E6 as <-.
Qed.

(** What Step 1 has read when it returns. *)
Lemma flatten_Ok (data : value) (rs : list Py.flat_customer) :
  Py.flatten data = Ok rs ->
  exists company_id company_infos company_info company_name customers cs,
    Py.getitem data "CompanyID" = Ok company_id /\
    Py.getitem data "CompanyInfo" = Ok company_infos /\
    Py.getitem_0 company_infos = Ok company_info /\
    Py.getitem company_info "Name" = Ok company_name /\
    Py.getitem company_info "Customers" = Ok customers /\
    Py.iter customers = Ok cs /\
    Forall2 (fun c r => Py.flat_of company_id company_name c = Ok r) cs rs.
Proof.
  unfold Py.flatten. intros H.
  destruct (Py.getitem data "CompanyID") as [cid|] eqn:E1; simpl in H;
    [|discriminate].
  destruct (Py.getitem data "CompanyInfo") as [ci|] eqn:E2; simpl in H;
    [|discriminate].
  destruct (Py.getitem_0 ci) as [c0|] eqn:E3; simpl in H; [|discriminate].
  destruct (Py.getitem c0 "Name") as [name|] eqn:E4; simpl in H;
    [|discriminate].
  destruct (Py.getitem c0 "Customers") as [cs|] eqn:E5; simpl in H;
    [|discriminate].
  destruct (Py.iter cs) as [l|] eqn:E6; simpl in H; [|discriminate].
  apply for_customer_in_Ok in H as (rs' & -> & Hrs).
  by exists cid, ci, c0, name, cs, l.
Qed.

End Step1Errors.

(** X6. When Step 1 returns, the document had [CompanyID], a
    [CompanyInfo] with a first element holding [Name] and [Customers],
    and the records are the customers in order, each with the company's
    identifier and name and the customer's six fields under their new
    names. *)
Theorem flatten_records (data : value) (flattened_customers : list Py.flat_customer) :
  Py.flatten data = Ok flattened_customers ->
  exists company_id company_infos company_info company_name customers cs,
    Py.getitem data "CompanyID" = Ok company_id /\
    Py.getitem data "CompanyInfo" = Ok company_infos /\
    Py.getitem_0 company_infos = Ok company_info /\
    Py.getitem company_info "Name" = Ok company_name /\
    Py.getitem company_info "Customers" = Ok customers /\
    Py.iter customers = Ok cs /\
    Forall2 (fun c r =>
               Py.CompanyID r = company_id /\
               Py.CompanyName r = company_name /\
               Py.getitem c "Name" = Ok (Py.CustomerName r) /\
               Py.getitem c "Email" = Ok (Py.Email r) /\
               Py.getitem c "Phone" = Ok (Py.Phone r) /\
               Py.getitem c "Birth" = Ok (Py.DateOfBirth r) /\
               Py.getitem c "Place of Birth" = Ok (Py.PlaceOfBirth r) /\
               Py.getitem c "Role" = Ok (Py.Role r))
            cs flattened_customers.
Proof.
  intros H.
  destruct (flatten_Ok _ _ H)
    as (cid & ci & c0 & name & customers & cs & H1 & H2 & H3 & H4 & H5 & H6 & Hrs).
  exists cid, ci, c0, name, customers, cs. repeat split; try done.
  pose proof (flat_of_tagged _ _ _ _ Hrs) as Ht.
  clear -Hrs Ht. induction Hrs as [|c r cs rs Hr _ IH]; [constructor|].
  inversion Ht; subst. constructor; [|by apply IH].
  destruct H1 as [-> ->]. by apply flat_of_Ok in Hr.
Qed.

Lemma flatten_records_witness :
  exists company_id company_infos company_info company_name customers cs,
    Py.getitem Sample.document "CompanyID" = Ok company_id /\
    Py.getitem Sample.document "CompanyInfo" = Ok company_infos /\
    Py.getitem_0 company_infos = Ok company_info /\
    Py.getitem company_info "Name" = Ok company_name /\
    Py.getitem company_info "Customers" = Ok customers /\
    Py.iter customers = Ok cs /\
    Forall2 (fun c r =>
               Py.CompanyID r = company_id /\
               Py.CompanyName r = company_name /\
               Py.getitem c "Name" = Ok (Py.CustomerName r) /\
               Py.getitem c "Email" = Ok (Py.Email r) /\
               Py.getitem c "Phone" = Ok (Py.Phone r) /\
               Py.getitem c "Birth" = Ok (Py.DateOfBirth r) /\
               Py.getitem c "Place of Birth" = Ok (Py.PlaceOfBirth r) /\
               Py.getitem c "Role" = Ok (Py.Role r))
            cs
            [{| Py.CompanyID := VInt 1; Py.CompanyName := VStr "Acme";
                Py.CustomerName := VStr "Carlos";
                Py.Email := VStr "carlos91@gmail.com";
                Py.Phone := VStr "555-0100";
                Py.DateOfBirth := VStr "1991-04-02";
                Py.PlaceOfBirth := VStr "Lima";
                Py.Role := VStr "Owner" |}].
Proof.
  apply (flatten_records Sample.document). reflexivity.
Defined.

(** X7. With [CompanyID], a first company, its [Name] and a list of
    [Customers] in place, Step 1 returns exactly when every customer
    entry has the six fields; one entry without one of them stops the
    whole loop. *)
Theorem flatten_returns_iff (data company_id company0 company_name : value)
    (rest customers : list value) :
  Py.getitem data "CompanyID" = Ok company_id ->
  Py.getitem data "CompanyInfo" = Ok (VList (company0 :: rest)) ->
  Py.getitem company0 "Name" = Ok company_name ->
  Py.getitem company0 "Customers" = Ok (VList customers) ->
  (exists flattened_customers, Py.flatten data = Ok flattened_customers) <->
  Forall (fun c => Py.is_customer c = true) customers.
Proof.
  intros H1 H2 H3 H4.
  rewrite (flatten_head _ _ _ _ _ _ H1 H2 H3 H4). split.
  - intros (rs & H). apply for_customer_in_Ok in H as (rs' & _ & Hrs).
    clear -Hrs. induction Hrs as [|c r cs rs Hr _ IH]; constructor; [|done].
    by eapply flat_of_is_customer.
  - intros Hc.
    destruct (for_customer_in_customers company_id company_name customers [] Hc)
      as (rs & -> & _).
    by eexists.
Qed.

Lemma flatten_returns_iff_witness :
  (exists flattened_customers,
     Py.flatten Sample.two_companies = Ok flattened_customers) <->
  Forall (fun c => Py.is_customer c = true) [Sample.carlos].
Proof.
  apply (flatten_returns_iff Sample.two_companies (VInt 1) Sample.acme
           (VStr "Acme") [Sample.globex] [Sample.carlos]); reflexivity.
Defined.

(** X8. Whatever the document, the only exceptions Step 1 raises are
    [KeyError], [IndexError] and [TypeError]; it never raises the
    [FileNotFoundError] that the entry point reports as a missing
    input. *)
Theorem flatten_raises_lookup_errors (data : value) (e : exn) :
  Py.flatten data = Raise e ->
  Py.lookup_error e = true /\ e <> FileNotFoundError.
Proof.
  intros H. apply flatten_Raise in H. split; [done|]. by intros ->.
Qed.

Lemma flatten_raises_lookup_errors_witness :
  Py.lookup_error IndexError = true /\ IndexError <> FileNotFoundError.
Proof.
  apply (flatten_raises_lookup_errors
           (VDict [("CompanyID", VInt 1); ("CompanyInfo", VList [])])).
  reflexivity.
Defined.

(** X9. A [Customers] value that is a string or an object instead of a
    list is iterated all the same: an empty one gives no record and no
    exception, a non-empty one raises [TypeError] at the first
    subscript, because its elements are strings. *)
Theorem flatten_customers_not_a_list (data company_id company0 company_name : value)
    (rest : list value) :
  Py.getitem data "CompanyID" = Ok company_id ->
  Py.getitem data "CompanyInfo" = Ok (VList (company0 :: rest)) ->
  Py.getitem company0 "Name" = Ok company_name ->
  (Py.getitem company0 "Customers" = Ok (VStr EmptyString) \/
   Py.getitem company0 "Customers" = Ok (VDict []) ->
   Py.flatten data = Ok []) /\
  (forall c s,
     Py.getitem company0 "Customers" = Ok (VStr (String c s)) ->
     Py.flatten data = Raise TypeError) /\
  (forall k v kv,
     Py.getitem company0 "Customers" = Ok (VDict ((k, v) :: kv)) ->
     Py.flatten data = Raise TypeError).
Proof.
  intros H1 H2 H3. unfold Py.flatten.
  rewrite H1. simpl. rewrite H2. simpl. rewrite H3. simpl.
  repeat split.
  - by intros [-> | ->].
  - by intros c s ->.
  - by intros k v kv ->.
Qed.

Lemma flatten_customers_not_a_list_witness :
  (Py.getitem (VDict [("Name", VStr "Acme"); ("Customers", VStr "none")])
     "Customers" = Ok (VStr EmptyString) \/
   Py.getitem (VDict [("Name", VStr "Acme"); ("Customers", VStr "none")])
     "Customers" = Ok (VDict []) ->
   Py.flatten
     (VDict [("CompanyID", VInt 1);
             ("CompanyInfo",
              VList [VDict [("Name", VStr "Acme"); ("Customers", VStr "none")]])])
     = Ok []) /\
  (forall c s,
     Py.getitem (VDict [("Name", VStr "Acme"); ("Customers", VStr "none")])
       "Customers" = Ok (VStr (String c s)) ->
     Py.flatten
       (VDict [("CompanyID", VInt 1);
               ("CompanyInfo",
                VList [VDict [("Name", VStr "Acme"); ("Customers", VStr "none")]])])
       = Raise TypeError) /\
  (forall k v kv,
     Py.getitem (VDict [("Name", VStr "Acme"); ("Customers", VStr "none")])
       "Customers" = Ok (VDict ((k, v) :: kv)) ->
     Py.flatten
       (VDict [("CompanyID", VInt 1);
               ("CompanyInfo",
                VList [VDict [("Name", VStr "Acme"); ("Customers", VStr "none")]])])
       = Raise TypeError).
Proof.
  apply (flatten_customers_not_a_list _ (VInt 1) _ (VStr "Acme") []);
    reflexivity.
Defined.

(** ** Creating the output directory (line 53) *)

Section Mkdir.

Lemma node_at_mono (cwd p : Fs.path) (s s' : Fs.fs) (n : node) :
  s ⊆ s' -> Fs.node_at cwd p s = Some n -> Fs.node_at cwd p s' = Some n.
Proof.
  unfold Fs.node_at. intros Hs. destruct (bool_decide _); [done|].
  intros H. by eapply lookup_weaken.
Qed.

Lemma node_at_insert_eq (cwd p : Fs.path) (s : Fs.fs) :
  Fs.node_at cwd p (<[p := Dir]> s) = Some Dir.
Proof. apply node_at_Dir. by rewrite lookup_insert_eq. Qed.

Lemma mkdir_from_Ok (todo : list string) (cwd cur : Fs.path) (s s' : Fs.fs) :
  Fs.mkdir_from cwd cur todo s = (Ok (), s') ->
  s ⊆ s' /\
  Forall (fun q => Fs.node_at cwd q s' = Some Dir) (Fs.passed_from cur todo) /\
  Fs.mkdir_from cwd cur todo s' = (Ok (), s').
Proof.
  revert cur s. induction todo as [|c todo IH]; intros cur s; simpl.
  - intros [= <-]. by repeat split.
  - destruct (Fs.node_at cwd (Fs.step cur c) s) as [[|f]|] eqn:E;
      [|discriminate|].
    + intros H. destruct (IH _ _ H) as (Hs & Hd & Hi).
      rewrite (node_at_mono _ _ _ _ _ Hs E). repeat split; try done.
      constructor; [|done]. by eapply node_at_mono.
    + intros H. destruct (IH _ _ H) as (Hs & Hd & Hi).
      assert (Hs1 : s ⊆ <[Fs.step cur c := Dir]> s).
      { apply insert_subseteq. by eapply node_at_None. }
      pose proof (node_at_insert_eq cwd (Fs.step cur c) s) as E1.
      rewrite (node_at_mono _ _ _ _ _ Hs E1). repeat split; try done.
      * by etrans.
      * constructor; [|done]. by eapply node_at_mono.
Qed.

(** The walk ends in a directory: the one the path string leads to. *)
Lemma mkdir_from_end (todo : list string) (cwd cur : Fs.path) (s s' : Fs.fs) :
  Fs.node_at cwd cur s = Some Dir ->
  Fs.mkdir_from cwd cur todo s = (Ok (), s') ->
  Fs.node_at cwd (fold_left Fs.step todo cur) s' = Some Dir.
Proof.
  revert cur s. induction todo as [|c todo IH]; intros cur s Hcur; simpl.
  - by intros [= <-].
  - destruct (Fs.node_at cwd (Fs.step cur c) s) as [[|f]|] eqn:E;
      [|discriminate|].
    + by apply IH.
    + apply IH, node_at_insert_eq.
Qed.

Lemma node_at_start (cwd : Fs.path) (file : string) (s : Fs.fs) :
  Fs.node_at cwd (Fs.start cwd file) s = Some Dir.
Proof.
  unfold Fs.node_at, Fs.start. rewrite bool_decide_eq_true_2; [done|].
  destruct (Fs.absolute file); [apply prefix_nil|done].
Qed.

(** A new directory turns no path into a regular file. *)
Lemma is_file_insert_dir (cwd p q : Fs.path) (s : Fs.fs) :
  Fs.node_at cwd p s = None ->
  Fs.is_file (Fs.node_at cwd q (<[p := Dir]> s))
    = Fs.is_file (Fs.node_at cwd q s).
Proof.
  intros Hp. unfold Fs.node_at in *.
  destruct (bool_decide (q `prefix_of` cwd)); [done|].
  destruct (decide (p = q)) as [->|Hne].
  - rewrite lookup_insert_eq.
    destruct (bool_decide (q `prefix_of` cwd)); [done|]. by rewrite Hp.
  - by rewrite lookup_insert_ne.
Qed.

Lemma mkdir_from_Ok_iff (todo : list string) (cwd cur : Fs.path) (s : Fs.fs) :
  (exists s', Fs.mkdir_from cwd cur todo s = (Ok (), s')) <->
  Forall (fun q => Fs.is_file (Fs.node_at cwd q s) = false)
         (Fs.passed_from cur todo).
Proof.
  revert cur s. induction todo as [|c todo IH]; intros cur s; simpl.
  - split; [constructor | by eexists].
  - destruct (Fs.node_at cwd (Fs.step cur c) s) as [[|f]|] eqn:E.
    + rewrite IH, Forall_cons, E. simpl. tauto.
    + rewrite Forall_cons, E. simpl. split.
      * intros [s' Hs']. discriminate Hs'.
      * intros [Hf _]. discriminate Hf.
    + rewrite IH, Forall_cons, E. simpl.
      rewrite !Forall_forall. split.
      * intros H. split; [done|]. intros q Hq.
        rewrite <- (is_file_insert_dir cwd _ q s E). by apply H.
      * intros [_ H] q Hq. rewrite (is_file_insert_dir cwd _ q s E).
        by apply H.
Qed.

Lemma mkdir_from_Raise (todo : list string) (cwd cur : Fs.path)
    (s s' : Fs.fs) (e : exn) :
  Fs.mkdir_from cwd cur todo s = (Raise e, s') ->
  e = FileExistsError \/ e = NotADirectoryError.
Proof.
  revert cur s. induction todo as [|c todo IH]; intros cur s; simpl;
    [discriminate|].
  destruct (Fs.node_at cwd (Fs.step cur c) s) as [[|f]|]; try apply IH.
  intros [= <- _]. destruct todo; auto.
Qed.

End Mkdir.

(** X10. When [mkdir] returns, the directory exists and so does every
    directory on the way to it, nothing that was there has changed, no
    regular file has been added, and creating the directory once more
    changes nothing. *)
Theorem mkdir_creates_once (cwd : Fs.path) (dir : string) (s s' : Fs.fs) :
  Fs.mkdir cwd dir s = (Ok (), s') ->
  Fs.node_at cwd (Fs.parse cwd dir) s' = Some Dir /\
  Forall (fun q => Fs.node_at cwd q s' = Some Dir) (Fs.passed cwd dir) /\
  s ⊆ s' /\
  Fs.files s' = Fs.files s /\
  Fs.mkdir cwd dir s' = (Ok (), s').
Proof.
  unfold Fs.mkdir, Fs.passed, Fs.parse. intros H.
  destruct (mkdir_from_Ok _ _ _ _ _ H) as (Hs & Hd & Hi).
  split; [|repeat split; try done; by eapply mkdir_from_files].
  eapply mkdir_from_end; [|done]. apply node_at_start.
Qed.

Lemma mkdir_creates_once_witness :
  Fs.node_at Sample.cwd (Fs.parse Sample.cwd OUTPUT_DIR)
    Sample.fs_without_input = Some Dir /\
  Forall (fun q => Fs.node_at Sample.cwd q Sample.fs_without_input = Some Dir)
         (Fs.passed Sample.cwd OUTPUT_DIR) /\
  (∅ : Fs.fs) ⊆ Sample.fs_without_input /\
  Fs.files Sample.fs_without_input = Fs.files ∅ /\
  Fs.mkdir Sample.cwd OUTPUT_DIR Sample.fs_without_input
    = (Ok (), Sample.fs_without_input).
Proof.
  apply (mkdir_creates_once Sample.cwd OUTPUT_DIR ∅ Sample.fs_without_input).
  reflexivity.
Defined.

(** X11. [mkdir] returns exactly when no path on the way to the
    directory, the directory itself included, is a regular file.
    Otherwise it raises [FileExistsError] or [NotADirectoryError], and
    the regular files are as before. *)
Theorem mkdir_returns_iff (cwd : Fs.path) (dir : string) (s : Fs.fs) :
  ((exists s', Fs.mkdir cwd dir s = (Ok (), s')) <->
   Forall (fun q => Fs.is_file (Fs.node_at cwd q s) = false)
          (Fs.passed cwd dir)) /\
  (forall e s',
     Fs.mkdir cwd dir s = (Raise e, s') ->
     (e = FileExistsError \/ e = NotADirectoryError) /\
     Fs.files s' = Fs.files s).
Proof.
  split; [apply mkdir_from_Ok_iff|].
  intros e s' H. split; [by eapply mkdir_from_Raise|].
  by eapply mkdir_from_files.
Qed.

(** ** What a run leaves untouched *)

Section Frame.

Local Notation "'keeps' outs m" :=
  (forall s r s', m s = (r, s') -> Fs.preserves outs s s')
  (at level 10, outs at level 9, m at level 9).

Lemma preserves_refl (outs : list Fs.path) (s : Fs.fs) :
  Fs.preserves outs s s.
Proof. by repeat split. Qed.

Lemma preserves_trans (outs : list Fs.path) (s1 s2 s3 : Fs.fs) :
  Fs.preserves outs s1 s2 -> Fs.preserves outs s2 s3 ->
  Fs.preserves outs s1 s3.
Proof.
  intros (F1 & D1 & R1) (F2 & D2 & R2). repeat split.
  - intros p Hp. by rewrite F2, F1.
  - auto.
  - auto.
Qed.

Lemma bind_keeps {A B : Type} (outs : list Fs.path)
    (m : Fs.io A) (f : A -> Fs.io B) :
  keeps outs m -> (forall a, keeps outs (f a)) -> keeps outs (m ≫= f).
Proof.
  intros Hm Hf s r s'. rewrite io_bind_eq.
  destruct (m s) as [[a|e] s1] eqn:E.
  - intros H. eapply preserves_trans; [by eapply Hm | by eapply Hf].
  - intros [= <- <-]. by eapply Hm.
Qed.

Lemma lift_keeps {A : Type} (outs : list Fs.path) (x : result A) :
  keeps outs (Fs.lift x).
Proof. intros s r s' [= _ <-]. apply preserves_refl. Qed.

Lemma mkdir_from_subseteq (todo : list string) (cwd cur : Fs.path)
    (s s' : Fs.fs) (r : result unit) :
  Fs.mkdir_from cwd cur todo s = (r, s') -> s ⊆ s'.
Proof.
  revert cur s. induction todo as [|c todo IH]; intros cur s; simpl.
  - by intros [= _ <-].
  - destruct (Fs.node_at cwd (Fs.step cur c) s) as [[|f]|] eqn:E.
    + apply IH.
    + by intros [= _ <-].
    + intros H. apply IH in H. etrans; [|exact H].
      apply insert_subseteq. by eapply node_at_None.
Qed.

Lemma mkdir_keeps (outs : list Fs.path) (cwd : Fs.path) (dir : string) :
  keeps outs (Fs.mkdir cwd dir).
Proof.
  intros s r s' H. pose proof (mkdir_from_subseteq _ _ _ _ _ _ H) as Hs.
  apply mkdir_from_files in H. repeat split.
  - intros q _. by rewrite H.
  - intros q Hq. by eapply lookup_weaken.
  - intros q Hq. destruct (s !! q) as [[|c]|] eqn:E; try discriminate.
    by rewrite (lookup_weaken _ _ _ _ E Hs).
Qed.

Lemma json_load_keeps (outs : list Fs.path) (cwd : Fs.path) (file : string) :
  keeps outs (Fs.json_load cwd file).
Proof.
  intros s r s' H. apply json_load_state in H as ->. apply preserves_refl.
Qed.

Lemma read_json_auto_keeps (outs : list Fs.path) (cwd : Fs.path)
    (file : string) :
  keeps outs (Fs.read_json_auto cwd file).
Proof.
  intros s r s' H. apply read_json_auto_state in H as ->. apply preserves_refl.
Qed.

Lemma insert_file_preserves (outs : list Fs.path) (cwd p : Fs.path)
    (c : content) (s : Fs.fs) :
  p ∈ outs -> Fs.is_dir (Fs.node_at cwd p s) = false ->
  Fs.preserves outs s (<[p := File c]> s).
Proof.
  intros Hp Hd. repeat split.
  - intros q Hq. unfold Fs.files. rewrite !lookup_omap.
    rewrite lookup_insert_ne; [done|]. by intros ->.
  - intros q Hq. rewrite lookup_insert_ne; [done|]. intros ->.
    by rewrite (node_at_Dir cwd _ _ Hq) in Hd.
  - intros q Hq. destruct (decide (p = q)) as [->|Hne].
    + by rewrite lookup_insert_eq.
    + by rewrite lookup_insert_ne.
Qed.

Lemma write_keeps (outs : list Fs.path) (cwd : Fs.path) (file : string)
    (c : content) :
  Fs.parse cwd file ∈ outs -> keeps outs (Fs.write cwd file c).
Proof.
  intros Hp s r s'. unfold Fs.write, Fs.writable.
  destruct (Fs.resolve cwd file s) as [p|] eqn:Er;
    [|intros [= _ <-]; apply preserves_refl].
  apply resolve_Ok in Er as ->.
  destruct (Fs.is_dir (Fs.node_at cwd (removelast _) s)); simpl;
    [|intros [= _ <-]; apply preserves_refl].
  destruct (Fs.is_dir (Fs.node_at cwd (Fs.parse cwd file) s)) eqn:E; simpl;
    intros [= _ <-]; [apply preserves_refl|].
  by eapply insert_file_preserves.
Qed.

Lemma read_parquet_keeps (outs : list Fs.path) (cwd : Fs.path)
    (file : string) :
  keeps outs (Fs.read_parquet cwd file).
Proof.
  intros s r s'. unfold Fs.read_parquet.
  destruct (Fs.found _ _ s) as [[|[| | |]]|]; intros [= _ <-];
    apply preserves_refl.
Qed.

Lemma connect_keeps (outs : list Fs.path) (cwd : Fs.path) (file : string) :
  Fs.parse cwd file ∈ outs -> keeps outs (Fs.connect cwd file).
Proof.
  intros Hp s r s'. unfold Fs.connect.
  destruct (Fs.resolve cwd file s) as [p|] eqn:Er;
    [|intros [= _ <-]; apply preserves_refl].
  apply resolve_Ok in Er as ->.
  destruct (Fs.node_at cwd (Fs.parse cwd file) s) as [[|[| | |]]|] eqn:E;
    try (intros [= _ <-]; apply preserves_refl).
  destruct (Fs.writable _ _ s); intros [= _ <-]; [|apply preserves_refl].
  eapply insert_file_preserves; [done|]. by rewrite E.
Qed.

Lemma create_table_if_not_exists_keeps (outs : list Fs.path) (cwd : Fs.path)
    (db_path name parquet_path : string) :
  Fs.parse cwd db_path ∈ outs ->
  keeps outs (Fs.create_table_if_not_exists cwd db_path name parquet_path).
Proof.
  intros Hp. unfold Fs.create_table_if_not_exists.
  apply bind_keeps; [by apply connect_keeps|]. intros tables.
  destruct (tables !! name).
  - intros s r s' [= _ <-]. apply preserves_refl.
  - apply bind_keeps; [apply read_parquet_keeps|]. intros t.
    by apply write_keeps.
Qed.

Lemma run_keeps (cwd : Fs.path) (json_file_path output_dir : string) :
  keeps [Fs.parse cwd (output_dir +:+ "/customers_secure.csv");
         Fs.parse cwd (output_dir +:+ "/customers_secure.parquet");
         Fs.parse cwd (output_dir +:+ "/customers.duckdb")]
        (flatten_and_transform_customer_data cwd json_file_path output_dir).
Proof.
  unfold flatten_and_transform_customer_data.
  apply bind_keeps; [apply mkdir_keeps|]. intros _.
  apply bind_keeps; [apply json_load_keeps|]. intros data.
  apply bind_keeps; [apply lift_keeps|]. intros _.
  apply bind_keeps; [apply read_json_auto_keeps|]. intros customers_raw.
  do 6 (apply bind_keeps; [apply lift_keeps|]; intros ?).
  apply bind_keeps; [apply write_keeps; rewrite !elem_of_cons; auto|].
  intros _.
  apply bind_keeps; [apply write_keeps; rewrite !elem_of_cons; auto|].
  intros _.
  apply create_table_if_not_exists_keeps. rewrite !elem_of_cons; auto.
Qed.

End Frame.



(** ** How a run with the configured paths ends *)

Section Outcomes.

Lemma mapM_Raise {A B : Type} (P : exn -> Prop) (f : A -> result B)
    (l : list A) (e : exn) :
  (forall x e, x ∈ l -> f x = Raise e -> P e) -> mapM f l = Raise e -> P e.
Proof.
  induction l as [|x l IH]; intros Hf; simpl; [discriminate|].
  destruct (f x) as [y|e'] eqn:E; simpl.
  - destruct (mapM f l) as [k|e'']; simpl; [discriminate|].
    intros [= <-]. apply IH; [|done].
    intros x' e' Hx. apply Hf. by right.
  - intros [= <-]. eapply Hf; [left|done].
Qed.

Lemma select_unnest_Raise (kept : list (string * string)) (list_col : string)
    (t : table) (e : exn) :
  Engine.select_unnest kept list_col t = Raise e -> e = DuckDBError.
Proof.
  unfold Engine.select_unnest. destruct (forallb _ _); [|by intros [= <-]].
  destruct (mapM _ (Engine.rows t)) as [rows'|e'] eqn:E; simpl; [discriminate|].
  intros [= <-]. revert E. apply (mapM_Raise (fun e => e = DuckDBError)).
  clear. intros row e _.
  destruct (Engine.unnest_cell _ _) as [sub|e1] eqn:Eu; simpl; [discriminate|].
  intros [= <-]. unfold Engine.unnest_cell in Eu.
  destruct (Engine.cell t row list_col); try by injection Eu as <-.
  - discriminate.
  - revert Eu. apply (mapM_Raise (fun e => e = DuckDBError)).
    intros x e _. unfold Engine.struct_row.
    destruct x; try discriminate; by intros [= <-].
Qed.

Lemma select_Raise (P : exn -> Prop) (items : list Engine.item) (t : table)
    (e : exn) :
  P DuckDBError ->
  Forall (fun i => match i with
                   | Engine.Fn f _ _ => forall v e, f v = Raise e -> P e
                   | _ => True
                   end) items ->
  Engine.select items t = Raise e -> P e.
Proof.
  intros HP Hi. unfold Engine.select.
  destruct (forallb _ _); [|by intros [= <-]].
  destruct (mapM _ (Engine.rows t)) as [rows'|e'] eqn:E; simpl; [discriminate|].
  intros [= <-]. revert E. apply (mapM_Raise P). clear e'. intros row e _.
  apply (mapM_Raise P). clear e. intros i e Hin.
  rewrite Forall_forall in Hi. specialize (Hi i Hin).
  destruct i as [c a|f c a|v a]; simpl; try discriminate. apply Hi.
Qed.

Lemma email_masked_Raise (v : value) (e : exn) :
  Engine.email_masked v = Raise e -> e <> FileNotFoundError.
Proof. destruct v; simpl; try discriminate; by intros [= <-]. Qed.

(** Steps 2 to 4 never raise the exception that stands for a missing
    input. *)
Lemma in_memory_Raise (data : value) (e : exn) :
  Engine.in_memory data = Raise e -> e <> FileNotFoundError.
Proof.
  unfold Engine.in_memory. intros H.
  destruct (Engine.read_json_auto data) as [raw|e1] eqn:E1; simpl in H.
  2:{ injection H as <-. destruct data; simpl in E1; try discriminate;
        by injection E1 as <-. }
  destruct (Engine.customers_flattened raw) as [cf|e2] eqn:E2; simpl in H.
  2:{ injection H as <-. by apply select_unnest_Raise in E2 as ->. }
  destruct (Engine.customers_tabular cf) as [ct|e3] eqn:E3; simpl in H.
  2:{ injection H as <-. by apply select_unnest_Raise in E3 as ->. }
  destruct (Engine.apply_mask_email ct) as [em|e4] eqn:E4; simpl in H.
  2:{ injection H as <-. unfold Engine.apply_mask_email in E4.
      destruct (Engine.has_column ct "Email"); [|by injection E4 as <-].
      revert E4. apply (mapM_Raise (fun e => e <> FileNotFoundError)).
      intros row e' _. destruct (Engine.cell ct row "Email");
        try discriminate; by intros [= <-]. }
  destruct (Engine.customers_secure ct em) as [cs|e5] eqn:E5; simpl in H.
  2:{ injection H as <-. revert E5.
      apply (select_Raise (fun e => e <> FileNotFoundError)); [done|].
      by repeat constructor. }
  destruct (Engine.customers_secure_sql ct) as [sql|e6] eqn:E6; simpl in H.
  2:{ injection H as <-. revert E6.
      apply (select_Raise (fun e => e <> FileNotFoundError)); [done|].
      repeat constructor. apply email_masked_Raise. }
  destruct (Engine.displayed sql) as [d|e7] eqn:E7; simpl in H; [discriminate|].
  injection H as <-. revert E7.
  apply (select_Raise (fun e => e <> FileNotFoundError)); [done|].
  by repeat constructor.
Qed.

(** Step 5 when a directory sits at the parquet path. *)
Lemma export_parquet_blocked (cwd : Fs.path) (s : Fs.fs) (t : table)
    (k : Fs.io unit) :
  s !! data_dir cwd = Some Dir ->
  Fs.is_dir (s !! csv_file cwd) = false ->
  s !! parquet_file cwd = Some Dir ->
  (Fs.copy_to_csv cwd t (OUTPUT_DIR +:+ "/customers_secure.csv");;
   Fs.copy_to_parquet cwd t (OUTPUT_DIR +:+ "/customers_secure.parquet");;
   k) s
  = (Raise DuckDBError, <[csv_file cwd := File (Csv t)]> s).
Proof.
  rewrite csv_file_eq, parquet_file_eq. intros Hd Hcsv Hpq.
  unfold Fs.copy_to_csv, Fs.copy_to_parquet.
  rewrite io_bind_eq, (write_output cwd _ "customers_secure.csv"), Hcsv;
    [|done..].
  rewrite io_bind_eq, (write_output cwd _ "customers_secure.parquet");
    [|done|done|done|done|].
  2:{ rewrite lookup_insert_ne; [done|]. apply data_dir_ne. }
  rewrite lookup_insert_ne by by apply in_data_dir_ne.
  by rewrite Hpq.
Qed.

End Outcomes.

(** X13. A first run in a data directory that holds a document which
    Steps 1 to 4 accept completes, and leaves the exported table in the
    CSV file, in the Parquet file and as the only table of a new
    database file. *)
Theorem first_run_completes (cwd : Fs.path) (s : Fs.fs) (data : value)
    (flattened_customers : list Py.flat_customer) (t : table) :
  s !! Fs.parse cwd OUTPUT_DIR = Some Dir ->
  s !! Fs.parse cwd JSON_FILE = Some (File (Text (Some data))) ->
  Py.flatten data = Ok flattened_customers ->
  Engine.in_memory data = Ok t ->
  Fs.is_dir (s !! csv_file cwd) = false ->
  Fs.is_dir (s !! parquet_file cwd) = false ->
  s !! db_file cwd = None ->
  main cwd s
    = (Completed,
       <[db_file cwd := File (Database {["customers_secure" := t]})]>
         (<[parquet_file cwd := File (Parquet t)]>
            (<[csv_file cwd := File (Csv t)]> s))).
Proof.
  intros Hd Hin Hfl Hmem Hcsv Hpq Hdb. unfold main.
  by rewrite (run_configured cwd s data flattened_customers t).
Qed.

Lemma first_run_completes_witness :
  main Sample.cwd (Sample.fs_with Sample.document)
    = (Completed,
       <[db_file Sample.cwd
           := File (Database {["customers_secure" := Sample.published]})]>
         (<[parquet_file Sample.cwd := File (Parquet Sample.published)]>
            (<[csv_file Sample.cwd := File (Csv Sample.published)]>
               (Sample.fs_with Sample.document)))).
Proof.
  by eapply (first_run_completes Sample.cwd (Sample.fs_with Sample.document)
               Sample.document).
Defined.

(** X14. When the database file already has a [customers_secure] table,
    a run rewrites the CSV and Parquet files and leaves the database
    file as it was: the table there is not refreshed. *)
Theorem rerun_keeps_database_table (cwd : Fs.path) (s : Fs.fs) (data : value)
    (flattened_customers : list Py.flat_customer) (t t0 : table)
    (tables : gmap string table) :
  s !! Fs.parse cwd OUTPUT_DIR = Some Dir ->
  s !! Fs.parse cwd JSON_FILE = Some (File (Text (Some data))) ->
  Py.flatten data = Ok flattened_customers ->
  Engine.in_memory data = Ok t ->
  Fs.is_dir (s !! csv_file cwd) = false ->
  Fs.is_dir (s !! parquet_file cwd) = false ->
  s !! db_file cwd = Some (File (Database tables)) ->
  tables !! "customers_secure" = Some t0 ->
  exists s',
    main cwd s = (Completed, s') /\
    s' !! csv_file cwd = Some (File (Csv t)) /\
    s' !! parquet_file cwd = Some (File (Parquet t)) /\
    s' !! db_file cwd = Some (File (Database tables)).
Proof.
  intros Hd Hin Hfl Hmem Hcsv Hpq Hdb Ht.
  exists (<[parquet_file cwd := File (Parquet t)]>
            (<[csv_file cwd := File (Csv t)]> s)).
  assert (Hne : csv_file cwd <> parquet_file cwd /\
                csv_file cwd <> db_file cwd /\
                parquet_file cwd <> db_file cwd).
  { rewrite csv_file_eq, parquet_file_eq, db_file_eq.
    repeat split; by apply in_data_dir_ne. }
  destruct Hne as (Hcp & Hcd & Hpd).
  split.
  - unfold main, flatten_and_transform_customer_data.
    rewrite (run_before_export cwd s data _ Hd Hin), Hfl, Hmem.
    rewrite (export_files cwd s t _ Hd Hcsv Hpq).
    rewrite (create_table_present cwd _ t0 tables); [done| |by rewrite !lookup_insert_ne|done].
    rewrite csv_file_eq, parquet_file_eq, !lookup_insert_ne; [done|..];
      apply data_dir_ne.
  - split; [|split].
    + rewrite lookup_insert_ne by done. by rewrite lookup_insert_eq.
    + by rewrite lookup_insert_eq.
    + by rewrite !lookup_insert_ne.
Qed.

Lemma rerun_keeps_database_table_witness :
  exists s',
    main Sample.cwd Sample.fs_second_run = (Completed, s') /\
    s' !! csv_file Sample.cwd = Some (File (Csv Sample.published_two)) /\
    s' !! parquet_file Sample.cwd
      = Some (File (Parquet Sample.published_two)) /\
    s' !! db_file Sample.cwd
      = Some (File (Database {["customers_secure" := Sample.published]})).
Proof.
  by eapply (rerun_keeps_database_table Sample.cwd Sample.fs_second_run
               Sample.two_companies _ Sample.published_two Sample.published).
Defined.

(** X15. The three exports are not one step: when a directory sits at
    the path of the Parquet file, the run raises there, after the CSV
    file has been written, and the entry point raises the exception
    again. *)
Theorem blocked_parquet_leaves_csv (cwd : Fs.path) (s : Fs.fs) (data : value)
    (flattened_customers : list Py.flat_customer) (t : table) :
  s !! Fs.parse cwd OUTPUT_DIR = Some Dir ->
  s !! Fs.parse cwd JSON_FILE = Some (File (Text (Some data))) ->
  Py.flatten data = Ok flattened_customers ->
  Engine.in_memory data = Ok t ->
  Fs.is_dir (s !! csv_file cwd) = false ->
  s !! parquet_file cwd = Some Dir ->
  main cwd s = (Propagated DuckDBError, <[csv_file cwd := File (Csv t)]> s).
Proof.
  intros Hd Hin Hfl Hmem Hcsv Hpq. apply main_Raise; [|done].
  unfold flatten_and_transform_customer_data.
  rewrite (run_before_export cwd s data _ Hd Hin), Hfl, Hmem.
  by apply export_parquet_blocked.
Qed.

Lemma blocked_parquet_leaves_csv_witness :
  main Sample.cwd Sample.fs_parquet_is_a_directory
    = (Propagated DuckDBError,
       <[csv_file Sample.cwd := File (Csv Sample.published)]>
         Sample.fs_parquet_is_a_directory).
Proof.
  by eapply (blocked_parquet_leaves_csv Sample.cwd
               Sample.fs_parquet_is_a_directory Sample.document).
Defined.

(** X16. An input file that holds no JSON document makes line 66 raise
    [ValueError]: the run stops with the file system as it was and the
    entry point raises the exception again. *)
Theorem invalid_json_aborts (cwd : Fs.path) (s : Fs.fs) (c : content) :
  s !! Fs.parse cwd OUTPUT_DIR = Some Dir ->
  s !! Fs.parse cwd JSON_FILE = Some (File c) ->
  (forall data, c <> Text (Some data)) ->
  flatten_and_transform_customer_data cwd JSON_FILE OUTPUT_DIR s
    = (Raise ValueError, s) /\
  main cwd s = (Propagated ValueError, s).
Proof.
  intros Hd Hin Hc.
  assert (H : flatten_and_transform_customer_data cwd JSON_FILE OUTPUT_DIR s
              = (Raise ValueError, s)).
  { unfold flatten_and_transform_customer_data.
    fold (data_dir cwd) in Hd. fold (input_file cwd) in Hin.
    pose proof (node_at_Dir cwd _ _ Hd) as Hn.
    rewrite io_bind_eq, mkdir_OUTPUT_DIR, Hn.
    rewrite io_bind_eq. unfold Fs.json_load. rewrite io_bind_eq.
    unfold Fs.open_read. rewrite (resolve_JSON_FILE _ _ Hn). unfold JSON_FILE.
    rewrite input_file_eq, node_at_in_data_dir, <- input_file_eq, Hin.
    destruct c as [[data|]| | |]; try done. by destruct (Hc data). }
  split; [done|]. by apply main_Raise.
Qed.

Lemma invalid_json_aborts_witness :
  flatten_and_transform_customer_data Sample.cwd JSON_FILE OUTPUT_DIR
    Sample.fs_not_json
    = (Raise ValueError, Sample.fs_not_json) /\
  main Sample.cwd Sample.fs_not_json
    = (Propagated ValueError, Sample.fs_not_json).
Proof.
  by apply (invalid_json_aborts Sample.cwd Sample.fs_not_json (Text None)).
Defined.

(** X17. A document that Step 1 or one of Steps 2 to 4 rejects stops
    the run before anything is exported: the file system is as it was,
    and the entry point raises the exception again (it is never the one
    reported as a missing input). *)
Theorem rejected_document_aborts (cwd : Fs.path) (s : Fs.fs) (data : value)
    (e : exn) :
  s !! Fs.parse cwd OUTPUT_DIR = Some Dir ->
  s !! Fs.parse cwd JSON_FILE = Some (File (Text (Some data))) ->
  Py.flatten data = Raise e \/
  ((exists flattened_customers, Py.flatten data = Ok flattened_customers) /\
   Engine.in_memory data = Raise e) ->
  flatten_and_transform_customer_data cwd JSON_FILE OUTPUT_DIR s
    = (Raise e, s) /\
  main cwd s = (Propagated e, s).
Proof.
  intros Hd Hin He.
  assert (H : flatten_and_transform_customer_data cwd JSON_FILE OUTPUT_DIR s
              = (Raise e, s)).
  { unfold flatten_and_transform_customer_data.
    rewrite (run_before_export cwd s data _ Hd Hin).
    destruct He as [-> | [[fc ->] ->]]; done. }
  split; [done|]. apply main_Raise; [done|].
  destruct He as [He | [_ He]].
  - apply flatten_Raise in He. by intros ->.
  - by apply in_memory_Raise in He.
Qed.

Lemma rejected_document_aborts_witness :
  flatten_and_transform_customer_data Sample.cwd JSON_FILE OUTPUT_DIR
    (Sample.fs_with Sample.no_company)
    = (Raise IndexError, Sample.fs_with Sample.no_company) /\
  main Sample.cwd (Sample.fs_with Sample.no_company)
    = (Propagated IndexError, Sample.fs_with Sample.no_company).
Proof.
  apply (rejected_document_aborts Sample.cwd
           (Sample.fs_with Sample.no_company) Sample.no_company IndexError);
    try reflexivity.
  left. reflexivity.
Defined.

(** ** The tables of Steps 2 to 7 *)

Section Tables.

Lemma mapM_map {A B : Type} (f : A -> result B) (g : A -> B) (l : list A) :
  (forall x, x ∈ l -> f x = Ok (g x)) -> mapM f l = Ok (map g l).
Proof.
  induction l as [|x l IH]; intros H; simpl; [done|].
  rewrite (H x) by left. simpl. rewrite IH; [done|].
  intros y Hy. apply H. by right.
Qed.

Lemma index_of_is_Some (c : string) (cols : list string) :
  is_Some (Engine.index_of c cols) <-> c ∈ cols.
Proof.
  induction cols as [|x cols IH]; simpl.
  - split; [by intros [? [=]] | by intros ?%elem_of_nil].
  - destruct (String.eqb x c) eqn:E.
    + apply String.eqb_eq in E as ->. split; [by left | by eexists].
    + apply String.eqb_neq in E. rewrite fmap_is_Some, IH, elem_of_cons.
      split; [by right|]. by intros [->|H].
Qed.

Lemma has_column_true (t : table) (c : string) :
  c ∈ Engine.columns t -> Engine.has_column t c = true.
Proof.
  intros H. unfold Engine.has_column. apply bool_decide_eq_true.
  by apply index_of_is_Some.
Qed.

(** Reading a cell: by the position of the column name. *)
Lemma cell_here (c : string) (cols : list string) (v : value)
    (row : list value) (rows : list (list value)) :
  Engine.cell {| Engine.columns := c :: cols; Engine.rows := rows |}
    (v :: row) c = v.
Proof. unfold Engine.cell. simpl. by rewrite String.eqb_refl. Qed.

Lemma cell_next (c x : string) (cols : list string) (v : value)
    (row : list value) (rows rows' : list (list value)) :
  x <> c ->
  Engine.cell {| Engine.columns := x :: cols; Engine.rows := rows |}
    (v :: row) c
  = Engine.cell {| Engine.columns := cols; Engine.rows := rows' |} row c.
Proof.
  intros H. unfold Engine.cell. simpl.
  apply String.eqb_neq in H. rewrite H.
  by destruct (Engine.index_of c cols).
Qed.

Lemma cell_fields (c : string) (fields : list string) (g : string -> value)
    (rows : list (list value)) :
  c ∈ fields ->
  Engine.cell {| Engine.columns := fields; Engine.rows := rows |}
    (map g fields) c = g c.
Proof.
  unfold Engine.cell. simpl. induction fields as [|x fields IH]; simpl.
  - by intros ?%elem_of_nil.
  - destruct (String.eqb x c) eqn:E.
    + apply String.eqb_eq in E as ->. done.
    + apply String.eqb_neq in E. rewrite elem_of_cons.
      intros [->|H]; [done|]. specialize (IH H).
      by destruct (Engine.index_of c fields).
Qed.

Lemma cell_dict (c : string) (kv : list (string * value))
    (rows : list (list value)) :
  Engine.cell {| Engine.columns := map fst kv; Engine.rows := rows |}
    (map snd kv) c = Py.get (VDict kv) c.
Proof.
  unfold Engine.cell, Py.get. simpl.
  induction kv as [|[k v] kv IH]; simpl; [done|].
  destruct (String.eqb k c); [done|].
  destruct (Engine.index_of c (map fst kv)); simpl in *;
    by destruct (Py.dict_get c kv).
Qed.

Lemma getitem_Ok (obj : value) (key : string) (v : value) :
  Py.getitem obj key = Ok v ->
  (exists kv, obj = VDict kv /\ Py.dict_get key kv = Some v) /\
  Py.get obj key = v.
Proof.
  intros H. unfold Py.get. rewrite H. split; [|done].
  unfold Py.getitem in H. destruct obj as [| | | | |kv]; try discriminate.
  exists kv. split; [done|]. destruct (Py.dict_get key kv); congruence.
Qed.

Lemma dict_get_key (k : string) (l : list (string * value)) (v : value) :
  Py.dict_get k l = Some v -> k ∈ map fst l.
Proof.
  induction l as [|[k' v'] l IH]; simpl; [discriminate|].
  destruct (String.eqb k' k) eqn:E.
  - apply String.eqb_eq in E as ->. by left.
  - right. by apply IH.
Qed.

End Tables.

(** ** The type of a list of flat objects *)

Section Shapes.

(** A path of one name is a field access. *)
Lemma extract_get (k : string) (v : value) :
  Engine.extract [k] v = Py.get v k.
Proof.
  unfold Py.get, Py.getitem. destruct v as [| | | | |kv]; try done.
  simpl. by destruct (Py.dict_get k kv).
Qed.

Lemma leaf_names (fields : list string) :
  map Engine.leaf_name (map (fun k => [k]) fields) = fields.
Proof. rewrite map_map. simpl. apply map_id. Qed.

Lemma leaves_flat (t : Engine.shape) :
  Engine.flat_struct t = true ->
  Engine.leaves t = map (fun k => [k]) (Engine.fields_of t).
Proof.
  destruct t as [| |fs]; try done. simpl.
  induction fs as [|[k x] fs IH]; simpl; [done|].
  intros [Hx Hfs]%andb_true_iff. rewrite IH by done. by destruct x.
Qed.

Lemma field_Some (k : string) (fs : list (string * Engine.shape))
    (t : Engine.shape) :
  Engine.field k fs = Some t -> In (k, t) fs.
Proof.
  induction fs as [|[k' t'] fs IH]; simpl; [discriminate|].
  destruct (String.eqb k' k) eqn:E.
  - apply String.eqb_eq in E as ->. intros [= ->]. by left.
  - intros H. right. by apply IH.
Qed.

Lemma field_None (k : string) (fs : list (string * Engine.shape)) :
  Engine.field k fs = None \/ k ∈ map fst fs.
Proof.
  induction fs as [|[k' t'] fs IH]; simpl; [by left|].
  destruct (String.eqb k' k) eqn:E.
  - apply String.eqb_eq in E as ->. right. by left.
  - destruct IH as [IH|IH]; [by left|]. right. by right.
Qed.

Lemma merge_plain (x y : Engine.shape) :
  Engine.is_struct x = false -> Engine.is_struct y = false ->
  Engine.is_struct (Engine.merge x y) = false.
Proof. by destruct x, y. Qed.

(** Putting two flat STRUCT types together gives a flat STRUCT type with
    the fields of both. *)
Lemma merge_flat (a b : Engine.shape) :
  a = Engine.Null \/ Engine.flat_struct a = true ->
  Engine.flat_struct b = true ->
  Engine.flat_struct (Engine.merge a b) = true /\
  (forall k, k ∈ Engine.fields_of a \/ k ∈ Engine.fields_of b ->
             k ∈ Engine.fields_of (Engine.merge a b)).
Proof.
  intros Ha Hb. destruct a as [| |fa].
  - simpl. split; [done|]. intros k [H|H]; [|done]. by apply elem_of_nil in H.
  - by destruct Ha.
  - destruct Ha as [|Ha]; [done|].
    destruct b as [| |fb]; try discriminate.
    cbn [Engine.merge Engine.flat_struct Engine.fields_of] in *.
    rewrite forallb_forall in Ha, Hb. split.
    + apply forallb_forall. intros e [He|He]%in_app_iff.
      * apply in_map_iff in He as ([k x] & <- & Hin). simpl.
        specialize (Ha _ Hin). simpl in Ha. apply negb_true_iff in Ha.
        destruct (Engine.field k fb) as [y|] eqn:Ef.
        -- apply field_Some, Hb in Ef. simpl in Ef.
           apply negb_true_iff in Ef. by rewrite merge_plain.
        -- by rewrite Ha.
      * apply list_elem_of_In, list_elem_of_filter in He as [_ He].
        by apply Hb, list_elem_of_In.
    + intros k Hk. rewrite map_app, elem_of_app, map_map. simpl.
      destruct Hk as [Hk|Hk]; [by left|].
      destruct (field_None k fa) as [Hn|Hn]; [|by left]. right.
      apply list_elem_of_In, in_map_iff in Hk as ([k' y] & <- & Hin).
      apply list_elem_of_In, in_map_iff. exists (k', y). split; [done|].
      apply list_elem_of_In, list_elem_of_filter. split.
      * by apply bool_decide_pack.
      * by apply list_elem_of_In.
Qed.

Lemma fold_merge_flat (ts : list Engine.shape) (acc : Engine.shape) :
  acc = Engine.Null \/ Engine.flat_struct acc = true ->
  Forall (fun t => Engine.flat_struct t = true) ts ->
  (Engine.flat_struct acc = true \/ ts <> [] ->
   Engine.flat_struct (fold_left Engine.merge ts acc) = true) /\
  (forall k,
     k ∈ Engine.fields_of acc \/
     (exists t, t ∈ ts /\ k ∈ Engine.fields_of t) ->
     k ∈ Engine.fields_of (fold_left Engine.merge ts acc)).
Proof.
  intros Hacc Hts. revert acc Hacc.
  induction Hts as [|t ts Ht _ IH]; intros acc Hacc; simpl.
  - split; [by intros [?|?]|].
    intros k [H|(t & Ht & _)]; [done|]. by apply elem_of_nil in Ht.
  - destruct (merge_flat acc t Hacc Ht) as [Hm Hk].
    destruct (IH (Engine.merge acc t) (or_intror Hm)) as [IH1 IH2].
    split; [intros _; apply IH1; by left|].
    intros k [H|(t' & [->|Ht']%elem_of_cons & Hin)]; apply IH2.
    + left. apply Hk. by left.
    + left. apply Hk. by right.
    + right. by exists t'.
Qed.

(** The type of a flat object: its keys, none of them a STRUCT. *)
Lemma shape_of_flat (kv : list (string * value)) :
  kv <> [] -> Engine.flat (VDict kv) = true ->
  Engine.flat_struct (Engine.shape_of (VDict kv)) = true /\
  Engine.fields_of (Engine.shape_of (VDict kv)) = map fst kv.
Proof.
  intros Hne Hf. destruct kv as [|p kv]; [done|].
  cbn [Engine.shape_of Engine.flat_struct Engine.fields_of Engine.flat] in *.
  split.
  - rewrite forallb_forall in Hf. apply forallb_forall.
    intros e ([k x] & <- & Hin)%in_map_iff. simpl.
    specialize (Hf _ Hin). simpl in Hf. by destruct x.
  - rewrite map_map. by apply map_ext.
Qed.

(** The element type of a list column whose elements are flat objects,
    one at least: a flat STRUCT with every key of every element. *)
Lemma element_shape_flat (cells : list value) :
  Forall (fun e => exists kv, e = VDict kv /\ kv <> [] /\
                              Engine.flat (VDict kv) = true)
         (concat (map Engine.elements cells)) ->
  concat (map Engine.elements cells) <> [] ->
  Engine.flat_struct (Engine.element_shape cells) = true /\
  (forall kv k,
     VDict kv ∈ concat (map Engine.elements cells) ->
     k ∈ map fst kv ->
     k ∈ Engine.fields_of (Engine.element_shape cells)).
Proof.
  intros Hall Hne. unfold Engine.element_shape.
  assert (Hts : Forall (fun t => Engine.flat_struct t = true)
                  (map Engine.shape_of (concat (map Engine.elements cells)))).
  { apply Forall_forall. intros t Ht.
    apply list_elem_of_In, in_map_iff in Ht as (e & <- & He).
    rewrite Forall_forall in Hall.
    destruct (Hall e) as (kv & -> & Hkv & Hf); [by apply list_elem_of_In|].
    by apply shape_of_flat. }
  destruct (fold_merge_flat _ Engine.Null (or_introl eq_refl) Hts) as [H1 H2].
  split.
  - apply H1. right. by destruct (concat _).
  - intros kv k Hin Hk. apply H2. right.
    exists (Engine.shape_of (VDict kv)). split.
    + apply list_elem_of_In, in_map_iff. exists (VDict kv).
      split; [done|]. by apply list_elem_of_In.
    + rewrite Forall_forall in Hall.
      destruct (Hall _ Hin) as (kv' & [= <-] & Hkv & Hf).
      by rewrite (proj2 (shape_of_flat kv Hkv Hf)).
Qed.

(** Unnesting a list column of flat objects: the columns are the
    fields, a row is what each object holds under them. *)
Lemma select_unnest_flat (kept : list (string * string)) (list_col : string)
    (t : table) (fields : list string) :
  forallb (Engine.has_column t) (list_col :: map fst kept) = true ->
  Engine.leaves
    (Engine.element_shape
       (map (fun row => Engine.cell t row list_col) (Engine.rows t)))
    = map (fun k => [k]) fields ->
  (forall row, row ∈ Engine.rows t ->
     exists l, Engine.cell t row list_col = VList l /\
               Forall (fun e => exists kv, e = VDict kv) l) ->
  Engine.select_unnest kept list_col t
  = Ok {| Engine.columns := map snd kept ++ fields;
          Engine.rows :=
            concat
              (map (fun row =>
                      map (fun e =>
                             map (fun k => Engine.cell t row (fst k)) kept
                             ++ map (Py.get e) fields)
                          (Engine.elements (Engine.cell t row list_col)))
                   (Engine.rows t)) |}.
Proof.
  intros Hcols Hleaves Hrows. unfold Engine.select_unnest.
  rewrite Hcols, Hleaves, leaf_names.
  rewrite (mapM_map _
             (fun row =>
                map (fun e =>
                       map (fun k => Engine.cell t row (fst k)) kept
                       ++ map (Py.get e) fields)
                    (Engine.elements (Engine.cell t row list_col)))); [done|].
  intros row Hrow. destruct (Hrows row Hrow) as (l & -> & Hl).
  cbn [Engine.unnest_cell Engine.elements].
  rewrite (mapM_map _ (fun e => map (Py.get e) fields)).
  - simpl. by rewrite map_map.
  - intros e He. rewrite Forall_forall in Hl.
    destruct (Hl e He) as [kv ->]. unfold Engine.struct_row.
    rewrite map_map. f_equal. apply map_ext. intros k. apply extract_get.
Qed.

End Shapes.

(** ** Steps 2 to 4 on a document of the accepted shape *)

Section EndToEnd.

Variables (kv : list (string * value)) (cid : value) (companies : list value).
Hypothesis Hcid : Py.dict_get "CompanyID" kv = Some cid.
Hypothesis Hci : Py.dict_get "CompanyInfo" kv = Some (VList companies).
Hypothesis Hcomp :
  Forall (fun company => Engine.accepted_company company = true) companies.
Hypothesis Hsome :
  exists company c, company ∈ companies /\ c ∈ Engine.customers_of company.

Local Abbreviation fields1 :=
  (Engine.fields_of (Engine.element_shape [VList companies])).
Local Abbreviation fields2 :=
  (Engine.fields_of
     (Engine.element_shape
        (map (fun company => Py.get company "Customers") companies))).

Lemma accepted_company_inv (company : value) :
  company ∈ companies ->
  exists ckv name customers,
    company = VDict ckv /\
    Py.dict_get "Name" ckv = Some name /\
    Py.dict_get "Customers" ckv = Some (VList customers) /\
    Py.get company "Name" = name /\
    Py.get company "Customers" = VList customers /\
    Engine.customers_of company = customers /\
    Forall (fun c => Engine.accepted_customer c = true) customers /\
    Engine.flat company = true.
Proof.
  intros Hin. rewrite Forall_forall in Hcomp. specialize (Hcomp _ Hin).
  unfold Engine.accepted_company in Hcomp.
  destruct (Py.getitem company "Name") as [name|] eqn:E1; [|discriminate].
  destruct (Py.getitem company "Customers") as [[| | | |customers|]|] eqn:E2;
    try discriminate.
  apply andb_true_iff in Hcomp as [Hcust Hflat].
  apply getitem_Ok in E1 as [(ckv & -> & D1) G1].
  apply getitem_Ok in E2 as [(ckv' & [= <-] & D2) G2].
  exists ckv, name, customers. unfold Engine.customers_of. rewrite G2.
  repeat split; try done. apply Forall_forall. intros c Hc.
  rewrite forallb_forall in Hcust. by apply Hcust, list_elem_of_In.
Qed.

Lemma accepted_customer_inv (c : value) :
  Engine.accepted_customer c = true ->
  (exists ckv, c = VDict ckv /\
     Forall (fun k => is_Some (Py.dict_get k ckv)) Py.customer_fields) /\
  Engine.email_cell (Py.get c "Email") = true /\
  Engine.flat c = true.
Proof.
  unfold Engine.accepted_customer.
  intros [[H1 H2]%andb_true_iff H3]%andb_true_iff.
  split; [|done]. unfold Py.is_customer in H1.
  destruct c as [| | | | |ckv]; try discriminate.
  exists ckv. split; [done|].
  apply Forall_forall. intros k Hk.
  rewrite forallb_forall in H1. apply list_elem_of_In, H1 in Hk.
  simpl in Hk. by destruct (Py.dict_get k ckv).
Qed.

Lemma get_CompanyInfo : Py.get (VDict kv) "CompanyInfo" = VList companies.
Proof. unfold Py.get. simpl. by rewrite Hci. Qed.

Lemma get_CompanyID : Py.get (VDict kv) "CompanyID" = cid.
Proof. unfold Py.get. simpl. by rewrite Hcid. Qed.

Lemma company_is_dict (company : value) :
  company ∈ companies -> exists ckv, company = VDict ckv.
Proof.
  intros H. destruct (accepted_company_inv _ H) as (ckv & ? & ? & -> & _).
  by exists ckv.
Qed.

Lemma customer_accepted (company c : value) :
  company ∈ companies -> c ∈ Engine.customers_of company ->
  Engine.accepted_customer c = true.
Proof.
  intros H Hc.
  destruct (accepted_company_inv _ H)
    as (? & ? & customers & _ & _ & _ & _ & _ & <- & Hf & _).
  rewrite Forall_forall in Hf. by apply Hf.
Qed.

Lemma customer_is_dict (company c : value) :
  company ∈ companies -> c ∈ Engine.customers_of company ->
  exists ckv, c = VDict ckv.
Proof.
  intros H Hc.
  destruct (accepted_customer_inv _ (customer_accepted _ _ H Hc))
    as [(ckv & -> & _) _].
  by exists ckv.
Qed.

Lemma companies_nonempty : companies <> [].
Proof.
  destruct Hsome as (company & _ & Hin & _). intros ->.
  by apply elem_of_nil in Hin.
Qed.

(** The companies are flat objects: the type of the elements of
    [CompanyInfo] is a flat STRUCT. *)
Lemma companies_shape :
  Engine.flat_struct (Engine.element_shape [VList companies]) = true /\
  (forall ckv k, VDict ckv ∈ companies -> k ∈ map fst ckv -> k ∈ fields1).
Proof.
  destruct (element_shape_flat [VList companies]) as [H1 H2].
  - simpl. rewrite app_nil_r. apply Forall_forall. intros company Hin.
    destruct (accepted_company_inv _ Hin)
      as (ckv & name & ? & -> & D1 & _ & _ & _ & _ & _ & Hf).
    exists ckv. repeat split; [|done]. by intros ->.
  - simpl. rewrite app_nil_r. apply companies_nonempty.
  - split; [done|]. intros ckv k Hin Hk. apply (H2 ckv); [|done].
    simpl. by rewrite app_nil_r.
Qed.

Lemma company_fields (k : string) :
  k = "Name" \/ k = "Customers" -> k ∈ fields1.
Proof.
  intros Hk. destruct Hsome as (company & c & Hin & _).
  destruct (accepted_company_inv _ Hin)
    as (ckv & name & customers & -> & D1 & D2 & _).
  apply (proj2 companies_shape ckv); [done|].
  destruct Hk as [-> | ->]; by eapply dict_get_key.
Qed.

Lemma elements_Customers :
  concat (map Engine.elements
            (map (fun company => Py.get company "Customers") companies))
  = concat (map Engine.customers_of companies).
Proof. by rewrite map_map. Qed.

Lemma in_customers (c : value) :
  c ∈ concat (map Engine.customers_of companies) <->
  exists company, company ∈ companies /\ c ∈ Engine.customers_of company.
Proof.
  rewrite list_elem_of_In, in_concat. split.
  - intros (l & Hl & Hc). apply in_map_iff in Hl as (company & <- & Hin).
    exists company. by rewrite !list_elem_of_In.
  - intros (company & Hin & Hc). exists (Engine.customers_of company).
    rewrite <- !list_elem_of_In. split; [|done].
    apply list_elem_of_In, in_map_iff. exists company.
    by rewrite <- list_elem_of_In.
Qed.

(** So are the customers. *)
Lemma customers_shape :
  Engine.flat_struct
    (Engine.element_shape
       (map (fun company => Py.get company "Customers") companies)) = true /\
  (forall company ckv k,
     company ∈ companies -> VDict ckv ∈ Engine.customers_of company ->
     k ∈ map fst ckv -> k ∈ fields2).
Proof.
  destruct (element_shape_flat
              (map (fun company => Py.get company "Customers") companies))
    as [H1 H2].
  - rewrite elements_Customers. apply Forall_forall.
    intros c (company & Hin & Hc)%in_customers.
    destruct (accepted_customer_inv _ (customer_accepted _ _ Hin Hc))
      as ((ckv & -> & Hkeys) & _ & Hf).
    exists ckv. repeat split; [|done]. intros ->.
    inversion Hkeys as [|? ? [? [=]] _].
  - rewrite elements_Customers. destruct Hsome as (company & c & Hin & Hc).
    intros Hnil. assert (H : c ∈ concat (map Engine.customers_of companies)).
    { apply in_customers. by exists company. }
    rewrite Hnil in H. by apply elem_of_nil in H.
  - split; [done|]. intros company ckv k Hin Hc Hk. apply (H2 ckv); [|done].
    rewrite elements_Customers. apply in_customers. by exists company.
Qed.

Lemma customer_fields_in (k : string) :
  k ∈ Py.customer_fields -> k ∈ fields2.
Proof.
  intros Hk. destruct Hsome as (company & c & Hin & Hc).
  destruct (accepted_customer_inv _ (customer_accepted _ _ Hin Hc))
    as ((ckv & -> & Hkeys) & _).
  rewrite Forall_forall in Hkeys. destruct (Hkeys k Hk) as [v Hv].
  apply (proj2 customers_shape company ckv); [done|done|].
  by eapply dict_get_key.
Qed.

(** Lines 101-107 on an accepted document. *)
Lemma customers_flattened_accepted :
  Engine.customers_flattened
    {| Engine.columns := map fst kv; Engine.rows := [map snd kv] |}
  = Ok {| Engine.columns := "CompanyID" :: fields1;
          Engine.rows :=
            map (fun company => cid :: map (Py.get company) fields1)
                companies |}.
Proof.
  unfold Engine.customers_flattened.
  rewrite (select_unnest_flat _ _ _ fields1).
  - cbn [map Engine.rows concat fst snd app Engine.columns].
    rewrite !cell_dict, get_CompanyInfo, get_CompanyID.
    cbn [Engine.elements]. by rewrite app_nil_r.
  - cbn [forallb map fst].
    by rewrite !has_column_true by (simpl; by eapply dict_get_key).
  - cbn [map Engine.rows]. rewrite cell_dict, get_CompanyInfo.
    apply leaves_flat, companies_shape.
  - intros row ->%list_elem_of_singleton. exists companies.
    rewrite cell_dict, get_CompanyInfo. split; [done|].
    apply Forall_forall. intros company Hin. by apply company_is_dict.
Qed.

Lemma cell_flattened (company : value) (k : string)
    (rows : list (list value)) :
  k <> "CompanyID" -> k ∈ fields1 ->
  Engine.cell {| Engine.columns := "CompanyID" :: fields1; Engine.rows := rows |}
    (cid :: map (Py.get company) fields1) k
  = Py.get company k.
Proof.
  intros Hne Hk. rewrite (cell_next _ _ _ _ _ _ rows) by done.
  by apply cell_fields.
Qed.

(** Lines 110-117 on an accepted document. *)
Lemma customers_tabular_accepted :
  Engine.customers_tabular
    {| Engine.columns := "CompanyID" :: fields1;
       Engine.rows :=
         map (fun company => cid :: map (Py.get company) fields1) companies |}
  = Ok {| Engine.columns := "CompanyID" :: "CompanyName" :: fields2;
          Engine.rows :=
            concat
              (map (fun company =>
                      map (fun c => cid :: Py.get company "Name"
                                        :: map (Py.get c) fields2)
                          (Engine.customers_of company))
                   companies) |}.
Proof.
  unfold Engine.customers_tabular.
  rewrite (select_unnest_flat _ _ _ fields2).
  - cbn [map Engine.rows fst snd app Engine.columns]. f_equal. f_equal.
    rewrite map_map. f_equal. apply map_ext. intros company.
    rewrite (cell_flattened company "Customers"),
            (cell_flattened company "Name"), cell_here
      by (try done; apply company_fields; auto).
    done.
  - cbn [forallb map fst Engine.columns].
    by rewrite !has_column_true
      by (simpl; first [by left | right; apply company_fields; auto]).
  - cbn [Engine.rows]. rewrite map_map.
    rewrite (map_ext _ (fun company => Py.get company "Customers"))
      by (intros company; apply cell_flattened;
          [done|apply company_fields; auto]).
    apply leaves_flat, customers_shape.
  - cbn [Engine.rows].
    intros row (company & <- & Hin%list_elem_of_In)%list_elem_of_In%in_map_iff.
    rewrite (cell_flattened company "Customers")
      by (try done; apply company_fields; auto).
    destruct (accepted_company_inv _ Hin)
      as (ckv & name & customers & Hd & _ & _ & Gn & Gc & Hco & _).
    exists customers. split; [done|]. apply Forall_forall. intros c Hc.
    apply (customer_is_dict company); [done|]. by rewrite Hco.
Qed.

Local Abbreviation tabular :=
  {| Engine.columns := "CompanyID" :: "CompanyName" :: fields2;
     Engine.rows :=
       concat
         (map (fun company =>
                 map (fun c => cid :: Py.get company "Name"
                                   :: map (Py.get c) fields2)
                     (Engine.customers_of company))
              companies) |}.

Lemma tabular_row (row : list value) :
  row ∈ Engine.rows tabular ->
  exists company c,
    company ∈ companies /\ c ∈ Engine.customers_of company /\
    Engine.accepted_customer c = true /\
    row = cid :: Py.get company "Name" :: map (Py.get c) fields2.
Proof.
  simpl. intros H. apply list_elem_of_In, in_concat in H as (l & Hl & Hr).
  apply in_map_iff in Hl as (company & <- & Hin).
  apply in_map_iff in Hr as (c & <- & Hc).
  apply list_elem_of_In in Hin, Hc.
  exists company, c. repeat split; try done.
  by apply (customer_accepted company).
Qed.

Lemma cell_tabular (name c : value) (k : string) :
  k ∈ Py.customer_fields ->
  Engine.cell tabular (cid :: name :: map (Py.get c) fields2) k = Py.get c k.
Proof.
  intros Hk.
  assert (k <> "CompanyID" /\ k <> "CompanyName") as [H1 H2].
  { unfold Py.customer_fields in Hk. rewrite !elem_of_cons in Hk.
    split; intros ->;
      destruct Hk as [?|[?|[?|[?|[?|[?|?%elem_of_nil]]]]]]; done. }
  rewrite (cell_next _ _ _ _ _ _ []) by done.
  rewrite (cell_next _ _ _ _ _ _ []) by done.
  by apply cell_fields, customer_fields_in.
Qed.

Lemma has_column_tabular (k : string) :
  k ∈ "CompanyID" :: "CompanyName" :: Py.customer_fields ->
  Engine.has_column tabular k = true.
Proof.
  intros Hk. apply has_column_true. simpl.
  rewrite !elem_of_cons in *. destruct Hk as [->|[->|Hk]]; auto.
  right. right. by apply customer_fields_in.
Qed.

Lemma select_rows (items : list Engine.item) (t : table)
    (g : list value -> list value) :
  forallb (Engine.bound t) items = true ->
  (forall row, row ∈ Engine.rows t ->
     mapM (Engine.eval t row) items = Ok (g row)) ->
  Engine.select items t
  = Ok {| Engine.columns := map Engine.alias_of items;
          Engine.rows := map g (Engine.rows t) |}.
Proof.
  intros Hb Hr. unfold Engine.select. rewrite Hb.
  by rewrite (mapM_map _ g).
Qed.

Lemma email_masked_cell (v : value) :
  Engine.email_cell v = true ->
  Engine.email_masked v = Ok (Engine.masked_cell v).
Proof. by destruct v. Qed.

(** The rows of the exported table, company by company. *)
Lemma exported_rows (g : list value -> list value) :
  (forall name c,
     g (cid :: name :: map (Py.get c) fields2)
       = Engine.exported_row cid name c) ->
  map g (Engine.rows tabular)
  = concat (map (fun company =>
                   map (Engine.exported_row cid (Py.get company "Name"))
                       (Engine.customers_of company))
                companies).
Proof.
  intros Hg. simpl. rewrite concat_map, map_map. f_equal.
  apply map_ext. intros company. rewrite map_map.
  apply map_ext. intros c. apply Hg.
Qed.

(** Lines 147-160 on an accepted document. *)
Lemma customers_secure_sql_accepted :
  Engine.customers_secure_sql tabular
  = Ok {| Engine.columns :=
            ["CompanyID"; "CompanyName"; "CustomerName"; "Email_Original";
             "Email_Masked"; "Phone"; "DateOfBirth"; "PlaceOfBirth"; "Role"];
          Engine.rows :=
            concat (map (fun company =>
                           map (Engine.exported_row cid (Py.get company "Name"))
                               (Engine.customers_of company))
                        companies) |}.
Proof.
  unfold Engine.customers_secure_sql.
  rewrite (select_rows _ _
             (fun row =>
                [Engine.cell tabular row "CompanyID";
                 Engine.cell tabular row "CompanyName";
                 Engine.cell tabular row "Name";
                 Engine.cell tabular row "Email";
                 Engine.masked_cell (Engine.cell tabular row "Email");
                 Engine.cell tabular row "Phone";
                 Engine.cell tabular row "Birth";
                 Engine.cell tabular row "Place of Birth";
                 Engine.cell tabular row "Role"])).
  - f_equal. f_equal. apply exported_rows. intros name c.
    unfold Engine.exported_row.
    rewrite (cell_tabular _ c "Name"), (cell_tabular _ c "Email"),
            (cell_tabular _ c "Phone"), (cell_tabular _ c "Birth"),
            (cell_tabular _ c "Place of Birth"), (cell_tabular _ c "Role")
      by (unfold Py.customer_fields; rewrite !elem_of_cons; auto 10).
    by rewrite cell_here, (cell_next _ _ _ _ _ _ []), cell_here.
  - cbn [forallb Engine.bound].
    by rewrite !has_column_tabular
      by (unfold Py.customer_fields; rewrite !elem_of_cons; auto 10).
  - intros row Hrow.
    destruct (tabular_row _ Hrow) as (company & c & _ & _ & Hc & ->).
    apply accepted_customer_inv in Hc as (_ & He & _).
    cbn [mapM Engine.eval]. simpl.
    rewrite (cell_tabular _ c "Name"), (cell_tabular _ c "Email"),
            (cell_tabular _ c "Phone"), (cell_tabular _ c "Birth"),
            (cell_tabular _ c "Place of Birth"), (cell_tabular _ c "Role")
      by (unfold Py.customer_fields; rewrite !elem_of_cons; auto 10).
    by rewrite (email_masked_cell _ He).
Qed.

Lemma apply_mask_email_accepted :
  exists Email_Masked, Engine.apply_mask_email tabular = Ok Email_Masked.
Proof.
  unfold Engine.apply_mask_email.
  rewrite has_column_tabular
    by (unfold Py.customer_fields; rewrite !elem_of_cons; auto 10).
  eexists.
  apply (mapM_map _ (fun row =>
           match Engine.cell tabular row "Email" with
           | VStr email => VStr (mask_email email)
           | _ => VNone
           end)).
  intros row Hrow.
  destruct (tabular_row _ Hrow) as (company & c & _ & _ & Hc & ->).
  apply accepted_customer_inv in Hc as (_ & He & _).
  rewrite (cell_tabular _ c "Email")
    by (unfold Py.customer_fields; rewrite !elem_of_cons; auto 10).
  by destruct (Py.get c "Email").
Qed.

Lemma customers_secure_accepted (Email_Masked : list value) :
  exists customers_secure,
    Engine.customers_secure tabular Email_Masked = Ok customers_secure.
Proof.
  unfold Engine.customers_secure. eexists. apply select_rows.
  - cbn [forallb Engine.bound].
    by rewrite !has_column_tabular
      by (unfold Py.customer_fields; rewrite !elem_of_cons; auto 10).
  - intros row _. reflexivity.
Qed.

Lemma displayed_accepted (rows : list (list value)) :
  exists displayed,
    Engine.displayed
      {| Engine.columns :=
           ["CompanyID"; "CompanyName"; "CustomerName"; "Email_Original";
            "Email_Masked"; "Phone"; "DateOfBirth"; "PlaceOfBirth"; "Role"];
         Engine.rows := rows |}
    = Ok displayed.
Proof.
  unfold Engine.displayed. eexists. apply select_rows; [done|].
  intros row _. reflexivity.
Qed.

Lemma in_memory_accepted :
  Engine.in_memory (VDict kv)
  = Ok {| Engine.columns :=
            ["CompanyID"; "CompanyName"; "CustomerName"; "Email_Original";
             "Email_Masked"; "Phone"; "DateOfBirth"; "PlaceOfBirth"; "Role"];
          Engine.rows :=
            concat (map (fun company =>
                           map (Engine.exported_row cid (Py.get company "Name"))
                               (Engine.customers_of company))
                        companies) |}.
Proof.
  unfold Engine.in_memory. cbn [Engine.read_json_auto mbind Py.result_bind].
  rewrite customers_flattened_accepted. cbn [mbind Py.result_bind].
  rewrite customers_tabular_accepted. cbn [mbind Py.result_bind].
  destruct apply_mask_email_accepted as [em ->]. cbn [mbind Py.result_bind].
  destruct (customers_secure_accepted em) as [cs ->].
  cbn [mbind Py.result_bind].
  rewrite customers_secure_sql_accepted. cbn [mbind Py.result_bind].
  by destruct (displayed_accepted
                 (concat (map (fun company =>
                    map (Engine.exported_row cid (Py.get company "Name"))
                        (Engine.customers_of company)) companies)))
    as [d ->].
Qed.

End EndToEnd.

Lemma accepted_inv (data : value) :
  Engine.accepted data = true ->
  exists kv cid companies,
    data = VDict kv /\
    Py.dict_get "CompanyID" kv = Some cid /\
    Py.dict_get "CompanyInfo" kv = Some (VList companies) /\
    Forall (fun company => Engine.accepted_company company = true) companies /\
    (exists company c,
       company ∈ companies /\ c ∈ Engine.customers_of company).
Proof.
  unfold Engine.accepted. intros H.
  destruct (Py.getitem data "CompanyID") as [cid|] eqn:E1; [|discriminate].
  destruct (Py.getitem data "CompanyInfo") as [[| | | |companies|]|] eqn:E2;
    try discriminate.
  apply getitem_Ok in E1 as [(kv & -> & D1) _].
  apply getitem_Ok in E2 as [(kv' & [= <-] & D2) _].
  apply andb_true_iff in H as [H1 H2].
  exists kv, cid, companies. repeat split; try done.
  - apply Forall_forall. intros company Hc.
    rewrite forallb_forall in H1. by apply H1, list_elem_of_In.
  - apply existsb_exists in H2 as (company & Hin & Hc).
    destruct (Engine.customers_of company) as [|c l] eqn:E; [discriminate|].
    exists company, c. split; [by apply list_elem_of_In|].
    rewrite E. by left.
Qed.

(** Steps 2 to 4 on an accepted document, with the table written out. *)
Lemma in_memory_of_accepted (data : value) :
  Engine.accepted data = true ->
  Engine.in_memory data
  = Ok {| Engine.columns :=
            ["CompanyID"; "CompanyName"; "CustomerName"; "Email_Original";
             "Email_Masked"; "Phone"; "DateOfBirth"; "PlaceOfBirth"; "Role"];
          Engine.rows :=
            concat
              (map (fun company =>
                      map (Engine.exported_row (Py.get data "CompanyID")
                             (Py.get company "Name"))
                          (Engine.customers_of company))
                   (Engine.elements (Py.get data "CompanyInfo"))) |}.
Proof.
  intros H.
  destruct (accepted_inv _ H) as (kv & cid & companies & -> & D1 & D2 & Hc & Hs).
  rewrite (get_CompanyID kv cid D1), (get_CompanyInfo kv companies D2).
  by apply in_memory_accepted.
Qed.

(** X18. On a document of the accepted shape, Steps 2 to 4 build the
    exported table with its nine columns and one row for every customer
    of every company of [CompanyInfo], in document order; the row holds
    the document's [CompanyID], the company's [Name], the customer's
    fields and the masked address. *)
Theorem in_memory_exports_every_customer (data : value) :
  Engine.accepted data = true ->
  Engine.in_memory data
  = Ok {| Engine.columns :=
            ["CompanyID"; "CompanyName"; "CustomerName"; "Email_Original";
             "Email_Masked"; "Phone"; "DateOfBirth"; "PlaceOfBirth"; "Role"];
          Engine.rows :=
            concat
              (map (fun company =>
                      map (Engine.exported_row (Py.get data "CompanyID")
                             (Py.get company "Name"))
                          (Engine.customers_of company))
                   (Engine.elements (Py.get data "CompanyInfo"))) |}.
Proof. apply in_memory_of_accepted. Qed.

Lemma in_memory_exports_every_customer_witness :
  Engine.in_memory Sample.two_companies
  = Ok {| Engine.columns :=
            ["CompanyID"; "CompanyName"; "CustomerName"; "Email_Original";
             "Email_Masked"; "Phone"; "DateOfBirth"; "PlaceOfBirth"; "Role"];
          Engine.rows :=
            concat
              (map (fun company =>
                      map (Engine.exported_row
                             (Py.get Sample.two_companies "CompanyID")
                             (Py.get company "Name"))
                          (Engine.customers_of company))
                   (Engine.elements
                      (Py.get Sample.two_companies "CompanyInfo"))) |}.
Proof.
  apply (in_memory_exports_every_customer Sample.two_companies). reflexivity.
Defined.

(** ** The tables made from [customers_tabular] *)

Section Derived.

Lemma Forall2_rows_length {A B : Type} (P : A -> B -> Prop) (l : list A)
    (k : list B) :
  Forall2 P l k -> length k = length l.
Proof. intros H. symmetry. by eapply Forall2_length. Qed.

(** Every row of the exported table has nine cells, the fifth a string
    that begins with the mask. *)
Lemma secure_sql_rows (customers_tabular t : table) :
  Engine.customers_secure_sql customers_tabular = Ok t ->
  Engine.columns t
    = ["CompanyID"; "CompanyName"; "CustomerName"; "Email_Original";
       "Email_Masked"; "Phone"; "DateOfBirth"; "PlaceOfBirth"; "Role"] /\
  Forall (fun row =>
            exists a b c d m f g h i,
              row = [a; b; c; d; VStr m; f; g; h; i] /\
              String.prefix "*******@" m = true)
         (Engine.rows t).
Proof.
  intros H. apply select_Ok in H as [Hc Hr]. split; [done|].
  clear Hc. induction Hr as [|row row' rows rows' H _ IH]; constructor; [|done].
  simpl in H.
  destruct (Engine.email_masked _) as [m|] eqn:Em; simpl in H; [|discriminate].
  injection H as <-.
  assert (exists s, m = VStr s /\ String.prefix "*******@" s = true)
    as (s & -> & Hs).
  { unfold Engine.email_masked in Em.
    destruct (Engine.cell customers_tabular row "Email");
      try discriminate; injection Em as <-; eexists; split; try done.
    apply prefix_app. }
  by repeat eexists.
Qed.

End Derived.

(** X19. The table printed by Step 4 has the columns of the exported
    table except [Email_Original], and its rows are the exported rows
    without that cell. *)
Theorem displayed_omits_Email_Original (customers_tabular t : table) :
  Engine.customers_secure_sql customers_tabular = Ok t ->
  exists displayed,
    Engine.displayed t = Ok displayed /\
    Engine.columns displayed
      = ["CompanyID"; "CompanyName"; "CustomerName"; "Email_Masked";
         "Phone"; "DateOfBirth"; "PlaceOfBirth"; "Role"] /\
    Engine.rows displayed
      = map (fun row => take 3 row ++ drop 4 row) (Engine.rows t).
Proof.
  intros H. apply secure_sql_rows in H as [Hc Hr].
  destruct t as [cols rows]. simpl in *. subst cols.
  exists {| Engine.columns :=
             ["CompanyID"; "CompanyName"; "CustomerName"; "Email_Masked";
              "Phone"; "DateOfBirth"; "PlaceOfBirth"; "Role"];
           Engine.rows := map (fun row => take 3 row ++ drop 4 row) rows |}.
  split; [|done]. unfold Engine.displayed.
  rewrite (select_rows _ _ (fun row => take 3 row ++ drop 4 row));
    [done|done|].
  intros row Hrow. rewrite Forall_forall in Hr.
  destruct (Hr row Hrow) as (a & b & c & d & m & f & g & h & i & -> & _).
  reflexivity.
Qed.

Lemma displayed_omits_Email_Original_witness :
  exists displayed,
    Engine.displayed Sample.published = Ok displayed /\
    Engine.columns displayed
      = ["CompanyID"; "CompanyName"; "CustomerName"; "Email_Masked";
         "Phone"; "DateOfBirth"; "PlaceOfBirth"; "Role"] /\
    Engine.rows displayed
      = map (fun row => take 3 row ++ drop 4 row)
            (Engine.rows Sample.published).
Proof.
  apply (displayed_omits_Email_Original
           {| Engine.columns :=
                ["CompanyID"; "CompanyName"; "Name"; "Email"; "Phone";
                 "Birth"; "Place of Birth"; "Role"];
              Engine.rows :=
                [[VInt 1; VStr "Acme"; VStr "Carlos";
                  VStr "carlos91@gmail.com"; VStr "555-0100";
                  VStr "1991-04-02"; VStr "Lima"; VStr "Owner"]] |}).
  reflexivity.
Defined.

(** X20. The check of Step 7 cannot fail on the exported table: every
    row is reported as masked correctly, also a row whose address has
    no ['@'] or is NULL. *)
Theorem verification_always_passes (customers_tabular t : table) :
  Engine.customers_secure_sql customers_tabular = Ok t ->
  exists verification,
    Engine.verification t = Ok verification /\
    Engine.columns verification
      = ["CustomerName"; "Email_Original"; "Email_Masked"; "MaskingStatus"] /\
    length (Engine.rows verification) = length (Engine.rows t) /\
    Forall (fun row =>
              Engine.cell verification row "MaskingStatus"
                = VStr "[OK] Masked Correctly")
           (Engine.rows verification).
Proof.
  intros H. apply secure_sql_rows in H as [Hc Hr].
  destruct t as [cols rows]. simpl in *. subst cols.
  exists {| Engine.columns :=
             ["CustomerName"; "Email_Original"; "Email_Masked";
              "MaskingStatus"];
           Engine.rows :=
             map (fun row => [nth 2 row VNone; nth 3 row VNone;
                              nth 4 row VNone; VStr "[OK] Masked Correctly"])
                 rows |}.
  split; [|split; [reflexivity|split]].
  - unfold Engine.verification.
    rewrite (select_rows _ _
             (fun row => [nth 2 row VNone; nth 3 row VNone; nth 4 row VNone;
                          VStr "[OK] Masked Correctly"])); [done|done|].
    intros row Hrow. rewrite Forall_forall in Hr.
    destruct (Hr row Hrow) as (a & b & c & d & m & f & g & h & i & -> & Hm).
    simpl. unfold Engine.cell. simpl. by rewrite Hm.
  - simpl. by rewrite length_map.
  - simpl. apply Forall_forall. intros row Hrow.
    apply list_elem_of_In, in_map_iff in Hrow as (row0 & <- & _).
    reflexivity.
Qed.

Lemma verification_always_passes_witness :
  exists verification,
    Engine.verification Sample.published = Ok verification /\
    Engine.columns verification
      = ["CustomerName"; "Email_Original"; "Email_Masked"; "MaskingStatus"] /\
    length (Engine.rows verification) = length (Engine.rows Sample.published) /\
    Forall (fun row =>
              Engine.cell verification row "MaskingStatus"
                = VStr "[OK] Masked Correctly")
           (Engine.rows verification).
Proof.
  apply (verification_always_passes
           {| Engine.columns :=
                ["CompanyID"; "CompanyName"; "Name"; "Email"; "Phone";
                 "Birth"; "Place of Birth"; "Role"];
              Engine.rows :=
                [[VInt 1; VStr "Acme"; VStr "Carlos";
                  VStr "carlos91@gmail.com"; VStr "555-0100";
                  VStr "1991-04-02"; VStr "Lima"; VStr "Owner"]] |}).
  reflexivity.
Defined.

(** X21. In the table of lines 131-144 the single parameter is the whole
    list of masked addresses: the table has one row per row of
    [customers_tabular], and the [Email_Masked] cell of each row is that
    list, as long as the table. *)
Theorem customers_secure_holds_the_list (customers_tabular customers_secure : table)
    (Email_Masked : list value) :
  Engine.apply_mask_email customers_tabular = Ok Email_Masked ->
  Engine.customers_secure customers_tabular Email_Masked = Ok customers_secure ->
  length Email_Masked = length (Engine.rows customers_tabular) /\
  length (Engine.rows customers_secure) = length (Engine.rows customers_tabular) /\
  Forall (fun row =>
            Engine.cell customers_secure row "Email_Masked"
              = VList Email_Masked)
         (Engine.rows customers_secure).
Proof.
  intros Hm Hs. split; [|split].
  - unfold Engine.apply_mask_email in Hm.
    destruct (Engine.has_column _ _); [|discriminate].
    apply mapM_Ok in Hm. by eapply Forall2_rows_length.
  - apply select_Ok in Hs as [_ Hr]. by eapply Forall2_rows_length.
  - apply select_Ok in Hs as [Hc Hr].
    induction Hr as [|row row' rows rows' H _ IH]; constructor; [|done].
    simpl in H. injection H as <-. unfold Engine.cell. by rewrite Hc.
Qed.

Lemma customers_secure_holds_the_list_witness :
  length Sample.masked_two = length (Engine.rows Sample.tabular_two) /\
  length (Engine.rows Sample.secure_two)
    = length (Engine.rows Sample.tabular_two) /\
  Forall (fun row =>
            Engine.cell Sample.secure_two row "Email_Masked"
              = VList Sample.masked_two)
         (Engine.rows Sample.secure_two).
Proof.
  apply (customers_secure_holds_the_list Sample.tabular_two Sample.secure_two
           Sample.masked_two); reflexivity.
Defined.

(** ** The published records *)

Section PublishedRecords.

Lemma files_None (s : Fs.fs) (p : Fs.path) :
  s !! p = None -> Fs.files s !! p = None.
Proof. intros H. unfold Fs.files. by rewrite lookup_omap, H. Qed.

(** A run that completes has taken the document of the input file
    through Step 1 and Steps 2 to 4 and leaves the table it built in
    the CSV file and in the Parquet file; the database file has a
    [customers_secure] table, that one if the run made the file. *)
Lemma run_publishes (cwd : Fs.path) (json_file_path output_dir : string)
    (s s' : Fs.fs) :
  flatten_and_transform_customer_data cwd json_file_path output_dir s
    = (Ok (), s') ->
  exists data flattened_customers t tables,
    s !! Fs.parse cwd json_file_path = Some (File (Text (Some data))) /\
    Py.flatten data = Ok flattened_customers /\
    Engine.in_memory data = Ok t /\
    s' !! Fs.parse cwd (output_dir +:+ "/customers_secure.csv")
      = Some (File (Csv t)) /\
    s' !! Fs.parse cwd (output_dir +:+ "/customers_secure.parquet")
      = Some (File (Parquet t)) /\
    s' !! Fs.parse cwd (output_dir +:+ "/customers.duckdb")
      = Some (File (Database tables)) /\
    is_Some (tables !! "customers_secure") /\
    (s !! Fs.parse cwd (output_dir +:+ "/customers.duckdb") = None ->
     tables !! "customers_secure" = Some t).
Proof.
  intros Hrun.
  destruct (run_Ok _ _ _ _ _ Hrun)
    as (data & fc & t & s1 & Hin & Hfl & Hmem & Hfiles & Hdb).
  destruct (export_database _ _ _ _ _ Hdb) as (tables & Hc & Hp & Hd & Hs & Ht).
  exists data, fc, t, tables. repeat split; try done.
  intros Hnone. apply Ht. rewrite Hfiles. by apply files_None.
Qed.

(** What is published for a document is the table of Steps 2 to 4. *)
Lemma run_publishes_table (data : value) (t : table) (cwd : Fs.path)
    (json_file_path output_dir : string) (s s' : Fs.fs) :
  Engine.in_memory data = Ok t ->
  flatten_and_transform_customer_data cwd json_file_path output_dir s
    = (Ok (), s') ->
  s !! Fs.parse cwd json_file_path = Some (File (Text (Some data))) ->
  s' !! Fs.parse cwd (output_dir +:+ "/customers_secure.csv")
    = Some (File (Csv t)) /\
  s' !! Fs.parse cwd (output_dir +:+ "/customers_secure.parquet")
    = Some (File (Parquet t)).
Proof.
  intros Hmem Hrun Hin.
  destruct (run_publishes _ _ _ _ _ Hrun)
    as (data' & fc & t' & tables & Hin' & _ & Hmem' & Hc & Hp & _).
  assert (data' = data) as -> by congruence.
  assert (t' = t) as -> by congruence.
  done.
Qed.

Lemma exported_Email_Original (company_id : value) (companies : list value)
    (rows : list (list value)) :
  map (fun row =>
         Engine.cell
           {| Engine.columns :=
                ["CompanyID"; "CompanyName"; "CustomerName"; "Email_Original";
                 "Email_Masked"; "Phone"; "DateOfBirth"; "PlaceOfBirth";
                 "Role"];
              Engine.rows := rows |} row "Email_Original")
      (concat (map (fun company =>
                      map (Engine.exported_row company_id
                             (Py.get company "Name"))
                          (Engine.customers_of company))
                   companies))
  = map (fun customer => Py.get customer "Email")
        (concat (map Engine.customers_of companies)).
Proof.
  rewrite !concat_map, !map_map. f_equal. apply map_ext. intros company.
  rewrite map_map. by apply map_ext.
Qed.

(** A record of Step 1, field by field. *)
Lemma flat_of_record (company_id company_name customer : value)
    (r : Py.flat_customer) :
  Py.flat_of company_id company_name customer = Ok r ->
  r = {| Py.CompanyID := company_id;
         Py.CompanyName := company_name;
         Py.CustomerName := Py.get customer "Name";
         Py.Email := Py.get customer "Email";
         Py.Phone := Py.get customer "Phone";
         Py.DateOfBirth := Py.get customer "Birth";
         Py.PlaceOfBirth := Py.get customer "Place of Birth";
         Py.Role := Py.get customer "Role" |}.
Proof.
  unfold Py.flat_of, Py.get. intros H.
  repeat match type of H with
         | context [Py.getitem customer ?k] =>
             destruct (Py.getitem customer k); simpl in H; [|discriminate]
         end.
  by injection H as <-.
Qed.

Lemma flat_of_records (company_id company_name : value)
    (customers : list value) (rs : list Py.flat_customer) :
  Forall2 (fun c r => Py.flat_of company_id company_name c = Ok r)
          customers rs ->
  rs = map (fun customer =>
              {| Py.CompanyID := company_id;
                 Py.CompanyName := company_name;
                 Py.CustomerName := Py.get customer "Name";
                 Py.Email := Py.get customer "Email";
                 Py.Phone := Py.get customer "Phone";
                 Py.DateOfBirth := Py.get customer "Birth";
                 Py.PlaceOfBirth := Py.get customer "Place of Birth";
                 Py.Role := Py.get customer "Role" |})
           customers.
Proof.
  induction 1 as [|c r cs rs Hr _ IH]; [done|]. simpl.
  by rewrite <- IH, <- (flat_of_record _ _ _ _ Hr).
Qed.

(** Step 1 on a document whose first company has well-formed
    customers. *)
Lemma flatten_first (data company_id company0 company_name : value)
    (rest customers : list value) :
  Py.getitem data "CompanyID" = Ok company_id ->
  Py.getitem data "CompanyInfo" = Ok (VList (company0 :: rest)) ->
  Py.getitem company0 "Name" = Ok company_name ->
  Py.getitem company0 "Customers" = Ok (VList customers) ->
  Forall (fun c => Py.is_customer c = true) customers ->
  Py.flatten data
  = Ok (map (fun customer =>
               {| Py.CompanyID := company_id;
                  Py.CompanyName := company_name;
                  Py.CustomerName := Py.get customer "Name";
                  Py.Email := Py.get customer "Email";
                  Py.Phone := Py.get customer "Phone";
                  Py.DateOfBirth := Py.get customer "Birth";
                  Py.PlaceOfBirth := Py.get customer "Place of Birth";
                  Py.Role := Py.get customer "Role" |})
            customers).
Proof.
  intros H1 H2 H3 H4 Hc.
  rewrite (flatten_head _ _ _ _ _ _ H1 H2 H3 H4).
  destruct (for_customer_in_customers company_id company_name customers [] Hc)
    as (rs & -> & Hrs).
  by rewrite (flat_of_records _ _ _ _ Hrs).
Qed.

Lemma accepted_is_customer (customers : list value) :
  Forall (fun c => Engine.accepted_customer c = true) customers ->
  Forall (fun c => Py.is_customer c = true) customers.
Proof.
  intros H. eapply Forall_impl; [exact H|].
  intros c. unfold Engine.accepted_customer.
  by intros [[? _]%andb_true_iff _]%andb_true_iff.
Qed.

(** The accepted documents with one company. *)
Lemma accepted_one_company (data company_id company company_name : value)
    (customers : list value) :
  Py.getitem data "CompanyID" = Ok company_id ->
  Py.getitem data "CompanyInfo" = Ok (VList [company]) ->
  Py.getitem company "Name" = Ok company_name ->
  Py.getitem company "Customers" = Ok (VList customers) ->
  Engine.flat company = true ->
  Forall (fun c => Engine.accepted_customer c = true) customers ->
  customers <> [] ->
  Engine.accepted data = true.
Proof.
  intros H1 H2 H3 H4 Hf Hc Hne. unfold Engine.accepted. rewrite H1, H2.
  cbn [forallb existsb]. unfold Engine.accepted_company. rewrite H3, H4, Hf.
  unfold Engine.customers_of. rewrite (proj2 (getitem_Ok _ _ _ H4)).
  cbn [Engine.elements]. rewrite !andb_true_r, orb_false_r.
  apply andb_true_iff. split.
  - apply forallb_forall. intros c Hin. rewrite Forall_forall in Hc.
    by apply Hc, list_elem_of_In.
  - by destruct customers.
Qed.

End PublishedRecords.

(** C1, as the code has it. A run that completes has read a document
    from the input file and leaves the table that Steps 2 to 4 build
    from it in the CSV file and in the Parquet file, and in the
    [customers_secure] table of the database file when the run creates
    that file. The table has nine columns, [Email_Original] and
    [Email_Masked] among them; on a document of the accepted shape its
    [Email_Original] cells are the [Email] values of the customers of
    the input, every customer of every company in document order,
    unchanged. The table that Step 4 prints is made from it without the
    column [Email_Original]. *)
Theorem published_tables_keep_Email_Original (cwd : Fs.path)
    (json_file_path output_dir : string) (s s' : Fs.fs) :
  flatten_and_transform_customer_data cwd json_file_path output_dir s
    = (Ok (), s') ->
  exists data t tables displayed,
    s !! Fs.parse cwd json_file_path = Some (File (Text (Some data))) /\
    Engine.in_memory data = Ok t /\
    s' !! Fs.parse cwd (output_dir +:+ "/customers_secure.csv")
      = Some (File (Csv t)) /\
    s' !! Fs.parse cwd (output_dir +:+ "/customers_secure.parquet")
      = Some (File (Parquet t)) /\
    s' !! Fs.parse cwd (output_dir +:+ "/customers.duckdb")
      = Some (File (Database tables)) /\
    is_Some (tables !! "customers_secure") /\
    (s !! Fs.parse cwd (output_dir +:+ "/customers.duckdb") = None ->
     tables !! "customers_secure" = Some t) /\
    Engine.columns t
      = ["CompanyID"; "CompanyName"; "CustomerName"; "Email_Original";
         "Email_Masked"; "Phone"; "DateOfBirth"; "PlaceOfBirth"; "Role"] /\
    (Engine.accepted data = true ->
     map (fun row => Engine.cell t row "Email_Original") (Engine.rows t)
     = map (fun customer => Py.get customer "Email")
           (concat (map Engine.customers_of
                      (Engine.elements (Py.get data "CompanyInfo"))))) /\
    Engine.displayed t = Ok displayed /\
    Engine.columns displayed
      = ["CompanyID"; "CompanyName"; "CustomerName"; "Email_Masked";
         "Phone"; "DateOfBirth"; "PlaceOfBirth"; "Role"].
Proof.
  intros Hrun.
  destruct (run_publishes _ _ _ _ _ Hrun)
    as (data & fc & t & tables & Hin & _ & Hmem & Hc & Hp & Hd & Hs & Ht).
  destruct (in_memory_Ok _ _ Hmem)
    as (raw & cf & ct & em & cs & d & _ & _ & _ & _ & _ & E6 & E7).
  exists data, t, tables, d.
  repeat (split; [done|]).
  split; [by apply customers_secure_sql_Ok in E6 as [? _]|].
  split; [|split; [done|by apply select_Ok in E7 as [? _]]].
  intros Hacc. rewrite (in_memory_of_accepted _ Hacc) in Hmem.
  injection Hmem as <-. apply exported_Email_Original.
Qed.

Lemma published_tables_keep_Email_Original_witness :
  exists data t tables displayed,
    Sample.fs_with Sample.document !! Fs.parse Sample.cwd JSON_FILE
      = Some (File (Text (Some data))) /\
    Engine.in_memory data = Ok t /\
    Sample.fs_published Sample.document Sample.published
      !! Fs.parse Sample.cwd (OUTPUT_DIR +:+ "/customers_secure.csv")
      = Some (File (Csv t)) /\
    Sample.fs_published Sample.document Sample.published
      !! Fs.parse Sample.cwd (OUTPUT_DIR +:+ "/customers_secure.parquet")
      = Some (File (Parquet t)) /\
    Sample.fs_published Sample.document Sample.published
      !! Fs.parse Sample.cwd (OUTPUT_DIR +:+ "/customers.duckdb")
      = Some (File (Database tables)) /\
    is_Some (tables !! "customers_secure") /\
    (Sample.fs_with Sample.document
       !! Fs.parse Sample.cwd (OUTPUT_DIR +:+ "/customers.duckdb") = None ->
     tables !! "customers_secure" = Some t) /\
    Engine.columns t
      = ["CompanyID"; "CompanyName"; "CustomerName"; "Email_Original";
         "Email_Masked"; "Phone"; "DateOfBirth"; "PlaceOfBirth"; "Role"] /\
    (Engine.accepted data = true ->
     map (fun row => Engine.cell t row "Email_Original") (Engine.rows t)
     = map (fun customer => Py.get customer "Email")
           (concat (map Engine.customers_of
                      (Engine.elements (Py.get data "CompanyInfo"))))) /\
    Engine.displayed t = Ok displayed /\
    Engine.columns displayed
      = ["CompanyID"; "CompanyName"; "CustomerName"; "Email_Masked";
         "Phone"; "DateOfBirth"; "PlaceOfBirth"; "Role"].
Proof.
  apply (published_tables_keep_Email_Original Sample.cwd JSON_FILE OUTPUT_DIR
           (Sample.fs_with Sample.document)).
  apply run_document.
Defined.

(** Counterexample to C1 as stated: on the one-customer document the run
    completes, and the CSV file, the Parquet file and the
    [customers_secure] table of the database file all have the column
    [Email_Original], which holds the customer's address in full. *)
Lemma published_tables_hold_original_address :
  exists s' t tables,
    main Sample.cwd (Sample.fs_with Sample.document) = (Completed, s') /\
    s' !! csv_file Sample.cwd = Some (File (Csv t)) /\
    s' !! parquet_file Sample.cwd = Some (File (Parquet t)) /\
    s' !! db_file Sample.cwd = Some (File (Database tables)) /\
    tables !! "customers_secure" = Some t /\
    Engine.columns t
      = ["CompanyID"; "CompanyName"; "CustomerName"; "Email_Original";
         "Email_Masked"; "Phone"; "DateOfBirth"; "PlaceOfBirth"; "Role"] /\
    map (fun row => Engine.cell t row "Email_Original") (Engine.rows t)
      = [VStr "carlos91@gmail.com"].
Proof.
  exists (Sample.fs_published Sample.document Sample.published),
         Sample.published, {["customers_secure" := Sample.published]}.
  destruct (fs_published_files Sample.document Sample.published)
    as (Hc & Hp & Hd).
  split; [unfold main; by rewrite run_document|].
  by repeat split.
Qed.




(** C10, as the code has it. On a document of the accepted shape with
    more than one company, no step raises. The list of Step 1 holds the
    records of the first company's customers and no other. The table
    that Steps 2 to 4 build, which is what a run that completes leaves
    in the CSV and in the Parquet file, begins with the rows of the
    first company's customers and goes on with a row for every customer
    of every later company. *)
Theorem later_companies_are_exported
    (data company_id company0 company_name : value)
    (rest customers : list value) :
  Engine.accepted data = true ->
  Py.getitem data "CompanyID" = Ok company_id ->
  Py.getitem data "CompanyInfo" = Ok (VList (company0 :: rest)) ->
  rest <> [] ->
  Py.getitem company0 "Name" = Ok company_name ->
  Py.getitem company0 "Customers" = Ok (VList customers) ->
  exists t,
    Py.flatten data
    = Ok (map (fun customer =>
                 {| Py.CompanyID := company_id;
                    Py.CompanyName := company_name;
                    Py.CustomerName := Py.get customer "Name";
                    Py.Email := Py.get customer "Email";
                    Py.Phone := Py.get customer "Phone";
                    Py.DateOfBirth := Py.get customer "Birth";
                    Py.PlaceOfBirth := Py.get customer "Place of Birth";
                    Py.Role := Py.get customer "Role" |})
              customers) /\
    Engine.in_memory data = Ok t /\
    Engine.rows t
    = map (Engine.exported_row company_id company_name) customers ++
      concat (map (fun company =>
                     map (Engine.exported_row company_id
                            (Py.get company "Name"))
                         (Engine.customers_of company))
                  rest) /\
    (forall company customer,
       company ∈ rest -> customer ∈ Engine.customers_of company ->
       Engine.exported_row company_id (Py.get company "Name") customer
         ∈ Engine.rows t) /\
    (forall cwd json_file_path output_dir s s',
       flatten_and_transform_customer_data cwd json_file_path output_dir s
         = (Ok (), s') ->
       s !! Fs.parse cwd json_file_path = Some (File (Text (Some data))) ->
       s' !! Fs.parse cwd (output_dir +:+ "/customers_secure.csv")
         = Some (File (Csv t)) /\
       s' !! Fs.parse cwd (output_dir +:+ "/customers_secure.parquet")
         = Some (File (Parquet t))).
Proof.
  intros Hacc H1 H2 _ H3 H4.
  pose proof (in_memory_of_accepted _ Hacc) as Hmem.
  destruct (accepted_inv _ Hacc)
    as (kv & cid & companies & -> & D1 & D2 & Hcomp & Hsome).
  assert (cid = company_id) as ->.
  { apply getitem_Ok in H1 as [(kv' & [= <-] & D1') _]. congruence. }
  assert (companies = company0 :: rest) as ->.
  { apply getitem_Ok in H2 as [(kv' & [= <-] & D2') _]. congruence. }
  rewrite (proj2 (getitem_Ok _ _ _ H1)), (proj2 (getitem_Ok _ _ _ H2)) in Hmem.
  cbn [Engine.elements map concat] in Hmem.
  unfold Engine.customers_of at 1 in Hmem.
  rewrite (proj2 (getitem_Ok _ _ _ H3)), (proj2 (getitem_Ok _ _ _ H4)) in Hmem.
  cbn [Engine.elements] in Hmem.
  destruct (accepted_company_inv _ Hcomp company0 ltac:(by left))
    as (ckv & name & customers' & -> & N1 & N2 & _ & Gc & _ & Hf & _).
  assert (customers' = customers) as ->.
  { rewrite (proj2 (getitem_Ok _ _ _ H4)) in Gc. congruence. }
  eexists.
  split; [by apply (flatten_first _ _ _ _ _ _ H1 H2 H3 H4),
                   accepted_is_customer|].
  split; [exact Hmem|]. split; [reflexivity|]. split.
  - intros company customer Hin Hc. cbn [Engine.rows].
    apply elem_of_app. right.
    apply list_elem_of_In, in_concat.
    exists (map (Engine.exported_row company_id (Py.get company "Name"))
                (Engine.customers_of company)).
    split; apply in_map_iff.
    + exists company. by rewrite <- list_elem_of_In.
    + exists customer. by rewrite <- list_elem_of_In.
  - intros cwd json_file_path output_dir s s' Hrun Hin.
    by apply (run_publishes_table (VDict kv) _ cwd json_file_path
                output_dir s s').
Qed.

Lemma later_companies_are_exported_witness :
  exists t,
    Py.flatten Sample.two_companies
    = Ok (map (fun customer =>
                 {| Py.CompanyID := VInt 1;
                    Py.CompanyName := VStr "Acme";
                    Py.CustomerName := Py.get customer "Name";
                    Py.Email := Py.get customer "Email";
                    Py.Phone := Py.get customer "Phone";
                    Py.DateOfBirth := Py.get customer "Birth";
                    Py.PlaceOfBirth := Py.get customer "Place of Birth";
                    Py.Role := Py.get customer "Role" |})
              [Sample.carlos]) /\
    Engine.in_memory Sample.two_companies = Ok t /\
    Engine.rows t
    = map (Engine.exported_row (VInt 1) (VStr "Acme")) [Sample.carlos] ++
      concat (map (fun company =>
                     map (Engine.exported_row (VInt 1)
                            (Py.get company "Name"))
                         (Engine.customers_of company))
                  [Sample.globex]) /\
    (forall company customer,
       company ∈ [Sample.globex] ->
       customer ∈ Engine.customers_of company ->
       Engine.exported_row (VInt 1) (Py.get company "Name") customer
         ∈ Engine.rows t) /\
    (forall cwd json_file_path output_dir s s',
       flatten_and_transform_customer_data cwd json_file_path output_dir s
         = (Ok (), s') ->
       s !! Fs.parse cwd json_file_path
         = Some (File (Text (Some Sample.two_companies))) ->
       s' !! Fs.parse cwd (output_dir +:+ "/customers_secure.csv")
         = Some (File (Csv t)) /\
       s' !! Fs.parse cwd (output_dir +:+ "/customers_secure.parquet")
         = Some (File (Parquet t))).
Proof.
  apply (later_companies_are_exported Sample.two_companies (VInt 1)
           Sample.acme (VStr "Acme") [Sample.globex] [Sample.carlos]);
    try reflexivity.
  discriminate.
Defined.

(** Counterexample to C10 as stated: on the document with two companies
    Step 1 keeps the first company's customer only, yet the run
    completes and the CSV file has a row for the customer of each
    company: the second company is not ignored. *)
Lemma second_company_is_exported :
  exists flattened_customers s' t,
    Py.flatten Sample.two_companies = Ok flattened_customers /\
    map Py.CompanyName flattened_customers = [VStr "Acme"] /\
    main Sample.cwd (Sample.fs_with Sample.two_companies) = (Completed, s') /\
    s' !! csv_file Sample.cwd = Some (File (Csv t)) /\
    map (fun row => Engine.cell t row "CompanyName") (Engine.rows t)
      = [VStr "Acme"; VStr "Globex"] /\
    map (fun row => Engine.cell t row "CustomerName") (Engine.rows t)
      = [VStr "Carlos"; VStr "Zoe"] /\
    map (fun row => Engine.cell t row "Email_Masked") (Engine.rows t)
      = [VStr "*******@gmail.com"; VStr "*******@example.org"].
Proof.
  eexists.
  exists (Sample.fs_published Sample.two_companies Sample.published_two),
         Sample.published_two.
  destruct (fs_published_files Sample.two_companies Sample.published_two)
    as (Hc & _ & _).
  split; [reflexivity|]. split; [reflexivity|].
  split; [unfold main; by rewrite run_two_companies|].
  by repeat split.
Qed.

(** X23. A second run on an unchanged input changes nothing: it
    completes and leaves the file system of the first run. *)
Theorem second_run_changes_nothing (cwd : Fs.path) (s : Fs.fs) (data : value)
    (flattened_customers : list Py.flat_customer) (t : table) :
  s !! Fs.parse cwd OUTPUT_DIR = Some Dir ->
  s !! Fs.parse cwd JSON_FILE = Some (File (Text (Some data))) ->
  Py.flatten data = Ok flattened_customers ->
  Engine.in_memory data = Ok t ->
  Fs.is_dir (s !! csv_file cwd) = false ->
  Fs.is_dir (s !! parquet_file cwd) = false ->
  s !! db_file cwd = None ->
  exists s1, main cwd s = (Completed, s1) /\ main cwd s1 = (Completed, s1).
Proof.
  intros Hd Hin Hfl Hmem Hcsv Hpq Hdb.
  fold (data_dir cwd) in Hd. fold (input_file cwd) in Hin.
  exists (<[db_file cwd := File (Database {["customers_secure" := t]})]>
            (<[parquet_file cwd := File (Parquet t)]>
               (<[csv_file cwd := File (Csv t)]> s))).
  split.
  - unfold main. by rewrite (run_configured cwd s data flattened_customers t).
  - set (s1 := <[db_file cwd := _]> _).
    assert (Hne : csv_file cwd <> parquet_file cwd /\
                  csv_file cwd <> db_file cwd /\
                  parquet_file cwd <> db_file cwd).
    { rewrite csv_file_eq, parquet_file_eq, db_file_eq.
      repeat split; by apply in_data_dir_ne. }
    destruct Hne as (Hcp & Hcd & Hpd).
    assert (H1d : s1 !! data_dir cwd = Some Dir).
    { unfold s1. rewrite csv_file_eq, parquet_file_eq, db_file_eq.
      rewrite !lookup_insert_ne; [done|..]; apply data_dir_ne. }
    assert (H1i : s1 !! input_file cwd = Some (File (Text (Some data)))).
    { unfold s1. rewrite csv_file_eq, parquet_file_eq, db_file_eq,
        input_file_eq in *.
      by rewrite !lookup_insert_ne by by apply in_data_dir_ne. }
    assert (H1c : s1 !! csv_file cwd = Some (File (Csv t))).
    { unfold s1. rewrite !lookup_insert_ne by done.
      by rewrite lookup_insert_eq. }
    assert (H1p : s1 !! parquet_file cwd = Some (File (Parquet t))).
    { unfold s1. rewrite lookup_insert_ne by done.
      by rewrite lookup_insert_eq. }
    assert (H1b : s1 !! db_file cwd
                  = Some (File (Database {["customers_secure" := t]}))).
    { unfold s1. by rewrite lookup_insert_eq. }
    unfold main, flatten_and_transform_customer_data.
    rewrite (run_before_export cwd s1 data _ H1d H1i), Hfl, Hmem.
    rewrite (export_files cwd s1 t _ H1d); [|by rewrite H1c|by rewrite H1p].
    rewrite (create_table_present cwd _ t {["customers_secure" := t]}).
    + by rewrite (insert_id s1 (csv_file cwd)),
                 (insert_id s1 (parquet_file cwd)).
    + rewrite csv_file_eq, parquet_file_eq, !lookup_insert_ne; [|apply data_dir_ne..].
      done.
    + by rewrite !lookup_insert_ne.
    + by rewrite lookup_singleton_eq.
Qed.

Lemma second_run_changes_nothing_witness :
  exists s1,
    main Sample.cwd (Sample.fs_with Sample.document) = (Completed, s1) /\
    main Sample.cwd s1 = (Completed, s1).
Proof.
  by eapply (second_run_changes_nothing Sample.cwd
               (Sample.fs_with Sample.document) Sample.document).
Defined.

(** ** Step 1 beside the exported table *)

Section TwoPaths.

Lemma length_concat_map {A B : Type} (f : value -> A -> B)
    (k : value -> list A) (l : list value) :
  length (concat (map (fun x => map (f x) (k x)) l))
  = length (concat (map k l)).
Proof.
  induction l as [|x l IH]; simpl; [done|].
  by rewrite !length_app, length_map, IH.
Qed.

End TwoPaths.

(** X22. On a document of the accepted shape Step 1 and the exported
    table part ways after the first company: the records of Step 1 are,
    cell for cell, the first rows of the exported table, and the table
    goes on with one row for every customer of the later companies. *)
Theorem export_begins_with_flatten (data : value) :
  Engine.accepted data = true ->
  exists flattened_customers t,
    Py.flatten data = Ok flattened_customers /\
    Engine.in_memory data = Ok t /\
    take (length flattened_customers) (Engine.rows t)
      = map Engine.record_row flattened_customers /\
    length (Engine.rows t)
      = length flattened_customers +
        length (concat (map Engine.customers_of
                          (tail (Engine.elements (Py.get data "CompanyInfo"))))).
Proof.
  intros H. pose proof (in_memory_of_accepted _ H) as Hmem.
  destruct (accepted_inv _ H) as (kv & cid & companies & -> & D1 & D2 & Hc & Hs).
  rewrite (get_CompanyID kv cid D1), (get_CompanyInfo kv companies D2) in *.
  destruct companies as [|c0 rest].
  { destruct Hs as (company & _ & Hin & _). by apply elem_of_nil in Hin. }
  destruct (accepted_company_inv _ Hc c0 ltac:(by left))
    as (ckv & name & customers & -> & N1 & N2 & Gn & Gc & Hco & Hf & _).
  eexists. eexists. split; [|split; [exact Hmem|]].
  - apply (flatten_first (VDict kv) cid (VDict ckv) name rest customers);
      try (unfold Py.getitem; by rewrite ?D1, ?D2, ?N1, ?N2).
    by apply accepted_is_customer.
  - cbn [Engine.rows Engine.elements map concat tail]. rewrite Hco, Gn.
    rewrite !length_map, map_map.
    assert (Hrows : map (Engine.exported_row cid name) customers
                    = map (fun c => Engine.record_row
                             {| Py.CompanyID := cid;
                                Py.CompanyName := name;
                                Py.CustomerName := Py.get c "Name";
                                Py.Email := Py.get c "Email";
                                Py.Phone := Py.get c "Phone";
                                Py.DateOfBirth := Py.get c "Birth";
                                Py.PlaceOfBirth := Py.get c "Place of Birth";
                                Py.Role := Py.get c "Role" |}) customers).
    { by apply map_ext. }
    rewrite Hrows. split.
    + rewrite <- (length_map
                    (fun c => Engine.record_row
                       {| Py.CompanyID := cid;
                          Py.CompanyName := name;
                          Py.CustomerName := Py.get c "Name";
                          Py.Email := Py.get c "Email";
                          Py.Phone := Py.get c "Phone";
                          Py.DateOfBirth := Py.get c "Birth";
                          Py.PlaceOfBirth := Py.get c "Place of Birth";
                          Py.Role := Py.get c "Role" |}) customers) at 1.
      by rewrite take_app_length.
    + by rewrite length_app, length_map, length_concat_map.
Qed.

Lemma export_begins_with_flatten_witness :
  exists flattened_customers t,
    Py.flatten Sample.two_companies = Ok flattened_customers /\
    Engine.in_memory Sample.two_companies = Ok t /\
    take (length flattened_customers) (Engine.rows t)
      = map Engine.record_row flattened_customers /\
    length (Engine.rows t)
      = length flattened_customers +
        length (concat (map Engine.customers_of
                          (tail (Engine.elements
                                   (Py.get Sample.two_companies "CompanyInfo"))))).
Proof.
  apply (export_begins_with_flatten Sample.two_companies). reflexivity.
Defined.
